(** * AgentHost: mission negotiation and world-state aggregation

    A shallow embedding of [Malmo/src/AgentHost.cpp].  The member functions
    of [AgentHost] are state transformers over a record that holds the
    object's fields; member functions that can leave with a C++ exception are
    written in a state-and-exception monad in which a [throw] keeps every
    mutation made before it, as the C++ does.

    Conventions.
    - [boost::lock_guard] on [world_state_mutex]: every handler runs to its
      end under the lock, so each one is one atomic transformer.
    - C++ [int] values are [Z]; [%] is [Z.rem]; the narrowing to [short] in
      [listenForVideo] is written out.  Signed overflow is undefined in C++
      and is outside the model.
    - Dereferencing an empty [boost::shared_ptr] and indexing a vector out
      of range are undefined; the model leaves through
      [undefined_behaviour] there, which keeps it total.
    - Classes declared in other files of the repository (WorldState,
      TimestampedReward, MissionInitSpec, StringServer, ...) are modelled by
      records; their member functions that parse or touch the network are
      variables of the section.
    - Debug printing to [std::cout] is not part of the state.
    - Embedded: startMission, initializeOurServers, the four listenFor
      functions, generateMissionInit, reserveClients, findServer, findClient,
      peekWorldState, getWorldState, the policy setters, the handlers
      onMissionControlMessage, onVideo, onReward, onObservation,
      processReceivedReward, openCommandsConnection and close.  The
      constructor's option parsing, the schema self-check and sendCommand do
      not bear on the properties below and are left out. *)

From Stdlib Require Import ZArith List String Ascii Bool Lia.
From Stdlib Require Import DecimalString.
Import ListNotations.

Local Open Scope string_scope.
Local Open Scope Z_scope.

(** ** Strings *)

(** The newline character of the C++ literals. *)
Definition nl : string := String (ascii_of_nat 10) EmptyString.

(** [std::to_string] on an [int]. *)
Definition to_string (z : Z) : string := NilZero.string_of_int (Z.to_int z).

(** [s.substr(pos)]: the rest of the string from [pos]. *)
Definition substr_from (pos : nat) (s : string) : string :=
  substring pos (String.length s - pos) s.

(** [boost::split(parts, s, pred)] as [testSchemasCompatible] calls it: [s]
    cut at every character that satisfies [pred]; adjacent separators give
    empty parts, and there is always one part more than separators. *)
Fixpoint boost_split (pred : ascii -> bool) (s : string) : list string :=
  match s with
  | EmptyString => [EmptyString]
  | String c rest =>
      if pred c then EmptyString :: boost_split pred rest
      else match boost_split pred rest with
           | first :: others => String c first :: others
           | [] => [String c EmptyString]
           end
  end.

(** ** Data model *)

(** A point in time ([boost::posix_time::ptime]). *)
Definition ptime := Z.

Record ClientInfo := mkClientInfo
  { ip_address : string;
    port : Z }.

Record ClientPool := mkClientPool
  { clients : list ClientInfo }.

(** [ClientPool::add]: [push_back] on the vector. *)
Definition ClientPool_add (p : ClientPool) (item : ClientInfo) : ClientPool :=
  mkClientPool (clients p ++ [item]).

Record TimestampedString := mkTimestampedString
  { timestamp : ptime;
    text : string }.

(** Modelled from the spec: TimestampedReward (TimestampedReward.h is not
    under src/): "immutable, timestamp + payload value objects".  The payload
    type [V] is left open. *)
Record TimestampedReward (V : Type) := mkTimestampedReward
  { reward_timestamp : ptime;
    reward_values : V }.
Arguments mkTimestampedReward {V}.
Arguments reward_timestamp {V}.
Arguments reward_values {V}.

(** Modelled from the spec: TimestampedVideoFrame (not under src/). *)
Record TimestampedVideoFrame := mkTimestampedVideoFrame
  { frame_timestamp : ptime;
    frame_width : Z;
    frame_height : Z;
    frame_channels : Z;
    pixels : list Z }.

Inductive VideoPolicy := LATEST_FRAME_ONLY | KEEP_ALL_FRAMES.
Inductive RewardsPolicy := LATEST_REWARD_ONLY | SUM_REWARDS | KEEP_ALL_REWARDS.
Inductive ObservationsPolicy := LATEST_OBSERVATION_ONLY | KEEP_ALL_OBSERVATIONS.

(** Modelled from the spec: WorldState (WorldState.h is not under src/): the
    two flags, the three since-last-state counters and the five sequences
    that AgentHost.cpp reads and writes. *)
Record WorldState (V : Type) := mkWorldState
  { is_mission_running : bool;
    has_mission_begun : bool;
    number_of_video_frames_since_last_state : Z;
    number_of_rewards_since_last_state : Z;
    number_of_observations_since_last_state : Z;
    video_frames : list TimestampedVideoFrame;
    rewards : list (TimestampedReward V);
    observations : list TimestampedString;
    mission_control_messages : list TimestampedString;
    errors : list TimestampedString }.
Arguments mkWorldState {V}.
Arguments is_mission_running {V}.
Arguments has_mission_begun {V}.
Arguments number_of_video_frames_since_last_state {V}.
Arguments number_of_rewards_since_last_state {V}.
Arguments number_of_observations_since_last_state {V}.
Arguments video_frames {V}.
Arguments rewards {V}.
Arguments observations {V}.
Arguments mission_control_messages {V}.
Arguments errors {V}.

(** Modelled from the spec: WorldState::clear (WorldState.cpp is not under
    src/): "all sequences and counters reset to empty/zero", "clear
    WorldState (flags false)"; the comment in [startMission] says the same of
    [is_mission_running]. *)
Definition WorldState_clear {V} (w : WorldState V) : WorldState V :=
  mkWorldState false false 0 0 0 [] [] [] [] [].

(** Modelled from the spec: MissionSpec (not under src/), "exposed only as
    typed values": the accessors [startMission] calls. *)
Record MissionSpec := mkMissionSpec
  { getNumberOfAgents : Z;
    isVideoRequested : Z -> bool;
    getVideoWidth : Z -> Z;
    getVideoHeight : Z -> Z;
    getVideoChannels : Z -> Z }.

(** Modelled from the spec: MissionRecordSpec and MissionRecord (not under
    src/): what is recorded, and where. *)
Record MissionRecord := mkMissionRecord
  { isRecording : bool;
    isRecordingCommands : bool;
    isRecordingMP4 : bool;
    isRecordingRewards : bool;
    isRecordingObservations : bool;
    getCommandsPath : string;
    getMP4Path : string;
    getMP4FramesPerSecond : Z;
    getMP4BitRate : Z;
    getRewardsPath : string;
    getObservationsPath : string;
    getMissionInitPath : string;
    getTemporaryDirectory : string }.

(** Modelled from the spec: MissionInitSpec (not under src/), the
    negotiation record: "assigned ports for each telemetry channel, resolved
    address/port of the chosen remote host, resolved address/port of the
    shared-simulation-server host (if any), participant role index, unique
    experiment identifier". *)
Record MissionInitSpec := mkMissionInitSpec
  { getExperimentID : string;
    getRole : Z;
    getAgentMissionControlPort : Z;
    getAgentVideoPort : Z;
    getAgentRewardsPort : Z;
    getAgentObservationsPort : Z;
    getClientAddress : string;
    getClientMissionControlPort : Z;
    getClientCommandsPort : Z;
    getMinecraftServerInformation : option (string * Z) }.

Definition hasMinecraftServerInformation (m : MissionInitSpec) : bool :=
  match getMinecraftServerInformation m with Some _ => true | None => false end.

Definition setAgentMissionControlPort (p : Z) (m : MissionInitSpec) :=
  mkMissionInitSpec (getExperimentID m) (getRole m) p (getAgentVideoPort m)
    (getAgentRewardsPort m) (getAgentObservationsPort m) (getClientAddress m)
    (getClientMissionControlPort m) (getClientCommandsPort m)
    (getMinecraftServerInformation m).

Definition setAgentVideoPort (p : Z) (m : MissionInitSpec) :=
  mkMissionInitSpec (getExperimentID m) (getRole m)
    (getAgentMissionControlPort m) p
    (getAgentRewardsPort m) (getAgentObservationsPort m) (getClientAddress m)
    (getClientMissionControlPort m) (getClientCommandsPort m)
    (getMinecraftServerInformation m).

Definition setAgentRewardsPort (p : Z) (m : MissionInitSpec) :=
  mkMissionInitSpec (getExperimentID m) (getRole m)
    (getAgentMissionControlPort m) (getAgentVideoPort m)
    p (getAgentObservationsPort m) (getClientAddress m)
    (getClientMissionControlPort m) (getClientCommandsPort m)
    (getMinecraftServerInformation m).

Definition setAgentObservationsPort (p : Z) (m : MissionInitSpec) :=
  mkMissionInitSpec (getExperimentID m) (getRole m)
    (getAgentMissionControlPort m) (getAgentVideoPort m)
    (getAgentRewardsPort m) p (getClientAddress m)
    (getClientMissionControlPort m) (getClientCommandsPort m)
    (getMinecraftServerInformation m).

Definition setClientAddress (a : string) (m : MissionInitSpec) :=
  mkMissionInitSpec (getExperimentID m) (getRole m)
    (getAgentMissionControlPort m) (getAgentVideoPort m)
    (getAgentRewardsPort m) (getAgentObservationsPort m) a
    (getClientMissionControlPort m) (getClientCommandsPort m)
    (getMinecraftServerInformation m).

Definition setClientMissionControlPort (p : Z) (m : MissionInitSpec) :=
  mkMissionInitSpec (getExperimentID m) (getRole m)
    (getAgentMissionControlPort m) (getAgentVideoPort m)
    (getAgentRewardsPort m) (getAgentObservationsPort m) (getClientAddress m)
    p (getClientCommandsPort m)
    (getMinecraftServerInformation m).

Definition setMinecraftServerInformation (a : string) (p : Z)
    (m : MissionInitSpec) :=
  mkMissionInitSpec (getExperimentID m) (getRole m)
    (getAgentMissionControlPort m) (getAgentVideoPort m)
    (getAgentRewardsPort m) (getAgentObservationsPort m) (getClientAddress m)
    (getClientMissionControlPort m) (getClientCommandsPort m)
    (Some (a, p)).

(** An exception of the XML binding ([xml_schema::exception]): [what()] and
    the details printed by [operator<<]. *)
Record xml_schema_exception := mkXmlException
  { xml_what : string;
    xml_details : string }.

(** Modelled from the spec: the MissionEnded document (MissionEnded.h is
    generated, not under src/): "carries a status code and optional final
    reward"; every status other than the two normal ones is abnormal. *)
Inductive MissionResult :=
  | ENDED
  | PLAYER_DIED
  | ABNORMAL (code : string).

Record MissionEnded (V : Type) := mkMissionEnded
  { Status : MissionResult;
    HumanReadableStatus : string;
    Reward : option V }.
Arguments mkMissionEnded {V}.
Arguments Status {V}.
Arguments HumanReadableStatus {V}.
Arguments Reward {V}.

(** Modelled from the spec: StringServer (not under src/): a listener bound
    to a port, with an optional file writer for the messages it records. *)
Record StringServer := mkStringServer
  { ss_getPort : Z;
    ss_writer : option string;
    ss_recorded : list TimestampedString }.

Definition ss_record (path : string) (s : StringServer) : StringServer :=
  mkStringServer (ss_getPort s) (Some path) (ss_recorded s).

Definition ss_stopRecording (s : StringServer) : StringServer :=
  mkStringServer (ss_getPort s) None (ss_recorded s).

Definition ss_recordMessage (m : TimestampedString) (s : StringServer)
    : StringServer :=
  mkStringServer (ss_getPort s) (ss_writer s) (ss_recorded s ++ [m]).

(** Modelled from the spec: VideoServer (not under src/): a listener with a
    port and a frame geometry, an optional MP4 writer and a recording flag. *)
Record VideoServer := mkVideoServer
  { vs_getPort : Z;
    vs_getWidth : Z;
    vs_getHeight : Z;
    vs_getChannels : Z;
    vs_mp4 : option (string * Z * Z);
    vs_recording : bool }.

Definition vs_recordMP4 (path : string) (fps bitrate : Z) (s : VideoServer) :=
  mkVideoServer (vs_getPort s) (vs_getWidth s) (vs_getHeight s)
    (vs_getChannels s) (Some (path, fps, bitrate)) (vs_recording s).

Definition vs_startRecording (s : VideoServer) :=
  mkVideoServer (vs_getPort s) (vs_getWidth s) (vs_getHeight s)
    (vs_getChannels s) (vs_mp4 s) true.

Definition vs_stopRecording (s : VideoServer) :=
  mkVideoServer (vs_getPort s) (vs_getWidth s) (vs_getHeight s)
    (vs_getChannels s) (vs_mp4 s) false.

(** The outbound command channel ([ClientConnection::create]). *)
Record ClientConnection := mkClientConnection
  { cc_address : string;
    cc_port : Z }.

(** One request/short-reply exchange with a host of the pool: what
    [SendStringAndGetShortReply] was given and what came back ([None] when it
    threw). *)
Record Exchange := mkExchange
  { ex_address : string;
    ex_port : Z;
    ex_request : string;
    ex_reply : option string }.

Definition ex_host (e : Exchange) : ClientInfo :=
  mkClientInfo (ex_address e) (ex_port e).

Inductive ListenerKind :=
  | MissionControlListener
  | VideoListener
  | RewardsListener
  | ObservationsListener.

(** The fields of the [AgentHost] object, and two logs of what it did to
    the outside: the exchanges with the hosts of the pool and the files it
    wrote. *)
Record AgentHost (V : Type) := mkAgentHost
  { world_state : WorldState V;
    video_policy : VideoPolicy;
    rewards_policy : RewardsPolicy;
    observations_policy : ObservationsPolicy;
    current_role : Z;
    display_client_pool_messages : bool;
    current_mission_init : option MissionInitSpec;
    current_mission_record : option MissionRecord;
    mission_control_server : option StringServer;
    video_server : option VideoServer;
    rewards_server : option StringServer;
    observations_server : option StringServer;
    commands_stream : option string;
    commands_connection : option ClientConnection;
    network : list Exchange;
    files : list (string * string) }.
Arguments mkAgentHost {V}.
Arguments world_state {V}.
Arguments video_policy {V}.
Arguments rewards_policy {V}.
Arguments observations_policy {V}.
Arguments current_role {V}.
Arguments display_client_pool_messages {V}.
Arguments current_mission_init {V}.
Arguments current_mission_record {V}.
Arguments mission_control_server {V}.
Arguments video_server {V}.
Arguments rewards_server {V}.
Arguments observations_server {V}.
Arguments commands_stream {V}.
Arguments commands_connection {V}.
Arguments network {V}.
Arguments files {V}.

(** ** Field updates *)

Section Updates.
Context {V : Type}.

Definition set_flags (running begun : bool) (w : WorldState V) :=
  mkWorldState running begun
    (number_of_video_frames_since_last_state w)
    (number_of_rewards_since_last_state w)
    (number_of_observations_since_last_state w)
    (video_frames w) (rewards w) (observations w)
    (mission_control_messages w) (errors w).

Definition set_is_mission_running (b : bool) (w : WorldState V) :=
  set_flags b (has_mission_begun w) w.

Definition set_has_mission_begun (b : bool) (w : WorldState V) :=
  set_flags (is_mission_running w) b w.

Definition set_video_frames (l : list TimestampedVideoFrame) (w : WorldState V) :=
  mkWorldState (is_mission_running w) (has_mission_begun w)
    (number_of_video_frames_since_last_state w)
    (number_of_rewards_since_last_state w)
    (number_of_observations_since_last_state w)
    l (rewards w) (observations w)
    (mission_control_messages w) (errors w).

Definition set_rewards (l : list (TimestampedReward V)) (w : WorldState V) :=
  mkWorldState (is_mission_running w) (has_mission_begun w)
    (number_of_video_frames_since_last_state w)
    (number_of_rewards_since_last_state w)
    (number_of_observations_since_last_state w)
    (video_frames w) l (observations w)
    (mission_control_messages w) (errors w).

Definition set_observations (l : list TimestampedString) (w : WorldState V) :=
  mkWorldState (is_mission_running w) (has_mission_begun w)
    (number_of_video_frames_since_last_state w)
    (number_of_rewards_since_last_state w)
    (number_of_observations_since_last_state w)
    (video_frames w) (rewards w) l
    (mission_control_messages w) (errors w).

Definition set_mission_control_messages (l : list TimestampedString)
    (w : WorldState V) :=
  mkWorldState (is_mission_running w) (has_mission_begun w)
    (number_of_video_frames_since_last_state w)
    (number_of_rewards_since_last_state w)
    (number_of_observations_since_last_state w)
    (video_frames w) (rewards w) (observations w)
    l (errors w).

Definition set_errors (l : list TimestampedString) (w : WorldState V) :=
  mkWorldState (is_mission_running w) (has_mission_begun w)
    (number_of_video_frames_since_last_state w)
    (number_of_rewards_since_last_state w)
    (number_of_observations_since_last_state w)
    (video_frames w) (rewards w) (observations w)
    (mission_control_messages w) l.

Definition set_counters (nv nr no : Z) (w : WorldState V) :=
  mkWorldState (is_mission_running w) (has_mission_begun w) nv nr no
    (video_frames w) (rewards w) (observations w)
    (mission_control_messages w) (errors w).

Definition set_world_state (w : WorldState V) (a : AgentHost V) :=
  mkAgentHost w (video_policy a) (rewards_policy a) (observations_policy a)
    (current_role a) (display_client_pool_messages a)
    (current_mission_init a) (current_mission_record a)
    (mission_control_server a) (video_server a) (rewards_server a)
    (observations_server a) (commands_stream a) (commands_connection a)
    (network a) (files a).

Definition set_policies (vp : VideoPolicy) (rp : RewardsPolicy)
    (op : ObservationsPolicy) (a : AgentHost V) :=
  mkAgentHost (world_state a) vp rp op
    (current_role a) (display_client_pool_messages a)
    (current_mission_init a) (current_mission_record a)
    (mission_control_server a) (video_server a) (rewards_server a)
    (observations_server a) (commands_stream a) (commands_connection a)
    (network a) (files a).

Definition set_current_role (r : Z) (a : AgentHost V) :=
  mkAgentHost (world_state a) (video_policy a) (rewards_policy a)
    (observations_policy a) r (display_client_pool_messages a)
    (current_mission_init a) (current_mission_record a)
    (mission_control_server a) (video_server a) (rewards_server a)
    (observations_server a) (commands_stream a) (commands_connection a)
    (network a) (files a).

Definition set_display_client_pool_messages (b : bool) (a : AgentHost V) :=
  mkAgentHost (world_state a) (video_policy a) (rewards_policy a)
    (observations_policy a) (current_role a) b
    (current_mission_init a) (current_mission_record a)
    (mission_control_server a) (video_server a) (rewards_server a)
    (observations_server a) (commands_stream a) (commands_connection a)
    (network a) (files a).

Definition set_current_mission_init (m : option MissionInitSpec)
    (a : AgentHost V) :=
  mkAgentHost (world_state a) (video_policy a) (rewards_policy a)
    (observations_policy a) (current_role a)
    (display_client_pool_messages a)
    m (current_mission_record a)
    (mission_control_server a) (video_server a) (rewards_server a)
    (observations_server a) (commands_stream a) (commands_connection a)
    (network a) (files a).

Definition set_current_mission_record (m : option MissionRecord)
    (a : AgentHost V) :=
  mkAgentHost (world_state a) (video_policy a) (rewards_policy a)
    (observations_policy a) (current_role a)
    (display_client_pool_messages a)
    (current_mission_init a) m
    (mission_control_server a) (video_server a) (rewards_server a)
    (observations_server a) (commands_stream a) (commands_connection a)
    (network a) (files a).

Definition set_servers (mc : option StringServer) (vs : option VideoServer)
    (rs os : option StringServer) (a : AgentHost V) :=
  mkAgentHost (world_state a) (video_policy a) (rewards_policy a)
    (observations_policy a) (current_role a)
    (display_client_pool_messages a)
    (current_mission_init a) (current_mission_record a)
    mc vs rs os (commands_stream a) (commands_connection a)
    (network a) (files a).

Definition set_mission_control_server (s : option StringServer) (a : AgentHost V) :=
  set_servers s (video_server a) (rewards_server a) (observations_server a) a.

Definition set_video_server (s : option VideoServer) (a : AgentHost V) :=
  set_servers (mission_control_server a) s (rewards_server a)
    (observations_server a) a.

Definition set_rewards_server (s : option StringServer) (a : AgentHost V) :=
  set_servers (mission_control_server a) (video_server a) s
    (observations_server a) a.

Definition set_observations_server (s : option StringServer) (a : AgentHost V) :=
  set_servers (mission_control_server a) (video_server a) (rewards_server a)
    s a.

Definition set_commands_stream (s : option string) (a : AgentHost V) :=
  mkAgentHost (world_state a) (video_policy a) (rewards_policy a)
    (observations_policy a) (current_role a)
    (display_client_pool_messages a)
    (current_mission_init a) (current_mission_record a)
    (mission_control_server a) (video_server a) (rewards_server a)
    (observations_server a) s (commands_connection a)
    (network a) (files a).

Definition set_commands_connection (c : option ClientConnection)
    (a : AgentHost V) :=
  mkAgentHost (world_state a) (video_policy a) (rewards_policy a)
    (observations_policy a) (current_role a)
    (display_client_pool_messages a)
    (current_mission_init a) (current_mission_record a)
    (mission_control_server a) (video_server a) (rewards_server a)
    (observations_server a) (commands_stream a) c
    (network a) (files a).

Definition set_network (l : list Exchange) (a : AgentHost V) :=
  mkAgentHost (world_state a) (video_policy a) (rewards_policy a)
    (observations_policy a) (current_role a)
    (display_client_pool_messages a)
    (current_mission_init a) (current_mission_record a)
    (mission_control_server a) (video_server a) (rewards_server a)
    (observations_server a) (commands_stream a) (commands_connection a)
    l (files a).

Definition set_files (l : list (string * string)) (a : AgentHost V) :=
  mkAgentHost (world_state a) (video_policy a) (rewards_policy a)
    (observations_policy a) (current_role a)
    (display_client_pool_messages a)
    (current_mission_init a) (current_mission_record a)
    (mission_control_server a) (video_server a) (rewards_server a)
    (observations_server a) (commands_stream a) (commands_connection a)
    (network a) l.

(** The object the constructor leaves: default policies, role 0, no
    mission, no listeners. *)
Definition AgentHost_new : AgentHost V :=
  mkAgentHost (mkWorldState false false 0 0 0 [] [] [] [] [])
    LATEST_FRAME_ONLY SUM_REWARDS LATEST_OBSERVATION_ONLY 0 false
    None None None None None None None None [] [].

End Updates.

(** ** A concrete scenario

    Stand-ins for the collaborators (a pool of hosts that answer by their
    name, a parser that reads the root element off a document, integer
    rewards) and the inputs at which the theorems below are run. *)

Module Scenario.

Definition values_add : Z -> Z -> Z := Z.add.

Definition createFromSimpleString (s : string) : string + Z :=
  match NilZero.int_of_string s with
  | Some i => inr (Z.of_int i)
  | None => inl "not a number"
  end.

Definition getAsSimpleString (v : Z) : string := to_string v.

(** The hosts of the scenario answer by their address, whatever they are
    sent: "down" does not answer, "ok" accepts, "okay" answers with a text
    that only begins with the token, "nocolon" and "badport" claim to be the
    server with a malformed payload, every other host is busy. *)
Definition SendStringAndGetShortReply (net : list Exchange) (address : string)
    (p : Z) (request : string) : option string :=
  if String.eqb address "down" then None
  else if String.eqb address "ok" then Some "MALMOOK"
  else if String.eqb address "okay" then Some "MALMOOKAY"
  else if String.eqb address "nocolon" then Some "MALMOSlocalhost"
  else if String.eqb address "badport" then Some "MALMOSlocalhost:port"
  else Some "MALMOBUSY".

Definition MALMO_VERSION : string := "0.21.0".

Definition MissionInitSpec_new (mission : MissionSpec) (id : string) (role : Z)
    : MissionInitSpec :=
  mkMissionInitSpec id role 0 0 0 0 "127.0.0.1" 0 0 None.

Definition getAsXML (pretty : bool) (m : MissionInitSpec) : string :=
  "<MissionInit><ClientAddress>" ++ getClientAddress m
  ++ "</ClientAddress></MissionInit>".

Definition schema_error : xml_schema_exception :=
  mkXmlException "instance document parsing failed" "missing element".

Definition MissionInitSpec_parse (s : string)
    : xml_schema_exception + MissionInitSpec :=
  if prefix "<MissionInit>" s
  then inr (mkMissionInitSpec "exp" 0 10000 10001 10002 10003 "127.0.0.1"
              10010 10011 None)
  else inl schema_error.

Definition MissionEnded_parse (s : string)
    : xml_schema_exception + MissionEnded Z :=
  if String.eqb s "<MissionEnded><Status>ENDED</Status></MissionEnded>"
  then inr (mkMissionEnded ENDED "Mission ended normally" None)
  else if String.eqb s "<MissionEnded><Status>MOD_CRASHED</Status></MissionEnded>"
  then inr (mkMissionEnded (ABNORMAL "MOD_CRASHED") "Mod crashed" None)
  else inl schema_error.

Fixpoint element_name (s : string) : string :=
  match s with
  | EmptyString => EmptyString
  | String c rest =>
      if Ascii.eqb c " " || Ascii.eqb c "/" || Ascii.eqb c ">"
      then EmptyString
      else String c (element_name rest)
  end.

Definition read_xml (s : string) : string + list string :=
  match s with
  | EmptyString => inr []
  | String c rest =>
      if Ascii.eqb c "<" then inr [element_name rest]
      else inl "expected <"
  end.

(** [std::isspace] in the C locale, and a decimal digit. *)
Definition is_space (c : ascii) : bool :=
  let n := nat_of_ascii c in
  Nat.eqb n 32 || (Nat.leb 9 n && Nat.leb n 13).

Definition digit (c : ascii) : option Z :=
  let n := nat_of_ascii c in
  if Nat.leb 48 n && Nat.leb n 57 then Some (Z.of_nat (n - 48)) else None.

Fixpoint skip_spaces (s : string) : string :=
  match s with
  | EmptyString => EmptyString
  | String c rest => if is_space c then skip_spaces rest else s
  end.

(** The digits at the head of [s], read onto [acc]; [seen] tells whether a
    digit has been read. *)
Fixpoint read_digits (s : string) (acc : Z) (seen : bool) : option Z :=
  match s with
  | EmptyString => if seen then Some acc else None
  | String c rest =>
      match digit c with
      | Some d => read_digits rest (10 * acc + d) true
      | None => if seen then Some acc else None
      end
  end.

(** [sscanf(s, "%d", &n) == 1] and the number read: leading white space is
    skipped, a sign may come first, at least one digit is needed and what
    follows the digits is ignored.  Numbers that do not fit an [int] are
    outside the scenario. *)
Definition sscanf_d (s : string) : option Z :=
  match skip_spaces s with
  | String "+" rest => read_digits rest 0 false
  | String "-" rest => option_map Z.opp (read_digits rest 0 false)
  | rest => read_digits rest 0 false
  end.

Definition bound_port (k : ListenerKind) (requested : Z) : Z :=
  if requested =? 0 then
    match k with
    | MissionControlListener => 10000
    | VideoListener => 10001
    | RewardsListener => 10002
    | ObservationsListener => 10003
    end
  else requested.

Definition host (name : string) : ClientInfo := mkClientInfo name 10000.

Definition single_agent : MissionSpec :=
  mkMissionSpec 1 (fun _ => false) (fun _ => 0) (fun _ => 0) (fun _ => 0).

Definition five_agents : MissionSpec :=
  mkMissionSpec 5 (fun _ => false) (fun _ => 0) (fun _ => 0) (fun _ => 0).

Definition two_agents : MissionSpec :=
  mkMissionSpec 2 (fun _ => false) (fun _ => 0) (fun _ => 0) (fun _ => 0).

Definition no_recording : MissionRecord :=
  mkMissionRecord false false false false false
    "commands.txt" "video.mp4" 20 400000 "rewards.txt" "observations.txt"
    "missionInit.xml" "tmp".

Definition recording : MissionRecord :=
  mkMissionRecord true true false true true
    "commands.txt" "video.mp4" 20 400000 "rewards.txt" "observations.txt"
    "missionInit.xml" "tmp".

Definition negotiated : MissionInitSpec :=
  mkMissionInitSpec "exp" 0 10000 10001 10002 10003 "127.0.0.1" 10010 10011 None.

(** A host object in the middle of a running mission. *)
Definition running : AgentHost Z :=
  mkAgentHost (mkWorldState true true 0 0 0 [] [] [] [] [])
    LATEST_FRAME_ONLY SUM_REWARDS LATEST_OBSERVATION_ONLY 0 false
    (Some negotiated) (Some no_recording)
    (Some (mkStringServer 10000 None []))
    None
    (Some (mkStringServer 10002 None []))
    (Some (mkStringServer 10003 None []))
    None (Some (mkClientConnection "127.0.0.1" 10011)) [] [].

(** A host object about to look for a client, as role 3. *)
Definition searching : AgentHost Z :=
  set_current_role 3 (set_current_mission_init (Some negotiated) AgentHost_new).

Definition latest_only : AgentHost Z :=
  set_policies LATEST_FRAME_ONLY LATEST_REWARD_ONLY LATEST_OBSERVATION_ONLY
    AgentHost_new.

Definition frame (t : Z) : TimestampedVideoFrame :=
  mkTimestampedVideoFrame t 4 2 3 [].

(** A host object that keeps everything it is sent. *)
Definition keep_all : AgentHost Z :=
  set_policies KEEP_ALL_FRAMES KEEP_ALL_REWARDS KEEP_ALL_OBSERVATIONS
    AgentHost_new.

(** A network on which every host accepts, and one on which the host
    "server" knows the Minecraft server. *)
Definition all_accept (net : list Exchange) (address : string) (p : Z)
    (request : string) : option string :=
  Some "MALMOOK".

Definition server_known (net : list Exchange) (address : string) (p : Z)
    (request : string) : option string :=
  if String.eqb address "server" then Some "MALMOSlocalhost:25565"
  else if String.eqb address "down" then None
  else Some "MALMOBUSY".

(** A MissionEnded document that carries a final reward. *)
Definition MissionEnded_parse_with_reward (s : string)
    : xml_schema_exception + MissionEnded Z :=
  if prefix "<MissionEnded>" s
  then inr (mkMissionEnded ENDED "Mission ended normally" (Some 5))
  else inl schema_error.

(** The command connection refuses the command "quit". *)
Definition connection_send (c : ClientConnection) (command : string)
    : option string :=
  if String.eqb command "quit" then Some "connection reset by peer" else None.

Definition to_iso_string (t : ptime) : string := to_string t.

Definition default_client_port : Z := 10000.

(** The double quote, which the string literals of this file do not hold. *)
Definition quote : string := String (ascii_of_nat 34) EmptyString.

(** Schema files in which the version attribute comes on the third line,
    after the jaxb version on the second; Types.xsd carries the jaxb version
    only. *)
Definition schema_file_lines (name : string) : list string :=
  if String.eqb name "Types.xsd"
  then ["<xs:schema jaxb:version=" ++ quote ++ "2.1" ++ quote ++ ">";
        "</xs:schema>"]
  else ["<?xml version=" ++ quote ++ "1.0" ++ quote ++ "?>";
        "  <xs:schema xmlns:xs=" ++ quote ++ "http://www.w3.org/2001/XMLSchema"
        ++ quote ++ " jaxb:version=" ++ quote ++ "2.1" ++ quote ++ "  ";
        "      version=" ++ quote ++ "0.21" ++ quote ++ ">";
        "</xs:schema>"].

(** [boost::trim]: the white space at both ends is dropped. *)
Definition trim (s : string) : string :=
  let fix drop (l : list ascii) : list ascii :=
    match l with
    | [] => []
    | c :: rest => if is_space c then drop rest else l
    end in
  string_of_list_ascii (rev (drop (rev (drop (list_ascii_of_string s))))).

(** The longest run of digits and dots at the head of [s], and what follows
    it. *)
Fixpoint version_run (s : string) : string * string :=
  match s with
  | EmptyString => (EmptyString, EmptyString)
  | String c rest =>
      if Ascii.eqb c "." || match digit c with Some _ => true | None => false end
      then let '(run, after) := version_run rest in (String c run, after)
      else (EmptyString, s)
  end.

(** The group of a match that has its [version=] at the head of [s]: the run
    of digits and dots between the quotes. *)
Definition version_at (s : string) : option string :=
  if prefix ("version=" ++ quote) s then
    let '(run, after) := version_run (substr_from 9 s) in
    if prefix quote after then Some run else None
  else None.

(** The scan of [version_regex_search]: [s] is what is left of [xml] from
    position [pos] on, [schema_end] is where the first [<xs:schema] ended, if
    one has been met, and [best] is the group of the last match so far. *)
Fixpoint version_scan (xml s : string) (pos : nat) (schema_end : option nat)
    (best : option string) : option string :=
  match s with
  | EmptyString => best
  | String _ rest =>
      let here :=
        match schema_end with
        | Some e =>
            if Nat.leb (e + 5) pos
               && negb (String.eqb (substring (pos - 5) 5 xml) "jaxb:")
            then version_at s
            else None
        | None => None
        end in
      let best := match here with Some _ => here | None => best end in
      let schema_end :=
        match schema_end with
        | Some _ => schema_end
        | None => if prefix "<xs:schema" s then Some (pos + 10)%nat else None
        end in
      version_scan xml rest (S pos) schema_end best
  end.

(** [regex_search] for the pattern of [extractVersionNumber] on a text
    without line breaks, giving the first group of the match.  The pattern
    asks for [<xs:schema], later five characters that are not [jaxb:], then
    [version=] and a quoted run of digits and dots, the group.  Both
    wildcards before it are greedy, so the group is that of the last
    [version=] that fits. *)
Definition version_regex_search (xml : string) : option string :=
  version_scan xml xml 0 None None.

(** A host object with listeners up and no mission running yet. *)
Definition waiting : AgentHost Z :=
  mkAgentHost (mkWorldState false false 0 0 0 [] [] [] [] [])
    LATEST_FRAME_ONLY SUM_REWARDS LATEST_OBSERVATION_ONLY 0 false
    (Some negotiated) (Some no_recording)
    (Some (mkStringServer 10000 None []))
    None
    (Some (mkStringServer 10002 (Some "rewards.txt") []))
    (Some (mkStringServer 10003 None []))
    (Some "commands.txt") None [] [].

(** A generator whose document for the host "broken" does not validate. *)
Definition getAsXML_broken (pretty : bool) (m : MissionInitSpec) : string :=
  if String.eqb (getClientAddress m) "broken" then "<ClientAddress>broken"
  else getAsXML pretty m.

End Scenario.

(** ** Exceptions and the state-and-exception monad *)

Inductive exn :=
  | runtime_error (what : string)
  | undefined_behaviour (what : string).

Section Methods.

(** The payload of a reward and [TimestampedReward::add] on payloads. *)
Variable V : Type.
Variable values_add : V -> V -> V.

(** [TimestampedReward::createFromSimpleString] on the text: the payload,
    or [what()] of the exception it throws. *)
Variable createFromSimpleString : string -> string + V.
Variable getAsSimpleString : V -> string.

(** [SendStringAndGetShortReply] (TCPClient.h), given the exchanges made
    so far, the address, the port and the request: the reply, or [None]
    when it throws. *)
Variable SendStringAndGetShortReply :
  list Exchange -> string -> Z -> string -> option string.

(** [BOOST_PP_STRINGIZE(MALMO_VERSION)]. *)
Variable MALMO_VERSION : string.

(** The constructors and the printer of [MissionInitSpec]; the parser of
    the MissionEnded document; [boost::property_tree::read_xml], as the
    names of the top-level elements or [what()] of its exception;
    [sscanf] with the format [%d], [None] when it does not return 1; the
    port a new listener is bound to, given the requested one. *)
Variable MissionInitSpec_new : MissionSpec -> string -> Z -> MissionInitSpec.
Variable MissionInitSpec_parse : string -> xml_schema_exception + MissionInitSpec.
Variable getAsXML : bool -> MissionInitSpec -> string.
Variable MissionEnded_parse : string -> xml_schema_exception + MissionEnded V.
Variable read_xml : string -> string + list string.
Variable sscanf_d : string -> option Z.
Variable bound_port : ListenerKind -> Z -> Z.

Definition M (A : Type) : Type := AgentHost V -> (exn + A) * AgentHost V.

Definition ret {A} (x : A) : M A := fun h => (inr x, h).

Definition bind {A B} (c : M A) (k : A -> M B) : M B :=
  fun h => match c h with
           | (inr x, h') => k x h'
           | (inl e, h') => (inl e, h')
           end.

Definition throw {A} (e : exn) : M A := fun h => (inl e, h).

Definition gets {A} (f : AgentHost V -> A) : M A := fun h => (inr (f h), h).

Definition modify (f : AgentHost V -> AgentHost V) : M unit :=
  fun h => (inr tt, f h).

(** [*p] for a shared pointer field. *)
Definition deref {A} (f : AgentHost V -> option A) (name : string) : M A :=
  fun h => match f h with
           | Some x => (inr x, h)
           | None => (inl (undefined_behaviour (name ++ " is null")), h)
           end.

Notation "x <- c1 ;; c2" := (bind c1 (fun x => c2))
  (at level 61, c1 at next level, right associativity).
Notation "c1 ;; c2" := (bind c1 (fun _ => c2))
  (at level 61, right associativity).

(** ** The world state: drain and peek *)

Definition peekWorldState (h : AgentHost V) : WorldState V := world_state h.

Definition getWorldState (h : AgentHost V) : WorldState V * AgentHost V :=
  let old_world_state := world_state h in
  let h1 := set_world_state (WorldState_clear (world_state h)) h in
  let h2 := set_world_state
              (set_is_mission_running (is_mission_running old_world_state)
                 (world_state h1)) h1 in
  let h3 := set_world_state
              (set_has_mission_begun (has_mission_begun old_world_state)
                 (world_state h2)) h2 in
  (old_world_state, h3).

Definition setDebugOutput (debug : bool) (h : AgentHost V) :=
  set_display_client_pool_messages debug h.

Definition setVideoPolicy (p : VideoPolicy) (h : AgentHost V) :=
  set_policies p (rewards_policy h) (observations_policy h) h.

Definition setRewardsPolicy (p : RewardsPolicy) (h : AgentHost V) :=
  set_policies (video_policy h) p (observations_policy h) h.

Definition setObservationsPolicy (p : ObservationsPolicy) (h : AgentHost V) :=
  set_policies (video_policy h) (rewards_policy h) p h.

(** ** The telemetry handlers *)

Definition push_error (e : TimestampedString) (h : AgentHost V) :=
  set_world_state (set_errors (errors (world_state h) ++ [e]) (world_state h)) h.

Definition onVideo (message : TimestampedVideoFrame) (h : AgentHost V)
    : AgentHost V :=
  let w := world_state h in
  let w1 := match video_policy h with
            | LATEST_FRAME_ONLY => set_video_frames ([] ++ [message]) w
            | KEEP_ALL_FRAMES => set_video_frames (video_frames w ++ [message]) w
            end in
  set_world_state
    (set_counters (number_of_video_frames_since_last_state w1 + 1)
       (number_of_rewards_since_last_state w1)
       (number_of_observations_since_last_state w1) w1) h.

(** Modelled from the spec: TimestampedReward::add (not under src/): "Sum
    combines the new item with the existing single retained item ...
    keeping the newest timestamp"; the comment in [processReceivedReward]
    says the timestamp is that of the latest reward.  [add r other] is
    [r.add(other)]. *)
Definition add (r other : TimestampedReward V) : TimestampedReward V :=
  mkTimestampedReward (reward_timestamp r)
    (values_add (reward_values r) (reward_values other)).

Definition processReceivedReward (reward : TimestampedReward V)
    (h : AgentHost V) : AgentHost V :=
  let w := world_state h in
  let w1 := match rewards_policy h with
            | LATEST_REWARD_ONLY => set_rewards ([] ++ [reward]) w
            | SUM_REWARDS =>
                match rewards w with
                | front :: _ => set_rewards ([] ++ [add reward front]) w
                | [] => set_rewards (rewards w ++ [reward]) w
                end
            | KEEP_ALL_REWARDS => set_rewards (rewards w ++ [reward]) w
            end in
  set_world_state
    (set_counters (number_of_video_frames_since_last_state w1)
       (number_of_rewards_since_last_state w1 + 1)
       (number_of_observations_since_last_state w1) w1) h.

Definition onReward (message : TimestampedString) (h : AgentHost V)
    : AgentHost V :=
  match createFromSimpleString (text message) with
  | inr values =>
      processReceivedReward (mkTimestampedReward (timestamp message) values) h
  | inl what =>
      push_error
        (mkTimestampedString (timestamp message)
           ("Error parsing Reward message: " ++ what ++ " : " ++ text message))
        h
  end.

Definition onObservation (message : TimestampedString) (h : AgentHost V)
    : AgentHost V :=
  let w := world_state h in
  let w1 := match observations_policy h with
            | LATEST_OBSERVATION_ONLY => set_observations ([] ++ [message]) w
            | KEEP_ALL_OBSERVATIONS =>
                set_observations (observations w ++ [message]) w
            end in
  set_world_state
    (set_counters (number_of_video_frames_since_last_state w1)
       (number_of_rewards_since_last_state w1)
       (number_of_observations_since_last_state w1 + 1) w1) h.

(** ** Teardown *)

Definition close (h : AgentHost V) : AgentHost V :=
  let h1 := set_world_state (set_is_mission_running false (world_state h)) h in
  let h2 := match video_server h1 with
            | Some s => set_video_server (Some (vs_stopRecording s)) h1
            | None => h1
            end in
  let h3 := match observations_server h2 with
            | Some s => set_observations_server (Some (ss_stopRecording s)) h2
            | None => h2
            end in
  let h4 := match rewards_server h3 with
            | Some s => set_rewards_server (Some (ss_stopRecording s)) h3
            | None => h3
            end in
  let h5 := match commands_stream h4 with
            | Some _ => set_commands_stream None h4
            | None => h4
            end in
  match commands_connection h5 with
  | Some _ => set_commands_connection None h5
  | None => h5
  end.

(** ** Listeners *)

(** The conversion of an [int] argument to a [short] parameter. *)
Definition to_short (z : Z) : Z := (z + 32768) mod 65536 - 32768.

Definition new_StringServer (k : ListenerKind) (port : Z) : StringServer :=
  mkStringServer (bound_port k port) None [].

Definition new_VideoServer (port width height channels : Z) : VideoServer :=
  mkVideoServer (bound_port VideoListener port) width height channels None false.

Definition listenForMissionControlMessages (port : Z) : M unit :=
  s <- gets mission_control_server ;;
  match s with
  | Some srv =>
      if (port =? 0) || (ss_getPort srv =? port) then ret tt
      else modify (set_mission_control_server
                     (Some (new_StringServer MissionControlListener port)))
  | None =>
      modify (set_mission_control_server
                (Some (new_StringServer MissionControlListener port)))
  end.

Definition recordMP4_if_requested : M unit :=
  rec <- deref current_mission_record "current_mission_record" ;;
  if isRecordingMP4 rec then
    s <- deref video_server "video_server" ;;
    modify (set_video_server
              (Some (vs_recordMP4 (getMP4Path rec) (getMP4FramesPerSecond rec)
                       (getMP4BitRate rec) s)))
  else ret tt.

Definition listenForVideo (port width height channels : Z) : M unit :=
  s <- gets video_server ;;
  (if match s with
      | None => true
      | Some srv =>
          (negb (port =? 0) && negb (vs_getPort srv =? port))
          || negb (vs_getWidth srv =? width)
          || negb (vs_getHeight srv =? height)
          || negb (vs_getChannels srv =? channels)
      end
   then
     modify (set_video_server (Some (new_VideoServer port width height channels))) ;;
     recordMP4_if_requested
   else recordMP4_if_requested) ;;
  srv <- deref video_server "video_server" ;;
  modify (set_video_server (Some (vs_startRecording srv))).

Definition listenForRewards (port : Z) : M unit :=
  s <- gets rewards_server ;;
  (if match s with
      | None => true
      | Some srv => negb (port =? 0) && negb (ss_getPort srv =? port)
      end
   then modify (set_rewards_server (Some (new_StringServer RewardsListener port)))
   else ret tt) ;;
  rec <- deref current_mission_record "current_mission_record" ;;
  if isRecordingRewards rec then
    srv <- deref rewards_server "rewards_server" ;;
    modify (set_rewards_server (Some (ss_record (getRewardsPath rec) srv)))
  else ret tt.

Definition listenForObservations (port : Z) : M unit :=
  s <- gets observations_server ;;
  (if match s with
      | None => true
      | Some srv => negb (port =? 0) && negb (ss_getPort srv =? port)
      end
   then modify (set_observations_server
                  (Some (new_StringServer ObservationsListener port)))
   else ret tt) ;;
  rec <- deref current_mission_record "current_mission_record" ;;
  if isRecordingObservations rec then
    srv <- deref observations_server "observations_server" ;;
    modify (set_observations_server
              (Some (ss_record (getObservationsPath rec) srv)))
  else ret tt.

(** [this->current_mission_init->set...(x)]. *)
Definition update_mission_init (f : MissionInitSpec -> MissionInitSpec) : M unit :=
  mi <- deref current_mission_init "current_mission_init" ;;
  modify (set_current_mission_init (Some (f mi))).

Definition initializeOurServers (mission : MissionSpec)
    (mission_record : MissionRecord) (role : Z) (unique_experiment_id : string)
    : M unit :=
  modify (set_current_mission_init
            (Some (MissionInitSpec_new mission unique_experiment_id role))) ;;
  modify (set_current_mission_record (Some mission_record)) ;;
  modify (set_current_role role) ;;
  mi <- deref current_mission_init "current_mission_init" ;;
  listenForMissionControlMessages (getAgentMissionControlPort mi) ;;
  r <- gets current_role ;;
  (if isVideoRequested mission r then
     mi <- deref current_mission_init "current_mission_init" ;;
     listenForVideo (getAgentVideoPort mi)
       (to_short (getVideoWidth mission r))
       (to_short (getVideoHeight mission r))
       (to_short (getVideoChannels mission r))
   else ret tt) ;;
  mi <- deref current_mission_init "current_mission_init" ;;
  listenForRewards (getAgentRewardsPort mi) ;;
  mi <- deref current_mission_init "current_mission_init" ;;
  listenForObservations (getAgentObservationsPort mi) ;;
  cs <- gets commands_stream ;;
  (match cs with
   | Some _ => modify (set_commands_stream None)
   | None => ret tt
   end) ;;
  rec <- deref current_mission_record "current_mission_record" ;;
  (if isRecordingCommands rec
   then modify (set_commands_stream (Some (getCommandsPath rec)))
   else ret tt) ;;
  mc <- deref mission_control_server "mission_control_server" ;;
  update_mission_init (setAgentMissionControlPort (ss_getPort mc)) ;;
  os <- deref observations_server "observations_server" ;;
  update_mission_init (setAgentObservationsPort (ss_getPort os)) ;;
  vs <- gets video_server ;;
  (match vs with
   | Some srv => update_mission_init (setAgentVideoPort (vs_getPort srv))
   | None => ret tt
   end) ;;
  rs <- deref rewards_server "rewards_server" ;;
  update_mission_init (setAgentRewardsPort (ss_getPort rs)).

(** ** Client discovery *)

(** One call of [SendStringAndGetShortReply] inside its [try]: the reply,
    or [None] for the [catch]. *)
Definition send (item : ClientInfo) (request : string) : M (option string) :=
  fun h =>
    let reply := SendStringAndGetShortReply (network h) (ip_address item)
                   (port item) request in
    (inr reply,
     set_network
       (network h ++ [mkExchange (ip_address item) (port item) request reply]) h).

Definition generateMissionInit : M string :=
  mi <- deref current_mission_init "current_mission_init" ;;
  let generated_xml := getAsXML false mi in
  match MissionInitSpec_parse generated_xml with
  | inr _ => ret generated_xml
  | inl e =>
      throw (runtime_error
               ("Internal error: the XML we generate does not validate: "
                ++ xml_what e ++ nl ++ xml_details e ++ nl ++ generated_xml ++ nl))
  end.

Definition malmo_reservation_prefix : string := "MALMOOK".
Definition malmo_server_prefix : string := "MALMOS".
Definition malmo_mission_accepted : string := "MALMOOK".
Definition cancel_request : string := "MALMO_CANCEL_REQUEST" ++ nl.

(** The first loop of [reserveClients]; it returns [reservedClients] and
    [clients_required] as the loop leaves them. *)
Fixpoint reserve_loop (items : list ClientInfo) (request : string)
    (reservedClients : ClientPool) (clients_required : Z)
    : M (ClientPool * Z) :=
  match items with
  | [] => ret (reservedClients, clients_required)
  | item :: rest =>
      reply <- send item request ;;
      match reply with
      | None => reserve_loop rest request reservedClients clients_required
      | Some reply =>
          if prefix malmo_reservation_prefix reply then
            let reservedClients := ClientPool_add reservedClients item in
            let clients_required := clients_required - 1 in
            if clients_required =? 0
            then ret (reservedClients, clients_required)
            else reserve_loop rest request reservedClients clients_required
          else reserve_loop rest request reservedClients clients_required
      end
  end.

(** The second loop of [reserveClients]; the replies are dropped. *)
Fixpoint cancel_loop (items : list ClientInfo) : M unit :=
  match items with
  | [] => ret tt
  | item :: rest => _ <- send item cancel_request ;; cancel_loop rest
  end.

Definition reserveClients (client_pool : ClientPool) (clients_required : Z)
    : M ClientPool :=
  mi <- deref current_mission_init "current_mission_init" ;;
  let request := "MALMO_REQUEST_CLIENT:" ++ MALMO_VERSION ++ ":20000:"
                 ++ getExperimentID mi ++ nl in
  r <- reserve_loop (clients client_pool) request (mkClientPool []) clients_required ;;
  let '(reservedClients, clients_required) := r in
  if clients_required >? 0 then
    cancel_loop (clients reservedClients) ;;
    ret (mkClientPool [])
  else ret reservedClients.

(** The loop of [findServer]: [Some true] when it returned inside the
    loop, [None] when the loop ran to its end. *)
Fixpoint findServer_loop (items : list ClientInfo) (request : string)
    : M (option bool) :=
  match items with
  | [] => ret None
  | item :: rest =>
      reply <- send item request ;;
      match reply with
      | None => findServer_loop rest request
      | Some reply =>
          if prefix malmo_server_prefix reply then
            match index 0 ":" reply with
            | None => throw (runtime_error ("Received malformed reply: " ++ reply))
            | Some colon =>
                let minecraft_server_address :=
                  substring (String.length malmo_server_prefix)
                    (colon - String.length malmo_server_prefix) reply in
                let minecraft_server_port_as_string :=
                  substr_from (colon + 1) reply in
                match sscanf_d minecraft_server_port_as_string with
                | None =>
                    throw (runtime_error ("Received malformed reply: " ++ reply))
                | Some minecraft_server_port =>
                    update_mission_init
                      (setMinecraftServerInformation minecraft_server_address
                         minecraft_server_port) ;;
                    ret (Some true)
                end
            end
          else findServer_loop rest request
      end
  end.

Definition findServer (client_pool : ClientPool) : M bool :=
  mi <- deref current_mission_init "current_mission_init" ;;
  let request := "MALMO_FIND_SERVER" ++ getExperimentID mi ++ nl in
  r <- findServer_loop (clients client_pool) request ;;
  match r with
  | Some b => ret b
  | None =>
      modify close ;;
      throw (runtime_error
               "Failed to find the server for this mission - you must start the agent that has role 0 first.")
  end.

(** [client_pool.clients[k]]. *)
Definition clients_at (client_pool : ClientPool) (k : Z) : M ClientInfo :=
  match (if k <? 0 then None else nth_error (clients client_pool) (Z.to_nat k)) with
  | Some item => ret item
  | None => throw (undefined_behaviour "client_pool.clients: index out of range")
  end.

(** The loop of [findClient] over [i]: [true] when it returned inside the
    loop, [false] when the loop ran to its end. *)
Fixpoint findClient_loop (client_pool : ClientPool) (num_clients : Z)
    (idxs : list nat) : M bool :=
  match idxs with
  | [] => ret false
  | i :: idxs' =>
      role <- gets current_role ;;
      item <- clients_at client_pool (Z.rem (Z.of_nat i + role) num_clients) ;;
      update_mission_init (setClientAddress (ip_address item)) ;;
      update_mission_init (setClientMissionControlPort (port item)) ;;
      xml <- generateMissionInit ;;
      let mission_init_xml := xml ++ nl in
      reply <- send item mission_init_xml ;;
      match reply with
      | None => findClient_loop client_pool num_clients idxs'
      | Some reply =>
          if String.eqb reply malmo_mission_accepted then ret true
          else findClient_loop client_pool num_clients idxs'
      end
  end.

Definition findClient (client_pool : ClientPool) : M unit :=
  let num_clients := List.length (clients client_pool) in
  r <- findClient_loop client_pool (Z.of_nat num_clients) (seq 0 num_clients) ;;
  if r then ret tt
  else
    modify close ;;
    throw (runtime_error
             "Failed to find an available client for this mission - tried all the clients in the supplied client pool.").

(** ** Mission start *)

Definition startMission (mission : MissionSpec) (client_pool : ClientPool)
    (mission_record : MissionRecord) (role : Z) (unique_experiment_id : string)
    : M unit :=
  if (role <? 0) || (role >=? getNumberOfAgents mission) then
    if getNumberOfAgents mission =? 1 then
      throw (runtime_error
               ("Role " ++ to_string role
                ++ " is invalid for this single-agent mission - must be 0."))
    else
      throw (runtime_error
               ("Role " ++ to_string role
                ++ " is invalid for this multi-agent mission - must be in range 0-"
                ++ to_string (getNumberOfAgents mission - 1) ++ "."))
  else
  if isVideoRequested mission role
     && negb (Z.rem (getVideoWidth mission role) 4 =? 0) then
    throw (runtime_error "Video width must be divisible by 4.")
  else
  if isVideoRequested mission role
     && negb (Z.rem (getVideoHeight mission role) 2 =? 0) then
    throw (runtime_error "Video height must be divisible by 2.")
  else
  running <- gets (fun h => is_mission_running (world_state h)) ;;
  if running : bool then throw (runtime_error "A mission is already running.")
  else
  initializeOurServers mission mission_record role unique_experiment_id ;;
  pool <-
    (if (getNumberOfAgents mission >? 1) && (role =? 0) then
       reservedAgents <- reserveClients client_pool (getNumberOfAgents mission) ;;
       if negb (Z.of_nat (List.length (clients reservedAgents))
                =? getNumberOfAgents mission)
       then
         throw (runtime_error
                  ("There are not enough clients availble in the ClientPool to start this "
                   ++ to_string (getNumberOfAgents mission) ++ " agent mission."))
       else ret reservedAgents
     else ret client_pool) ;;
  (if (getNumberOfAgents mission >? 1) && (role >? 0) then
     mi <- deref current_mission_init "current_mission_init" ;;
     if negb (hasMinecraftServerInformation mi)
     then _ <- findServer pool ;; ret tt
     else ret tt
   else ret tt) ;;
  findClient pool ;;
  modify (fun h => set_world_state (WorldState_clear (world_state h)) h) ;;
  rec <- deref current_mission_record "current_mission_record" ;;
  if isRecording rec then
    mi <- deref current_mission_init "current_mission_init" ;;
    modify (fun h => set_files (files h ++ [(getMissionInitPath rec, getAsXML true mi)]) h)
  else ret tt.

(** ** The mission-control channel *)

Definition openCommandsConnection : M unit :=
  mi <- deref current_mission_init "current_mission_init" ;;
  let mod_commands_port := getClientCommandsPort mi in
  if mod_commands_port =? 0 then
    throw (runtime_error
             "AgentHost::openCommandsConnection : client commands port is unknown! Has the mission started?")
  else
    mi <- deref current_mission_init "current_mission_init" ;;
    let mod_address := getClientAddress mi in
    modify (set_commands_connection
              (Some (mkClientConnection mod_address mod_commands_port))).

(** [error_message] is a copy of [xml] with its text replaced. *)
Definition record_error (xml : TimestampedString) (message : string) : M unit :=
  modify (push_error (mkTimestampedString (timestamp xml) message)).

(** The [MissionInit] branch; [false] stands for its [return]. *)
Definition onMissionInit (xml : TimestampedString) : M bool :=
  match MissionInitSpec_parse (text xml) with
  | inr mi =>
      modify (set_current_mission_init (Some mi)) ;;
      modify (fun h => set_world_state
                         (set_is_mission_running true (world_state h)) h) ;;
      modify (fun h => set_world_state
                         (set_has_mission_begun true (world_state h)) h) ;;
      openCommandsConnection ;;
      ret true
  | inl e =>
      record_error xml
        ("Error parsing MissionInit message XML: " ++ xml_what e ++ " : "
         ++ xml_details e ++ ":" ++ substring 0 20 (text xml) ++ "...") ;;
      ret false
  end.

(** The [MissionEnded] branch; [false] stands for its [return]. *)
Definition onMissionEnded (xml : TimestampedString) : M bool :=
  match MissionEnded_parse (text xml) with
  | inr mission_ended =>
      (match Status mission_ended with
       | ENDED | PLAYER_DIED => ret tt
       | ABNORMAL _ =>
           record_error xml
             ("Mission ended abnormally: " ++ HumanReadableStatus mission_ended)
       end) ;;
      running <- gets (fun h => is_mission_running (world_state h)) ;;
      (if running : bool then
         match Reward mission_ended with
         | Some final_reward_values =>
             let final_reward :=
               mkTimestampedReward (timestamp xml) final_reward_values in
             modify (processReceivedReward final_reward) ;;
             srv <- deref rewards_server "rewards_server" ;;
             modify (set_rewards_server
                       (Some (ss_recordMessage
                                (mkTimestampedString (timestamp xml)
                                   (getAsSimpleString (reward_values final_reward)))
                                srv)))
         | None => ret tt
         end
       else ret tt) ;;
      modify close ;;
      ret true
  | inl e =>
      record_error xml
        ("Error parsing MissionEnded message XML: " ++ xml_what e ++ " : "
         ++ xml_details e ++ ":" ++ substring 0 20 (text xml) ++ "...") ;;
      ret false
  end.

Definition onMissionControlMessage (xml : TimestampedString) : M unit :=
  match read_xml (text xml) with
  | inl what =>
      record_error xml
        ("Error parsing mission control message as XML: " ++ what ++ ":" ++ nl
         ++ substring 0 20 (text xml) ++ "..." ++ nl)
  | inr [] =>
      record_error xml "Empty XML string in mission control message"
  | inr (root_node_name :: _) =>
      running <- gets (fun h => is_mission_running (world_state h)) ;;
      proceed <-
        (if negb running && String.eqb root_node_name "MissionInit" then
           onMissionInit xml
         else if String.eqb root_node_name "MissionEnded" then
           onMissionEnded xml
         else if String.eqb root_node_name "ping" then
           ret true
         else
           record_error xml
             ("Unknown mission control message root node or at wrong time: "
              ++ root_node_name ++ " :" ++ substring 0 200 (text xml) ++ "...") ;;
           ret false) ;;
      if proceed : bool then
        modify (fun h =>
                  set_world_state
                    (set_mission_control_messages
                       (mission_control_messages (world_state h) ++ [xml])
                       (world_state h)) h)
      else ret tt
  end.

(** ** The command channel *)

(** [ClientConnection::send] on the open connection: [None] when it
    returns, [Some what] when it throws a [std::runtime_error]; and
    [boost::posix_time::to_iso_string]. *)
Variable connection_send : ClientConnection -> string -> option string.
Variable to_iso_string : ptime -> string.

(** [now] is the reading of [microsec_clock::universal_time()] that the
    call makes (each path reads the clock at most once).  A line written to
    the command recording stream is logged under [files], with the path the
    stream was opened on. *)
Definition sendCommand (now : ptime) (command : string) (h : AgentHost V)
    : AgentHost V :=
  match commands_connection h with
  | None =>
      push_error
        (mkTimestampedString now
           "AgentHost::sendCommand : commands connection is not open. Is the mission running?")
        h
  | Some connection =>
      match connection_send connection command with
      | Some what =>
          push_error
            (mkTimestampedString now
               ("AgentHost::sendCommand : failed to send command: " ++ what))
            h
      | None =>
          match commands_stream h with
          | Some path =>
              let timestamp := to_iso_string now in
              set_files (files h ++ [(path, timestamp ++ " " ++ command ++ nl)]) h
          | None => h
          end
      end
  end.

(** ** Accessors and the short form of startMission *)

Definition getRecordingTemporaryDirectory (h : AgentHost V) : string :=
  match current_mission_record h with
  | Some rec => if isRecording rec then getTemporaryDirectory rec else EmptyString
  | None => EmptyString
  end.

Definition getMissionInit (h : AgentHost V) : option MissionInitSpec :=
  current_mission_init h.

(** The port [ClientInfo(address)] takes when none is given (ClientPool.h). *)
Variable default_client_port : Z.

(** [startMission(mission, mission_record)]: one local client, role 0, no
    experiment id. *)
Definition startMission_local (mission : MissionSpec)
    (mission_record : MissionRecord) : M unit :=
  let client_pool :=
    ClientPool_add (mkClientPool [])
      (mkClientInfo "127.0.0.1" default_client_port) in
  startMission mission client_pool mission_record 0 EmptyString.

(** ** The schema self-check *)

(** What [extractVersionNumber] takes from outside: the lines [getline]
    reads from the schema file of that name (none when the stream did not
    open), [boost::trim], and the search for the regular expression in the
    text read so far, as its first group ([None] when [regex_search] fails or
    there is no group). *)
Variable schema_file_lines : string -> list string.
Variable trim : string -> string.
Variable version_regex_search : string -> option string.

Definition is_empty (s : string) : bool :=
  match s with EmptyString => true | String _ _ => false end.

(** The loop of [extractVersionNumber]: [lines] are the lines still unread. *)
Fixpoint extractVersionNumber_loop (lines : list string) (xml version : string)
    : string :=
  if is_empty version then
    match lines with
    | [] => version
    | line :: rest =>
        let line := trim line in
        let xml := xml ++ line in
        let version := match version_regex_search xml with
                       | Some v => v
                       | None => version
                       end in
        extractVersionNumber_loop rest xml version
    end
  else version.

Definition extractVersionNumber (name : string) : string :=
  extractVersionNumber_loop (schema_file_lines name) EmptyString EmptyString.

Definition schemas : list string :=
  ["Mission.xsd"; "MissionInit.xsd"; "MissionEnded.xsd"; "MissionHandlers.xsd";
   "Types.xsd"].

(** The loop of [testSchemasCompatible] over the schemas: the exception of
    the first schema whose version differs, if any. *)
Fixpoint check_schemas (names : list string) (targetVersion : string)
    : option exn :=
  match names with
  | [] => None
  | it :: rest =>
      let xsdVersion := extractVersionNumber it in
      if negb (String.eqb xsdVersion targetVersion) then
        Some (runtime_error
                ("Schema " ++ it ++ " has the wrong version number - should be "
                 ++ targetVersion ++ " but we got " ++ xsdVersion
                 ++ ". Check that MALMO_XSD_PATH is correct."))
      else check_schemas rest targetVersion
  end.

(** [None] when the check returns, [Some e] when it throws [e]. *)
Definition testSchemasCompatible : option exn :=
  let targetVersion := MALMO_VERSION in
  let parts := boost_split (fun c => Ascii.eqb c ".") targetVersion in
  match parts with
  | [major; minor; _] =>
      let targetVersion := major ++ "." ++ minor in
      check_schemas schemas targetVersion
  | _ =>
      Some (runtime_error
              ("Malformed version number - check root CMakeLists.txt. MALMO_VERSION should be in form MAJOR.MINOR.PATCH - instead we got "
               ++ targetVersion ++ "."))
  end.

(** ** Vocabulary of the properties *)

(** The messages [ms] handed to [handler] one after the other, with no
    other call in between. *)
Definition deliver {A} (handler : A -> AgentHost V -> AgentHost V)
    (ms : list A) (h : AgentHost V) : AgentHost V :=
  fold_left (fun h m => handler m h) ms h.

(** A reward message whose text [createFromSimpleString] accepts. *)
Definition parses (m : TimestampedString) : Prop :=
  exists values, createFromSimpleString (text m) = inr values.

(** The checks [startMission] makes on its arguments before it takes the
    lock. *)
Definition arguments_valid (mission : MissionSpec) (role : Z) : bool :=
  negb ((role <? 0) || (role >=? getNumberOfAgents mission))
  && negb (isVideoRequested mission role
           && negb (Z.rem (getVideoWidth mission role) 4 =? 0))
  && negb (isVideoRequested mission role
           && negb (Z.rem (getVideoHeight mission role) 2 =? 0)).

(** The positions of the pool that [findClient] visits, in order, as the
    specification words them: (i + role) mod poolSize for i from 0. *)
Definition probe_indices (role : Z) (poolSize : nat) : list nat :=
  map (fun i => Z.to_nat ((Z.of_nat i + role) mod Z.of_nat poolSize))
    (seq 0 poolSize).

(** An exchange whose reply is not exactly the accepted token. *)
Definition not_accepted (e : Exchange) : Prop :=
  ex_reply e <> Some malmo_mission_accepted.

Definition no_client_error : exn :=
  runtime_error
    "Failed to find an available client for this mission - tried all the clients in the supplied client pool.".

Definition internal_error (e : exn) : Prop :=
  exists rest,
    e = runtime_error
          ("Internal error: the XML we generate does not validate: " ++ rest).

(** The host at a position of the probe order. *)
Definition host_at (client_pool : ClientPool) (role : Z) (i : nat)
    : option ClientInfo :=
  nth_error (clients client_pool)
    (Z.to_nat ((Z.of_nat i + role)
               mod Z.of_nat (List.length (clients client_pool)))).

(** What the hosts [items] answer when each is sent [request], in order,
    after the exchanges [net]. *)
Fixpoint probe_all (items : list ClientInfo) (request : string)
    (net : list Exchange) : list Exchange :=
  match items with
  | [] => []
  | item :: rest =>
      let e := mkExchange (ip_address item) (port item) request
                 (SendStringAndGetShortReply net (ip_address item) (port item)
                    request) in
      e :: probe_all rest request (net ++ [e])
  end.

(** A reply that begins with the reservation token. *)
Definition reservation_accepted (e : Exchange) : bool :=
  match ex_reply e with
  | Some reply => prefix malmo_reservation_prefix reply
  | None => false
  end.

Definition reservation_request (mi : MissionInitSpec) : string :=
  "MALMO_REQUEST_CLIENT:" ++ MALMO_VERSION ++ ":20000:" ++ getExperimentID mi ++ nl.

Definition not_enough_clients_error (agents : Z) : exn :=
  runtime_error
    ("There are not enough clients availble in the ClientPool to start this "
     ++ to_string agents ++ " agent mission.").

(** What [close] leaves: the mission not running, no listener recording,
    the command stream closed and the command connection dropped. *)
Definition is_torn_down (h : AgentHost V) : bool :=
  negb (is_mission_running (world_state h))
  && match video_server h with
     | Some s => negb (vs_recording s)
     | None => true
     end
  && match observations_server h with
     | Some s => match ss_writer s with Some _ => false | None => true end
     | None => true
     end
  && match rewards_server h with
     | Some s => match ss_writer s with Some _ => false | None => true end
     | None => true
     end
  && match commands_stream h with Some _ => false | None => true end
  && match commands_connection h with Some _ => false | None => true end.

(** How the handler sorts a message: by the root element, the lifecycle
    flag and the outcome of the schema parser. *)
Inductive Classification :=
  | AsMissionInit (mission_init : MissionInitSpec)
  | AsMissionEnded (mission_ended : MissionEnded V)
  | AsPing
  | AsError.

Definition classify (xml : TimestampedString) (h : AgentHost V)
    : Classification :=
  match read_xml (text xml) with
  | inl _ => AsError
  | inr [] => AsError
  | inr (root_node_name :: _) =>
      if negb (is_mission_running (world_state h))
         && String.eqb root_node_name "MissionInit" then
        match MissionInitSpec_parse (text xml) with
        | inr mi => AsMissionInit mi
        | inl _ => AsError
        end
      else if String.eqb root_node_name "MissionEnded" then
        match MissionEnded_parse (text xml) with
        | inr me => AsMissionEnded me
        | inl _ => AsError
        end
      else if String.eqb root_node_name "ping" then AsPing
      else AsError
  end.

Definition append_message (xml : TimestampedString) (h : AgentHost V) :=
  set_world_state
    (set_mission_control_messages
       (mission_control_messages (world_state h) ++ [xml]) (world_state h)) h.

(** The error entry of an abnormal mission end, if the status is one. *)
Definition abnormal_end_errors (xml : TimestampedString)
    (me : MissionEnded V) : list TimestampedString :=
  match Status me with
  | ENDED | PLAYER_DIED => []
  | ABNORMAL _ =>
      [mkTimestampedString (timestamp xml)
         ("Mission ended abnormally: " ++ HumanReadableStatus me)]
  end.

Definition missionEnded_parse_error (xml : TimestampedString)
    (e : xml_schema_exception) : TimestampedString :=
  mkTimestampedString (timestamp xml)
    ("Error parsing MissionEnded message XML: " ++ xml_what e ++ " : "
     ++ xml_details e ++ ":" ++ substring 0 20 (text xml) ++ "...").

(** ** Vocabulary of the further properties *)

(** The rewards that the messages [ms] carry, in order; a message whose text
    does not parse carries none. *)
Definition parsed_rewards (ms : list TimestampedString)
    : list (TimestampedReward V) :=
  flat_map (fun m => match createFromSimpleString (text m) with
                     | inr values => [mkTimestampedReward (timestamp m) values]
                     | inl _ => []
                     end) ms.

(** The payloads of [rest] added to [first], in arrival order. *)
Definition sum_values (first : V) (rest : list (TimestampedReward V)) : V :=
  fold_left (fun total r => values_add total (reward_values r)) rest first.

(** One message arriving on a telemetry channel, and the handler it goes to. *)
Inductive Delivery :=
  | VideoFrame (frame : TimestampedVideoFrame)
  | Observation (message : TimestampedString)
  | RewardMessage (message : TimestampedString).

Definition handle (d : Delivery) (h : AgentHost V) : AgentHost V :=
  match d with
  | VideoFrame frame => onVideo frame h
  | Observation message => onObservation message h
  | RewardMessage message => onReward message h
  end.

Definition frames_of (ds : list Delivery) : list TimestampedVideoFrame :=
  flat_map (fun d => match d with VideoFrame f => [f] | _ => [] end) ds.

Definition observations_of (ds : list Delivery) : list TimestampedString :=
  flat_map (fun d => match d with Observation m => [m] | _ => [] end) ds.

Definition reward_messages_of (ds : list Delivery) : list TimestampedString :=
  flat_map (fun d => match d with RewardMessage m => [m] | _ => [] end) ds.

(** [hoare P c Q E]: run from a state that satisfies [P], [c] either
    returns [x] in a state that satisfies [Q x], or throws in a state that
    satisfies [E]. *)
Definition hoare {A} (P : AgentHost V -> Prop) (c : M A)
    (Q : A -> AgentHost V -> Prop) (E : AgentHost V -> Prop) : Prop :=
  forall h, P h ->
    match fst (c h) with
    | inr x => Q x (snd (c h))
    | inl _ => E (snd (c h))
    end.

(** What the agent sees of the host object: the world state and the three
    policies. *)
Definition same_view (h0 h : AgentHost V) : Prop :=
  world_state h = world_state h0 /\
  video_policy h = video_policy h0 /\
  rewards_policy h = rewards_policy h0 /\
  observations_policy h = observations_policy h0.

(** The state during client discovery, seen from the state [h0] in which
    startMission was called: the agent's view is as in [h0], and the
    negotiation record and the recording spec are set. *)
Definition negotiating (h0 h : AgentHost V) : Prop :=
  same_view h0 h /\
  current_mission_init h <> None /\
  current_mission_record h <> None.

(** The state startMission leaves when it succeeds, seen from the state
    [h0] in which it was called: the world state cleared, the policies as
    they were. *)
Definition cleared_view (h0 h : AgentHost V) : Prop :=
  world_state h = WorldState_clear (world_state h0) /\
  video_policy h = video_policy h0 /\
  rewards_policy h = rewards_policy h0 /\
  observations_policy h = observations_policy h0.

(** A reply that begins with the server-found token. *)
Definition server_found (e : Exchange) : bool :=
  match ex_reply e with
  | Some reply => prefix malmo_server_prefix reply
  | None => false
  end.

Definition find_server_request (mi : MissionInitSpec) : string :=
  "MALMO_FIND_SERVER" ++ getExperimentID mi ++ nl.

(** The address and the port that [findServer] reads off a server-found
    reply: the text between the token and the first ':', and the number
    after it; [None] where [findServer] throws. *)
Definition decode_server_reply (reply : string) : option (string * Z) :=
  match index 0 ":" reply with
  | None => None
  | Some colon =>
      match sscanf_d (substr_from (colon + 1) reply) with
      | None => None
      | Some minecraft_server_port =>
          Some (substring (String.length malmo_server_prefix)
                  (colon - String.length malmo_server_prefix) reply,
                minecraft_server_port)
      end
  end.

Definition server_not_found_error : exn :=
  runtime_error
    "Failed to find the server for this mission - you must start the agent that has role 0 first.".

(** The negotiation record [mi] made out to a client. *)
Definition made_out_to (address : string) (client_port : Z)
    (mi : MissionInitSpec) : MissionInitSpec :=
  setClientMissionControlPort client_port (setClientAddress address mi).

(** An exchange whose request is the mission-init document made out to the
    host it is sent to. *)
Definition addressed (mi : MissionInitSpec) (e : Exchange) : Prop :=
  ex_request e
  = getAsXML false (made_out_to (ex_address e) (ex_port e) mi) ++ nl.

(** The host object once the client's MissionInit [mi] is taken in: the
    negotiation record replaced, both flags set, the command connection
    opened to the client's command port. *)
Definition mission_started (mi : MissionInitSpec) (h : AgentHost V)
    : AgentHost V :=
  set_commands_connection
    (Some (mkClientConnection (getClientAddress mi) (getClientCommandsPort mi)))
    (set_world_state
       (set_has_mission_begun true
          (set_is_mission_running true (world_state h)))
       (set_current_mission_init (Some mi) h)).

(** The same, short of the command connection: what [onMissionControlMessage]
    leaves when [openCommandsConnection] throws. *)
Definition mission_started_no_connection (mi : MissionInitSpec)
    (h : AgentHost V) : AgentHost V :=
  set_world_state
    (set_has_mission_begun true (set_is_mission_running true (world_state h)))
    (set_current_mission_init (Some mi) h).

Definition commands_port_unknown_error : exn :=
  runtime_error
    "AgentHost::openCommandsConnection : client commands port is unknown! Has the mission started?".

(** The error entry for a root element that is unknown or arrives at the
    wrong time. *)
Definition unexpected_root_error (xml : TimestampedString)
    (root_node_name : string) : TimestampedString :=
  mkTimestampedString (timestamp xml)
    ("Unknown mission control message root node or at wrong time: "
     ++ root_node_name ++ " :" ++ substring 0 200 (text xml) ++ "...").

(** The final reward of a MissionEnded document, as the entry recorded on
    the rewards listener. *)
Definition final_reward_record (xml : TimestampedString) (values : V)
    : TimestampedString :=
  mkTimestampedString (timestamp xml) (getAsSimpleString values).

Definition connection_not_open_error (now : ptime) : TimestampedString :=
  mkTimestampedString now
    "AgentHost::sendCommand : commands connection is not open. Is the mission running?".

(** The one client of the pool that the two-argument startMission builds. *)
Definition local_client : ClientInfo :=
  mkClientInfo "127.0.0.1" default_client_port.

(** An exchange whose reply is exactly the accepted token. *)
Definition mission_accepted (e : Exchange) : bool :=
  match ex_reply e with
  | Some reply => String.eqb reply malmo_mission_accepted
  | None => false
  end.

(** The separator of [testSchemasCompatible], a string with none, and the
    parts put back together with one separator between neighbours. *)
Definition is_dot (c : ascii) : bool := Ascii.eqb c ".".

Fixpoint has_dot (s : string) : bool :=
  match s with
  | EmptyString => false
  | String c rest => is_dot c || has_dot rest
  end.

Fixpoint join_dots (parts : list string) : string :=
  match parts with
  | [] => EmptyString
  | part :: rest =>
      match rest with
      | [] => part
      | _ :: _ => part ++ "." ++ join_dots rest
      end
  end.

(** The text [extractVersionNumber] has put together once it has read
    [lines], and what the search gives on a text: its first group, empty when
    there is no match. *)
Definition text_read (lines : list string) : string :=
  fold_left (fun xml line => xml ++ trim line) lines EmptyString.

Definition version_found (xml : string) : string :=
  match version_regex_search xml with
  | Some version => version
  | None => EmptyString
  end.

(** The first string of a list that is not empty; empty when there is none. *)
Fixpoint first_nonempty (l : list string) : string :=
  match l with
  | [] => EmptyString
  | s :: rest => if is_empty s then first_nonempty rest else s
  end.

(** A series of sendCommand calls, each command with the clock reading of
    its call. *)
Definition send_commands (commands : list (ptime * string)) (h : AgentHost V)
    : AgentHost V :=
  fold_left (fun h c => sendCommand (fst c) (snd c) h) commands h.

(** The error entry a command leaves on the host [h], if any: the connection
    is not open, or the send fails. *)
Definition command_error (h : AgentHost V) (c : ptime * string)
    : option TimestampedString :=
  match commands_connection h with
  | None => Some (connection_not_open_error (fst c))
  | Some connection =>
      match connection_send connection (snd c) with
      | Some what =>
          Some (mkTimestampedString (fst c)
                  ("AgentHost::sendCommand : failed to send command: " ++ what))
      | None => None
      end
  end.

(** The line a command adds to the command recording of [h], if any. *)
Definition command_line (h : AgentHost V) (c : ptime * string)
    : option (string * string) :=
  match command_error h c, commands_stream h with
  | None, Some path => Some (path, to_iso_string (fst c) ++ " " ++ snd c ++ nl)
  | _, _ => None
  end.

Definition to_list {A} (o : option A) : list A :=
  match o with Some x => [x] | None => [] end.

(** The mission-init document made out to the host [item], as
    [generateMissionInit] produces it once [findClient] has written the
    host's address and port into the negotiation record [mi]; and the
    exception [generateMissionInit] throws when the document does not
    validate. *)
Definition document_for (mi : MissionInitSpec) (item : ClientInfo) : string :=
  getAsXML false (made_out_to (ip_address item) (port item) mi).

Definition validation_error (e : xml_schema_exception) (generated_xml : string)
    : exn :=
  runtime_error
    ("Internal error: the XML we generate does not validate: "
     ++ xml_what e ++ nl ++ xml_details e ++ nl ++ generated_xml ++ nl).

(** An exchange whose request is the document made out to its host, that
    document having validated. *)
Definition validated (mi : MissionInitSpec) (e : Exchange) : Prop :=
  ex_request e = document_for mi (ex_host e) ++ nl /\
  exists parsed, MissionInitSpec_parse (document_for mi (ex_host e)) = inr parsed.

(** The replies of the exchanges [evs] are the ones the network gave, each
    exchange made on the log [net] as the earlier ones left it. *)
Fixpoint answered (net : list Exchange) (evs : list Exchange) : Prop :=
  match evs with
  | [] => True
  | e :: rest =>
      ex_reply e
      = SendStringAndGetShortReply net (ex_address e) (ex_port e) (ex_request e)
      /\ answered (net ++ [e]) rest
  end.

(** ** Properties of the world-state aggregator *)

Lemma deliver_snoc {A} (handler : A -> AgentHost V -> AgentHost V) ms m h :
  deliver handler (ms ++ [m]) h = handler m (deliver handler ms h).
Proof. unfold deliver. now rewrite fold_left_app. Qed.

Lemma onVideo_policy m h : video_policy (onVideo m h) = video_policy h.
Proof. reflexivity. Qed.

Lemma onObservation_policy m h :
  observations_policy (onObservation m h) = observations_policy h.
Proof. reflexivity. Qed.

Lemma processReceivedReward_policy r h :
  rewards_policy (processReceivedReward r h) = rewards_policy h.
Proof. reflexivity. Qed.

Lemma onReward_policy m h : rewards_policy (onReward m h) = rewards_policy h.
Proof. unfold onReward. now destruct (createFromSimpleString (text m)). Qed.

Lemma onVideo_counter m h :
  number_of_video_frames_since_last_state (world_state (onVideo m h))
  = number_of_video_frames_since_last_state (world_state h) + 1.
Proof. unfold onVideo. now destruct (video_policy h). Qed.

Lemma onObservation_counter m h :
  number_of_observations_since_last_state (world_state (onObservation m h))
  = number_of_observations_since_last_state (world_state h) + 1.
Proof. unfold onObservation. now destruct (observations_policy h). Qed.

Lemma processReceivedReward_counter r h :
  number_of_rewards_since_last_state (world_state (processReceivedReward r h))
  = number_of_rewards_since_last_state (world_state h) + 1.
Proof.
  unfold processReceivedReward.
  destruct (rewards_policy h); try reflexivity.
  now destruct (rewards (world_state h)).
Qed.

Lemma deliver_onVideo ms : forall h,
  video_policy (deliver onVideo ms h) = video_policy h /\
  number_of_video_frames_since_last_state (world_state (deliver onVideo ms h))
  = number_of_video_frames_since_last_state (world_state h)
    + Z.of_nat (List.length ms).
Proof.
  induction ms as [|m ms IH] using rev_ind; intro h.
  - simpl. split; [reflexivity | lia].
  - rewrite deliver_snoc, onVideo_policy, onVideo_counter, length_app.
    destruct (IH h) as [-> ->]. simpl. split; [reflexivity | lia].
Qed.

Lemma deliver_onObservation ms : forall h,
  observations_policy (deliver onObservation ms h) = observations_policy h /\
  number_of_observations_since_last_state
    (world_state (deliver onObservation ms h))
  = number_of_observations_since_last_state (world_state h)
    + Z.of_nat (List.length ms).
Proof.
  induction ms as [|m ms IH] using rev_ind; intro h.
  - simpl. split; [reflexivity | lia].
  - rewrite deliver_snoc, onObservation_policy, onObservation_counter, length_app.
    destruct (IH h) as [-> ->]. simpl. split; [reflexivity | lia].
Qed.

Lemma deliver_onReward ms : forall h,
  Forall parses ms ->
  rewards_policy (deliver onReward ms h) = rewards_policy h /\
  number_of_rewards_since_last_state (world_state (deliver onReward ms h))
  = number_of_rewards_since_last_state (world_state h)
    + Z.of_nat (List.length ms).
Proof.
  induction ms as [|m ms IH] using rev_ind; intros h Hok.
  - simpl. split; [reflexivity | lia].
  - apply Forall_app in Hok. destruct Hok as [Hms Hm].
    inversion Hm as [|? ? [v Hv] _]; subst.
    rewrite deliver_snoc, onReward_policy, length_app.
    destruct (IH h Hms) as [-> Hc]. split; [reflexivity|].
    unfold onReward at 1. rewrite Hv, processReceivedReward_counter, Hc.
    simpl. lia.
Qed.

(** C1. Two calls of getWorldState in a row: the first returns the
    accumulated world state; the second returns one whose five sequences are
    empty and whose three counters are zero; is_mission_running and
    has_mission_begun are the same in both returned states and in the state
    the object keeps after each call. *)
Theorem getWorldState_twice (h : AgentHost V) :
  let first := fst (getWorldState h) in
  let h1 := snd (getWorldState h) in
  let second := fst (getWorldState h1) in
  let h2 := snd (getWorldState h1) in
  first = world_state h /\
  (mission_control_messages second = [] /\ observations second = [] /\
   rewards second = [] /\ video_frames second = [] /\ errors second = []) /\
  (number_of_video_frames_since_last_state second = 0 /\
   number_of_rewards_since_last_state second = 0 /\
   number_of_observations_since_last_state second = 0) /\
  (is_mission_running second = is_mission_running first /\
   has_mission_begun second = has_mission_begun first) /\
  (is_mission_running (world_state h1) = is_mission_running first /\
   has_mission_begun (world_state h1) = has_mission_begun first) /\
  (is_mission_running (world_state h2) = is_mission_running first /\
   has_mission_begun (world_state h2) = has_mission_begun first).
Proof.
  destruct h as [w vp rp op r d mi mr mc vs rs os cs cc nw fl].
  cbn. repeat split.
Qed.

(** C2. With the rewards policy Sum, after the rewards r1, r2, r3 are
    delivered in that order with no drain in between, the rewards sequence
    holds exactly one reward, and its timestamp is that of r3; when no reward
    was retained before r1 (as after a drain or a mission start), its value is
    r1+r2+r3, also when the three arrive as messages on the reward channel
    that parse to those values. *)
Theorem sum_rewards_three (h : AgentHost V) (r1 r2 r3 : TimestampedReward V) :
  (forall a b, values_add a b = values_add b a) ->
  rewards_policy h = SUM_REWARDS ->
  let total := values_add (values_add (reward_values r1) (reward_values r2))
                 (reward_values r3) in
  let h' := deliver processReceivedReward [r1; r2; r3] h in
  (exists r, rewards (world_state h') = [r] /\
             reward_timestamp r = reward_timestamp r3) /\
  (rewards (world_state h) = [] ->
   rewards (world_state h') = [mkTimestampedReward (reward_timestamp r3) total] /\
   forall m1 m2 m3,
     createFromSimpleString (text m1) = inr (reward_values r1) ->
     createFromSimpleString (text m2) = inr (reward_values r2) ->
     createFromSimpleString (text m3) = inr (reward_values r3) ->
     timestamp m3 = reward_timestamp r3 ->
     rewards (world_state (deliver onReward [m1; m2; m3] h))
     = [mkTimestampedReward (reward_timestamp r3) total]).
Proof.
  intros Hcomm Hpol total h'. subst total h'.
  destruct h as [w vp rp op r d mi mr mc vs rs os cs cc nw fl].
  destruct w as [run beg nv nr no vf rw ob mcm er].
  cbn in Hpol. subst rp.
  split.
  - destruct rw as [|front rest]; cbn; eexists; split; reflexivity.
  - cbn [world_state rewards]. intros ->. split.
    + cbn. unfold add. cbn.
      rewrite (Hcomm (reward_values r3)), (Hcomm (reward_values r2)).
      reflexivity.
    + intros m1 m2 m3 H1 H2 H3 Ht.
      cbn. unfold onReward. rewrite H1. cbn. rewrite H2. cbn. rewrite H3. cbn.
      unfold add. cbn.
      rewrite (Hcomm (reward_values r3)), (Hcomm (reward_values r2)), Ht.
      reflexivity.
Qed.

(** C3. Under a LatestOnly policy, after N >= 1 deliveries to the handler
    of a kind (video frames, observations, reward messages that parse) with no
    drain in between, the sequence of that kind holds exactly one item, the
    last one delivered, and the since-last-state counter of that kind has
    grown by N: it is N when the deliveries started from a drained state. *)
Theorem latest_only_keeps_last :
  (forall h ms last,
     video_policy h = LATEST_FRAME_ONLY ->
     let h' := deliver onVideo (ms ++ [last]) h in
     let N := Z.of_nat (List.length (ms ++ [last])) in
     video_frames (world_state h') = [last] /\
     number_of_video_frames_since_last_state (world_state h')
     = number_of_video_frames_since_last_state (world_state h) + N /\
     (number_of_video_frames_since_last_state (world_state h) = 0 ->
      number_of_video_frames_since_last_state (world_state h') = N)) /\
  (forall h ms last,
     observations_policy h = LATEST_OBSERVATION_ONLY ->
     let h' := deliver onObservation (ms ++ [last]) h in
     let N := Z.of_nat (List.length (ms ++ [last])) in
     observations (world_state h') = [last] /\
     number_of_observations_since_last_state (world_state h')
     = number_of_observations_since_last_state (world_state h) + N /\
     (number_of_observations_since_last_state (world_state h) = 0 ->
      number_of_observations_since_last_state (world_state h') = N)) /\
  (forall h ms last values,
     rewards_policy h = LATEST_REWARD_ONLY ->
     Forall parses ms ->
     createFromSimpleString (text last) = inr values ->
     let h' := deliver onReward (ms ++ [last]) h in
     let N := Z.of_nat (List.length (ms ++ [last])) in
     rewards (world_state h') = [mkTimestampedReward (timestamp last) values] /\
     number_of_rewards_since_last_state (world_state h')
     = number_of_rewards_since_last_state (world_state h) + N /\
     (number_of_rewards_since_last_state (world_state h) = 0 ->
      number_of_rewards_since_last_state (world_state h') = N)).
Proof.
  split; [|split].
  - intros h ms last Hpol h' N. subst h' N.
    rewrite deliver_snoc, onVideo_counter, length_app.
    destruct (deliver_onVideo ms h) as [Hp ->].
    set (h0 := deliver onVideo ms h) in *.
    unfold onVideo. rewrite Hp, Hpol. cbn.
    split; [reflexivity|]. split; [lia | intros ->; lia].
  - intros h ms last Hpol h' N. subst h' N.
    rewrite deliver_snoc, onObservation_counter, length_app.
    destruct (deliver_onObservation ms h) as [Hp ->].
    set (h0 := deliver onObservation ms h) in *.
    unfold onObservation. rewrite Hp, Hpol. cbn.
    split; [reflexivity|]. split; [lia | intros ->; lia].
  - intros h ms last values Hpol Hok Hlast h' N. subst h' N.
    rewrite deliver_snoc, length_app.
    destruct (deliver_onReward ms h Hok) as [Hp Hc].
    set (h0 := deliver onReward ms h) in *.
    unfold onReward. rewrite Hlast, processReceivedReward_counter, Hc.
    unfold processReceivedReward. rewrite Hp, Hpol. cbn.
    split; [reflexivity|]. split; [lia | intros ->; lia].
Qed.

(** C10. When the text of a reward message does not parse, onReward
    appends exactly one entry to the errors and changes nothing else: the
    rewards sequence, the three counters, the other sequences, the flags
    and every other field of the object are as before. *)
Theorem onReward_parse_failure (m : TimestampedString) (h : AgentHost V)
    (what : string) :
  createFromSimpleString (text m) = inl what ->
  let w := world_state h in
  let w' := world_state (onReward m h) in
  errors w'
  = (errors w ++ [mkTimestampedString (timestamp m)
                    ("Error parsing Reward message: " ++ what ++ " : " ++ text m)])%list /\
  rewards w' = rewards w /\
  number_of_rewards_since_last_state w' = number_of_rewards_since_last_state w /\
  set_errors (errors w) w' = w /\
  set_world_state w (onReward m h) = h.
Proof.
  intros Hfail w w'. subst w w'. unfold onReward. rewrite Hfail.
  destruct h as [w vp rp op r d mi mr mc vs rs os cs cc nw fl].
  destruct w as [run beg nv nr no vf rw ob mcm er].
  cbn. repeat split.
Qed.

(** ** Properties of mission start and client discovery *)

(** C4 (amended). While is_mission_running is true, startMission fails
    with a runtime error and leaves the whole object as it was (the
    negotiation record, the listeners and every other field); the error is
    "A mission is already running." exactly when the role and the video
    dimensions pass the checks made before the lock is taken, and the error
    of the failed check otherwise. *)
Theorem startMission_while_running (mission : MissionSpec)
    (client_pool : ClientPool) (mission_record : MissionRecord) (role : Z)
    (unique_experiment_id : string) (h : AgentHost V) :
  is_mission_running (world_state h) = true ->
  exists what,
    startMission mission client_pool mission_record role unique_experiment_id h
    = (inl (runtime_error what), h) /\
    (arguments_valid mission role = true ->
     what = "A mission is already running.") /\
    (arguments_valid mission role = false ->
     what <> "A mission is already running.").
Proof.
  intro Hrun. unfold startMission, arguments_valid.
  destruct ((role <? 0) || (role >=? getNumberOfAgents mission)).
  - destruct (getNumberOfAgents mission =? 1);
      (eexists; split; [reflexivity | split; discriminate]).
  - destruct (isVideoRequested mission role
              && negb (Z.rem (getVideoWidth mission role) 4 =? 0)).
    + eexists; split; [reflexivity | split; discriminate].
    + destruct (isVideoRequested mission role
                && negb (Z.rem (getVideoHeight mission role) 2 =? 0)).
      * eexists; split; [reflexivity | split; discriminate].
      * unfold bind, gets. rewrite Hrun.
        eexists; split; [reflexivity | split; [reflexivity | discriminate]].
Qed.

Lemma findClient_loop_step client_pool nz i idxs h mi item :
  current_mission_init h = Some mi ->
  (if Z.rem (Z.of_nat i + current_role h) nz <? 0 then None
   else nth_error (clients client_pool)
          (Z.to_nat (Z.rem (Z.of_nat i + current_role h) nz))) = Some item ->
  let mi' := setClientMissionControlPort (port item)
               (setClientAddress (ip_address item) mi) in
  let h1 := set_current_mission_init (Some mi') h in
  let xml := getAsXML false mi' in
  findClient_loop client_pool nz (i :: idxs) h =
  match MissionInitSpec_parse xml with
  | inl e =>
      (inl (runtime_error
              ("Internal error: the XML we generate does not validate: "
               ++ xml_what e ++ nl ++ xml_details e ++ nl ++ xml ++ nl)), h1)
  | inr _ =>
      let reply := SendStringAndGetShortReply (network h) (ip_address item)
                     (port item) (xml ++ nl) in
      let h2 := set_network
                  (network h ++ [mkExchange (ip_address item) (port item)
                                   (xml ++ nl) reply]) h1 in
      match reply with
      | None => findClient_loop client_pool nz idxs h2
      | Some r =>
          if String.eqb r malmo_mission_accepted then (inr true, h2)
          else findClient_loop client_pool nz idxs h2
      end
  end.
Proof.
  intros Hmi Hitem mi' h1 xml.
  destruct h as [w vp rp op r d cmi mr mc vs rs os cs cc nw fl].
  cbn in Hmi, Hitem. subst cmi.
  cbn [findClient_loop]. unfold bind at 1. unfold gets at 1. cbn [current_role].
  unfold bind at 1. unfold clients_at. rewrite Hitem. unfold ret at 1.
  unfold bind, update_mission_init, deref, modify, generateMissionInit, send,
    ret, throw.
  cbn. fold mi'. fold xml.
  destruct (MissionInitSpec_parse xml); [reflexivity|].
  cbn.
  destruct (SendStringAndGetShortReply nw (ip_address item) (port item) (xml ++ nl))
    as [reply|]; [|reflexivity].
  destruct (String.eqb reply malmo_mission_accepted); reflexivity.
Qed.

Lemma close_network h : network (close h) = network h.
Proof.
  destruct h as [w vp rp op r d cmi mr mc [vs|] [rs|] [os|] [cs|] [cc|] nw fl];
    reflexivity.
Qed.

Lemma close_not_running h : is_mission_running (world_state (close h)) = false.
Proof.
  destruct h as [w vp rp op r d cmi mr mc [vs|] [rs|] [os|] [cs|] [cc|] nw fl];
    reflexivity.
Qed.

Lemma ex_host_eta item request reply :
  ex_host (mkExchange (ip_address item) (port item) request reply) = item.
Proof. now destruct item. Qed.

Lemma findClient_loop_spec client_pool idxs : forall h mi,
  current_mission_init h = Some mi ->
  0 <= current_role h ->
  Forall (fun i => (i < List.length (clients client_pool))%nat) idxs ->
  let run := findClient_loop client_pool
               (Z.of_nat (List.length (clients client_pool))) idxs h in
  exists evs,
    network (snd run) = (network h ++ evs)%list /\
    map Some (map ex_host evs)
    = map (host_at client_pool (current_role h))
        (firstn (List.length evs) idxs) /\
    Forall (validated mi) evs /\
    answered (network h) evs /\
    match fst run with
    | inr true =>
        exists evs0 e, evs = (evs0 ++ [e])%list /\
          ex_reply e = Some malmo_mission_accepted /\
          Forall not_accepted evs0
    | inr false =>
        Forall not_accepted evs /\ List.length evs = List.length idxs
    | inl err =>
        Forall not_accepted evs /\ internal_error err /\
        (List.length evs < List.length idxs)%nat /\
        exists i item e,
          nth_error idxs (List.length evs) = Some i /\
          host_at client_pool (current_role h) i = Some item /\
          MissionInitSpec_parse (document_for mi item) = inl e /\
          err = validation_error e (document_for mi item)
    end.
Proof.
  induction idxs as [|i idxs IH]; intros h mi Hmi Hrole Hidx run.
  - exists []. subst run. cbn. rewrite app_nil_r. repeat split; constructor.
  - inversion Hidx as [|? ? Hi Hrest]; subst.
    set (n := List.length (clients client_pool)) in *.
    set (k := (Z.of_nat i + current_role h) mod Z.of_nat n).
    assert (Hk : 0 <= k < Z.of_nat n) by (apply Z.mod_pos_bound; lia).
    assert (Hrem : Z.rem (Z.of_nat i + current_role h) (Z.of_nat n) = k)
      by (apply Z.rem_mod_nonneg; lia).
    destruct (nth_error (clients client_pool) (Z.to_nat k)) as [item|] eqn:Hnth;
      [| apply nth_error_None in Hnth; fold n in Hnth; lia].
    assert (Hitem :
      (if Z.rem (Z.of_nat i + current_role h) (Z.of_nat n) <? 0 then None
       else nth_error (clients client_pool)
              (Z.to_nat (Z.rem (Z.of_nat i + current_role h) (Z.of_nat n))))
      = Some item).
    { rewrite Hrem. destruct (Z.ltb_spec k 0); [lia | exact Hnth]. }
    assert (Hat : host_at client_pool (current_role h) i = Some item).
    { unfold host_at. fold n. fold k. exact Hnth. }
    subst run.
    rewrite (findClient_loop_step client_pool (Z.of_nat n) i idxs h mi item Hmi Hitem).
    cbv zeta.
    set (mi' := setClientMissionControlPort (port item)
                  (setClientAddress (ip_address item) mi)).
    set (xml := getAsXML false mi').
    destruct (MissionInitSpec_parse xml) as [e|okmi] eqn:Hparse.
    + exists []. cbn [fst snd]. rewrite app_nil_r.
      split; [now destruct h|]. split; [reflexivity|].
      split; [constructor|]. split; [exact I|].
      split; [constructor|]. split; [eexists; reflexivity|].
      split; [cbn; lia|].
      exists i, item, e. split; [reflexivity|]. split; [exact Hat|].
      split; [exact Hparse | reflexivity].
    + set (reply := SendStringAndGetShortReply (network h) (ip_address item)
                      (port item) (xml ++ nl)).
      set (ex := mkExchange (ip_address item) (port item) (xml ++ nl) reply).
      set (h2 := set_network (network h ++ [ex])
                   (set_current_mission_init (Some mi') h)).
      assert (Hmi2 : current_mission_init h2 = Some mi') by now destruct h.
      assert (Hrole2 : current_role h2 = current_role h) by now destruct h.
      assert (Hnet2 : network h2 = (network h ++ [ex])%list) by now destruct h.
      assert (Hhost : Some (ex_host ex) = host_at client_pool (current_role h) i).
      { rewrite Hat. unfold ex. now rewrite ex_host_eta. }
      assert (Hval : validated mi ex).
      { split; [reflexivity|]. exists okmi. exact Hparse. }
      assert (Hans : ex_reply ex
                     = SendStringAndGetShortReply (network h) (ex_address ex)
                         (ex_port ex) (ex_request ex)) by reflexivity.
      assert (Hcontinue :
        not_accepted ex ->
        exists evs,
          network (snd (findClient_loop client_pool (Z.of_nat n) idxs h2))
          = (network h ++ evs)%list /\
          map Some (map ex_host evs)
          = map (host_at client_pool (current_role h))
              (firstn (List.length evs) (i :: idxs)) /\
          Forall (validated mi) evs /\
          answered (network h) evs /\
          match fst (findClient_loop client_pool (Z.of_nat n) idxs h2) with
          | inr true =>
              exists evs0 e, evs = (evs0 ++ [e])%list /\
                ex_reply e = Some malmo_mission_accepted /\
                Forall not_accepted evs0
          | inr false =>
              Forall not_accepted evs
              /\ List.length evs = List.length (i :: idxs)
          | inl err =>
              Forall not_accepted evs /\ internal_error err /\
              (List.length evs < List.length (i :: idxs))%nat /\
              exists i' item' e',
                nth_error (i :: idxs) (List.length evs) = Some i' /\
                host_at client_pool (current_role h) i' = Some item' /\
                MissionInitSpec_parse (document_for mi item') = inl e' /\
                err = validation_error e' (document_for mi item')
          end).
      { intro Hna.
        destruct (IH h2 mi' Hmi2 ltac:(lia) Hrest)
          as (evs & Hnet & Hhosts & Hvals & Hanss & Hres).
        exists (ex :: evs). rewrite Hnet, Hnet2, <- app_assoc. cbn [app].
        split; [reflexivity|]. split.
        { cbn. rewrite Hhost. f_equal. rewrite Hhosts. now rewrite Hrole2. }
        split.
        { constructor; [exact Hval|].
          eapply Forall_impl; [|exact Hvals]. intros e0 He0. exact He0. }
        split.
        { cbn [answered]. split; [exact Hans|]. rewrite <- Hnet2. exact Hanss. }
        destruct (fst (findClient_loop client_pool (Z.of_nat n) idxs h2))
          as [err|[|]].
        - destruct Hres as (Hf & Hint & Hlen & i' & item' & e' & Hnth' & Hat'
                            & Hparse' & Herr).
          split; [now constructor|]. split; [exact Hint|].
          split; [cbn; lia|].
          exists i', item', e'. split; [exact Hnth'|].
          split; [rewrite <- Hrole2; exact Hat'|].
          split; [exact Hparse' | exact Herr].
        - destruct Hres as (evs0 & e & -> & Hacc & Hf).
          exists (ex :: evs0), e. split; [reflexivity|].
          split; [exact Hacc | now constructor].
        - destruct Hres as (Hf & Hlen).
          split; [now constructor | cbn; lia]. }
      destruct reply as [r|] eqn:Hreply.
      * destruct (String.eqb_spec r malmo_mission_accepted) as [Heq|Hneq].
        -- exists [ex]. cbn [fst snd]. split; [exact Hnet2|].
           split; [cbn; now rewrite Hhost|].
           split; [now constructor|]. split; [split; [exact Hans | exact I]|].
           exists [], ex. split; [reflexivity|].
           split; [unfold ex; cbn; now rewrite Heq | constructor].
        -- apply Hcontinue. unfold not_accepted, ex. cbn. congruence.
      * apply Hcontinue. unfold not_accepted, ex. cbn. discriminate.
Qed.

(** C5. findClient visits the pool at the positions (i + role) mod
    poolSize for i = 0 .. poolSize-1 (for pool size 5 and role 3: 3, 4, 0,
    1, 2), one exchange per host and in that order; each exchange carries the
    validated mission-init document made out to its host, and its reply is
    the one the network gave.  It returns normally exactly when an exchange
    brought back the reply "MALMOOK" itself: that exchange is the last one
    made, and no earlier reply was the token.  When it fails no reply was the
    token, and it fails in one of two ways: with the no-client error, after
    it has visited every position and torn down; or, before the pool is
    exhausted, with the validation error of the document made out to the next
    host of the order, that document having failed to validate. *)
Theorem findClient_probe_order (client_pool : ClientPool) (h : AgentHost V)
    (mi : MissionInitSpec) :
  current_mission_init h = Some mi ->
  0 <= current_role h ->
  let n := List.length (clients client_pool) in
  let order := probe_indices (current_role h) n in
  let run := findClient client_pool h in
  probe_indices 3 5 = [3; 4; 0; 1; 2]%nat /\
  exists evs,
    network (snd run) = (network h ++ evs)%list /\
    map Some (map ex_host evs)
    = map (nth_error (clients client_pool)) (firstn (List.length evs) order) /\
    Forall (validated mi) evs /\
    answered (network h) evs /\
    match fst run with
    | inr tt =>
        exists evs0 e, evs = (evs0 ++ [e])%list /\
          ex_reply e = Some "MALMOOK" /\
          Forall not_accepted evs0
    | inl err =>
        Forall not_accepted evs /\
        ((err = no_client_error /\ List.length evs = n /\
          is_mission_running (world_state (snd run)) = false)
         \/ (internal_error err /\ (List.length evs < n)%nat /\
             exists k item e,
               nth_error order (List.length evs) = Some k /\
               nth_error (clients client_pool) k = Some item /\
               MissionInitSpec_parse (document_for mi item) = inl e /\
               err = validation_error e (document_for mi item)))
    end.
Proof.
  intros Hmi Hrole n order run. split; [reflexivity|].
  assert (Hidx : Forall (fun i => (i < n)%nat) (seq 0 n)).
  { apply Forall_forall. intros i Hin. apply in_seq in Hin. lia. }
  destruct (findClient_loop_spec client_pool (seq 0 n) h mi Hmi Hrole Hidx)
    as (evs & Hnet & Hhosts & Hvals & Hans & Hres).
  assert (Horder :
    map (host_at client_pool (current_role h)) (firstn (List.length evs) (seq 0 n))
    = map (nth_error (clients client_pool)) (firstn (List.length evs) order)).
  { unfold order, probe_indices. rewrite firstn_map, map_map. reflexivity. }
  subst run. unfold findClient, bind. fold n.
  fold n in Hnet, Hres.
  destruct (findClient_loop client_pool (Z.of_nat n) (seq 0 n) h)
    as [[err|[|]] h'] eqn:Hloop; cbn [fst snd] in *.
  - exists evs.
    destruct Hres as (Hf & Hint & Hlen & i & item & e & Hnth & Hat & Hparse
                      & Herr).
    rewrite length_seq in Hlen.
    split; [exact Hnet|]. split; [now rewrite Hhosts, Horder|].
    split; [exact Hvals|]. split; [exact Hans|].
    split; [exact Hf|]. right. split; [exact Hint|]. split; [exact Hlen|].
    exists (Z.to_nat ((Z.of_nat i + current_role h) mod Z.of_nat n)), item, e.
    split.
    { unfold order, probe_indices.
      exact (map_nth_error
               (fun i => Z.to_nat ((Z.of_nat i + current_role h)
                                   mod Z.of_nat n)) _ _ Hnth). }
    split; [exact Hat|]. split; [exact Hparse | exact Herr].
  - exists evs. split; [exact Hnet|]. split; [now rewrite Hhosts, Horder|].
    split; [exact Hvals|]. split; [exact Hans|]. exact Hres.
  - exists evs. destruct Hres as (Hf & Hlen). rewrite length_seq in Hlen.
    unfold modify, throw. cbn [fst snd].
    split; [now rewrite close_network|]. split; [now rewrite Hhosts, Horder|].
    split; [exact Hvals|]. split; [exact Hans|].
    split; [exact Hf|]. left. split; [reflexivity|]. split; [exact Hlen|].
    apply close_not_running.
Qed.

(** *** Stepping through monadic code *)

Lemma bind_modify {B} f (k : unit -> M B) h : bind (modify f) k h = k tt (f h).
Proof. reflexivity. Qed.

Lemma bind_gets {A B} (f : AgentHost V -> A) (k : A -> M B) h :
  bind (gets f) k h = k (f h) h.
Proof. reflexivity. Qed.

Lemma bind_ret {A B} (x : A) (k : A -> M B) h : bind (ret x) k h = k x h.
Proof. reflexivity. Qed.

Lemma bind_deref {A B} (f : AgentHost V -> option A) name (k : A -> M B) h x :
  f h = Some x -> bind (deref f name) k h = k x h.
Proof. intro Hf. unfold bind, deref. now rewrite Hf. Qed.

Lemma bind_eq {A B} (c : M A) (k : A -> M B) h x h' :
  c h = (inr x, h') -> bind c k h = k x h'.
Proof. intro Hc. unfold bind. now rewrite Hc. Qed.

Lemma bind_throws {A B} (c : M A) (k : A -> M B) h e h' :
  c h = (inl e, h') -> bind c k h = (inl e, h').
Proof. intro Hc. unfold bind. now rewrite Hc. Qed.

Lemma update_mission_init_eq f h mi :
  current_mission_init h = Some mi ->
  update_mission_init f h = (inr tt, set_current_mission_init (Some (f mi)) h).
Proof. intro Hmi. unfold update_mission_init. now rewrite (bind_deref _ _ _ h mi). Qed.

Lemma bind_update_mission_init {B} f (k : unit -> M B) h mi :
  current_mission_init h = Some mi ->
  bind (update_mission_init f) k h
  = k tt (set_current_mission_init (Some (f mi)) h).
Proof. intro Hmi. apply bind_eq. now apply update_mission_init_eq. Qed.

Lemma set_network_same (h : AgentHost V) : set_network (network h) h = h.
Proof. now destruct h. Qed.

Lemma set_network_twice l l' (h : AgentHost V) :
  set_network l (set_network l' h) = set_network l h.
Proof. reflexivity. Qed.

(** *** Reservation *)

Lemma reservation_accepted_mk a p q r :
  reservation_accepted (mkExchange a p q r)
  = match r with
    | Some reply => prefix malmo_reservation_prefix reply
    | None => false
    end.
Proof. reflexivity. Qed.

Lemma probe_all_hosts items request : forall net,
  map ex_host (probe_all items request net) = items.
Proof.
  induction items as [|item rest IH]; intro net; cbn; [reflexivity|].
  now rewrite ex_host_eta, IH.
Qed.

Lemma cancel_loop_spec items : forall h,
  cancel_loop items h
  = (inr tt,
     set_network (network h ++ probe_all items cancel_request (network h)) h).
Proof.
  induction items as [|item rest IH]; intro h; cbn [cancel_loop probe_all].
  - unfold ret. now rewrite app_nil_r, set_network_same.
  - unfold bind, send. rewrite IH. cbn [network set_network].
    rewrite set_network_twice, <- app_assoc. reflexivity.
Qed.

Lemma reserve_loop_short items : forall request reservedClients clients_required h,
  let reqs := probe_all items request (network h) in
  let accepted := map ex_host (filter reservation_accepted reqs) in
  Z.of_nat (List.length accepted) < clients_required ->
  reserve_loop items request reservedClients clients_required h
  = (inr (mkClientPool (clients reservedClients ++ accepted),
          clients_required - Z.of_nat (List.length accepted)),
     set_network (network h ++ reqs) h).
Proof.
  induction items as [|item rest IH];
    intros request reservedClients clients_required h reqs accepted Hshort.
  - cbn. unfold ret. rewrite !app_nil_r, set_network_same, Z.sub_0_r.
    now destruct reservedClients.
  - cbn [reserve_loop]. unfold bind at 1. unfold send.
    subst accepted reqs. cbn [probe_all filter] in *.
    rewrite reservation_accepted_mk in *. revert Hshort.
    destruct (SendStringAndGetShortReply (network h) (ip_address item)
                (port item) request) as [r|];
      [destruct (prefix malmo_reservation_prefix r)|]; intro Hshort;
      match goal with
      | |- context [set_network (network h ++ [?x]) h] =>
          set (e := x) in *; set (h2 := set_network (network h ++ [e]) h)
      end;
      assert (Hnet2 : network h2 = (network h ++ [e])%list) by reflexivity.
    + cbn [map List.length] in *.
      destruct (Z.eqb_spec (clients_required - 1) 0) as [Hz|Hnz]; [lia|].
      rewrite IH; rewrite Hnet2; [|lia].
      cbn [ClientPool_add clients]. unfold h2. rewrite set_network_twice.
      assert (He : ex_host e = item) by apply ex_host_eta.
      rewrite He, <- !app_assoc. cbn [app]. do 3 f_equal. lia.
    + rewrite IH; rewrite Hnet2; [|exact Hshort].
      unfold h2. rewrite set_network_twice, <- app_assoc. reflexivity.
    + rewrite IH; rewrite Hnet2; [|exact Hshort].
      unfold h2. rewrite set_network_twice, <- app_assoc. reflexivity.
Qed.

Lemma reserveClients_short client_pool count h mi :
  current_mission_init h = Some mi ->
  let reqs := probe_all (clients client_pool) (reservation_request mi)
                (network h) in
  let reserved := map ex_host (filter reservation_accepted reqs) in
  let cancels := probe_all reserved cancel_request (network h ++ reqs) in
  Z.of_nat (List.length reserved) < count ->
  reserveClients client_pool count h
  = (inr (mkClientPool []), set_network (network h ++ reqs ++ cancels) h).
Proof.
  intros Hmi reqs reserved cancels Hshort.
  unfold reserveClients. rewrite (bind_deref _ _ _ _ mi Hmi).
  erewrite bind_eq; [|apply reserve_loop_short; exact Hshort].
  fold (reservation_request mi). fold reqs. fold reserved.
  cbn [app clients].
  destruct (Z.gtb_spec (count - Z.of_nat (List.length reserved)) 0); [|lia].
  erewrite bind_eq; [|apply cancel_loop_spec].
  unfold ret. cbn [network set_network]. rewrite set_network_twice.
  fold cancels. now rewrite app_assoc.
Qed.

(** *** The listeners come up *)

Lemma listenForMissionControlMessages_ok port h :
  exists s,
    listenForMissionControlMessages port h
    = (inr tt, set_mission_control_server (Some s) h).
Proof.
  unfold listenForMissionControlMessages. rewrite bind_gets.
  destruct h as [w vp rp op r d cmi mr [mc|] vs rs os cs cc nw fl];
    cbn [mission_control_server].
  - destruct ((port =? 0) || (ss_getPort mc =? port)); eexists; reflexivity.
  - eexists; reflexivity.
Qed.

Lemma listenForVideo_ok port width height channels h rec :
  current_mission_record h = Some rec ->
  exists s,
    listenForVideo port width height channels h
    = (inr tt, set_video_server (Some s) h).
Proof.
  intro Hrec. unfold listenForVideo, recordMP4_if_requested.
  destruct h as [w vp rp op r d cmi mr mc vs rs os cs cc nw fl].
  cbn in Hrec. subst mr. rewrite bind_gets. cbn [video_server].
  match goal with
  | |- context [if ?c then _ else _] => destruct c eqn:Hfresh
  end.
  - unfold bind, modify, deref, ret. cbn.
    destruct (isRecordingMP4 rec); cbn; eexists; reflexivity.
  - destruct vs as [srv|]; [|discriminate].
    unfold bind, modify, deref, ret. cbn.
    destruct (isRecordingMP4 rec); cbn; eexists; reflexivity.
Qed.

Lemma listenForRewards_ok port h rec :
  current_mission_record h = Some rec ->
  exists s,
    listenForRewards port h = (inr tt, set_rewards_server (Some s) h).
Proof.
  intro Hrec. unfold listenForRewards.
  destruct h as [w vp rp op r d cmi mr mc vs rs os cs cc nw fl].
  cbn in Hrec. subst mr. rewrite bind_gets. cbn [rewards_server].
  match goal with
  | |- context [if ?c then _ else _] => destruct c eqn:Hfresh
  end.
  - unfold bind, modify, deref, ret. cbn.
    destruct (isRecordingRewards rec); cbn; eexists; reflexivity.
  - destruct rs as [srv|]; [|discriminate].
    unfold bind, modify, deref, ret. cbn.
    destruct (isRecordingRewards rec); cbn; eexists; reflexivity.
Qed.

Lemma listenForObservations_ok port h rec :
  current_mission_record h = Some rec ->
  exists s,
    listenForObservations port h
    = (inr tt, set_observations_server (Some s) h).
Proof.
  intro Hrec. unfold listenForObservations.
  destruct h as [w vp rp op r d cmi mr mc vs rs os cs cc nw fl].
  cbn in Hrec. subst mr. rewrite bind_gets. cbn [observations_server].
  match goal with
  | |- context [if ?c then _ else _] => destruct c eqn:Hfresh
  end.
  - unfold bind, modify, deref, ret. cbn.
    destruct (isRecordingObservations rec); cbn; eexists; reflexivity.
  - destruct os as [srv|]; [|discriminate].
    unfold bind, modify, deref, ret. cbn.
    destruct (isRecordingObservations rec); cbn; eexists; reflexivity.
Qed.

Lemma set_video_server_same (h : AgentHost V) :
  set_video_server (video_server h) h = h.
Proof. now destruct h. Qed.

Lemma initializeOurServers_ok mission mission_record role unique_experiment_id h :
  exists mi mc vs rs os cs,
    initializeOurServers mission mission_record role unique_experiment_id h
    = (inr tt,
       mkAgentHost (world_state h) (video_policy h) (rewards_policy h)
         (observations_policy h) role (display_client_pool_messages h)
         (Some mi) (Some mission_record) (Some mc) vs (Some rs) (Some os) cs
         (commands_connection h) (network h) (files h)) /\
    getExperimentID mi
    = getExperimentID (MissionInitSpec_new mission unique_experiment_id role) /\
    getMinecraftServerInformation mi
    = getMinecraftServerInformation
        (MissionInitSpec_new mission unique_experiment_id role).
Proof.
  unfold initializeOurServers. rewrite !bind_modify.
  set (mi0 := MissionInitSpec_new mission unique_experiment_id role).
  set (h3 := set_current_role role _).
  rewrite (bind_deref _ _ _ h3 mi0) by reflexivity.
  destruct (listenForMissionControlMessages_ok
              (getAgentMissionControlPort mi0) h3) as [s1 E1].
  rewrite (bind_eq _ _ _ _ _ E1). set (h4 := set_mission_control_server _ h3).
  rewrite bind_gets.
  assert (Evideo : exists vs',
    (if isVideoRequested mission (current_role h4)
     then mi <- deref current_mission_init "current_mission_init" ;;
          listenForVideo (getAgentVideoPort mi)
            (to_short (getVideoWidth mission (current_role h4)))
            (to_short (getVideoHeight mission (current_role h4)))
            (to_short (getVideoChannels mission (current_role h4)))
     else ret tt) h4 = (inr tt, set_video_server vs' h4)).
  { destruct (isVideoRequested mission (current_role h4)).
    - rewrite (bind_deref _ _ _ h4 mi0) by reflexivity.
      destruct (listenForVideo_ok (getAgentVideoPort mi0)
                  (to_short (getVideoWidth mission (current_role h4)))
                  (to_short (getVideoHeight mission (current_role h4)))
                  (to_short (getVideoChannels mission (current_role h4)))
                  h4 mission_record eq_refl) as [s E].
      exists (Some s). exact E.
    - exists (video_server h4). unfold ret. now rewrite set_video_server_same. }
  destruct Evideo as [vs' Evideo]. rewrite (bind_eq _ _ _ _ _ Evideo).
  set (h5 := set_video_server vs' h4).
  rewrite (bind_deref _ _ _ h5 mi0) by reflexivity.
  destruct (listenForRewards_ok (getAgentRewardsPort mi0) h5 mission_record
              eq_refl) as [s2 E2].
  rewrite (bind_eq _ _ _ _ _ E2). set (h6 := set_rewards_server _ h5).
  rewrite (bind_deref _ _ _ h6 mi0) by reflexivity.
  destruct (listenForObservations_ok (getAgentObservationsPort mi0) h6
              mission_record eq_refl) as [s3 E3].
  rewrite (bind_eq _ _ _ _ _ E3). set (h7 := set_observations_server _ h6).
  rewrite bind_gets.
  assert (Estream : exists h8,
    (match commands_stream h7 with
     | Some _ => modify (set_commands_stream None)
     | None => ret tt
     end) h7 = (inr tt, h8) /\ exists cs', h8 = set_commands_stream cs' h7).
  { destruct (commands_stream h7) eqn:Hcs.
    - eexists. split; [reflexivity|]. now exists None.
    - eexists. split; [reflexivity|]. exists None.
      destruct h as [w vp rp op r d cmi mr mc vs rs os cs cc nw fl].
      cbn in Hcs. subst cs. reflexivity. }
  destruct Estream as (h8 & Estream & cs' & ->).
  rewrite (bind_eq _ _ _ _ _ Estream).
  set (h8 := set_commands_stream cs' h7).
  rewrite (bind_deref _ _ _ h8 mission_record) by reflexivity.
  assert (Ecmd : exists cs2,
    (if isRecordingCommands mission_record
     then modify (set_commands_stream (Some (getCommandsPath mission_record)))
     else ret tt) h8 = (inr tt, set_commands_stream cs2 h7)).
  { destruct (isRecordingCommands mission_record); eexists; reflexivity. }
  destruct Ecmd as [cs2 Ecmd]. rewrite (bind_eq _ _ _ _ _ Ecmd).
  set (h9 := set_commands_stream cs2 h7).
  rewrite (bind_deref _ _ _ h9 s1) by reflexivity.
  rewrite (bind_update_mission_init _ _ h9 mi0) by reflexivity.
  set (mi1 := setAgentMissionControlPort (ss_getPort s1) mi0).
  set (h10 := set_current_mission_init (Some mi1) h9).
  rewrite (bind_deref _ _ _ h10 s3) by reflexivity.
  rewrite (bind_update_mission_init _ _ h10 mi1) by reflexivity.
  set (mi2 := setAgentObservationsPort (ss_getPort s3) mi1).
  set (h11 := set_current_mission_init (Some mi2) h10).
  rewrite bind_gets. change (video_server h11) with vs'.
  assert (Eport : exists mi3,
    (match vs' with
     | Some srv => update_mission_init (setAgentVideoPort (vs_getPort srv))
     | None => ret tt
     end) h11 = (inr tt, set_current_mission_init (Some mi3) h11) /\
    getExperimentID mi3 = getExperimentID mi0 /\
    getMinecraftServerInformation mi3 = getMinecraftServerInformation mi0).
  { destruct vs' as [srv|].
    - rewrite (update_mission_init_eq _ h11 mi2) by reflexivity.
      eexists. split; [reflexivity|]. split; reflexivity.
    - exists mi2. split; [reflexivity|]. split; reflexivity. }
  destruct Eport as (mi3 & Eport & Hid & Hsrv).
  rewrite (bind_eq _ _ _ _ _ Eport).
  set (h12 := set_current_mission_init (Some mi3) h11).
  rewrite (bind_deref _ _ _ h12 s2) by reflexivity.
  rewrite (update_mission_init_eq _ h12 mi3) by reflexivity.
  exists (setAgentRewardsPort (ss_getPort s2) mi3), s1, vs', s2, s3, cs2.
  split; [|split; [exact Hid | exact Hsrv]].
  destruct h as [w vp rp op r d cmi mr mc vs rs os cs cc nw fl].
  reflexivity.
Qed.

Lemma probe_all_requests items request : forall net,
  Forall (fun e => ex_request e = request) (probe_all items request net).
Proof.
  induction items as [|item rest IH]; intro net; cbn; constructor;
    [reflexivity | apply IH].
Qed.

Lemma arguments_valid_checks mission role :
  arguments_valid mission role = true ->
  (role <? 0) || (role >=? getNumberOfAgents mission) = false /\
  isVideoRequested mission role
  && negb (Z.rem (getVideoWidth mission role) 4 =? 0) = false /\
  isVideoRequested mission role
  && negb (Z.rem (getVideoHeight mission role) 2 =? 0) = false.
Proof.
  unfold arguments_valid. intro Hv.
  apply andb_true_iff in Hv. destruct Hv as [Hv H3].
  apply andb_true_iff in Hv. destruct Hv as [H1 H2].
  apply negb_true_iff in H1, H2, H3. now repeat split.
Qed.

(** C6. When fewer hosts of the pool accept the reservation than the
    count asked for (so whenever the pool is smaller than the count, as
    with 3 hosts and a count of 5), reserveClients asks every host of the
    pool in order, then sends MALMO_CANCEL_REQUEST to each host that had
    accepted, in order, and returns an empty reservation; startMission, for
    role 0 of a mission of several agents, then fails with the
    not-enough-clients error. *)
Theorem reserveClients_not_enough :
  (forall client_pool count h mi,
     current_mission_init h = Some mi ->
     let reqs := probe_all (clients client_pool) (reservation_request mi)
                   (network h) in
     let reserved := map ex_host (filter reservation_accepted reqs) in
     let cancels := probe_all reserved cancel_request (network h ++ reqs) in
     Z.of_nat (List.length reserved) < count ->
     reserveClients client_pool count h
     = (inr (mkClientPool []), set_network (network h ++ reqs ++ cancels) h) /\
     map ex_host reqs = clients client_pool /\
     map ex_host cancels = reserved /\
     Forall (fun e => ex_request e = cancel_request) cancels /\
     (List.length reserved <= List.length (clients client_pool))%nat) /\
  (forall mission client_pool mission_record unique_experiment_id h,
     is_mission_running (world_state h) = false ->
     arguments_valid mission 0 = true ->
     1 < getNumberOfAgents mission ->
     let mi := MissionInitSpec_new mission unique_experiment_id 0 in
     let reqs := probe_all (clients client_pool) (reservation_request mi)
                   (network h) in
     let reserved := map ex_host (filter reservation_accepted reqs) in
     let cancels := probe_all reserved cancel_request (network h ++ reqs) in
     Z.of_nat (List.length reserved) < getNumberOfAgents mission ->
     exists h',
       startMission mission client_pool mission_record 0 unique_experiment_id h
       = (inl (not_enough_clients_error (getNumberOfAgents mission)), h') /\
       network h' = (network h ++ reqs ++ cancels)%list).
Proof.
  split.
  - intros client_pool count h mi Hmi reqs reserved cancels Hshort.
    split; [now apply reserveClients_short|].
    split; [apply probe_all_hosts|]. split; [apply probe_all_hosts|].
    split; [apply probe_all_requests|].
    subst reserved. rewrite length_map.
    etransitivity; [apply filter_length_le|].
    subst reqs. rewrite <- (length_map ex_host), probe_all_hosts. lia.
  - intros mission client_pool mission_record unique_experiment_id h
      Hrun Hvalid Hmulti mi reqs reserved cancels Hshort.
    destruct (arguments_valid_checks mission 0 Hvalid) as (Hrole & Hw & Hh).
    unfold startMission. rewrite Hrole, Hw, Hh, bind_gets, Hrun.
    destruct (initializeOurServers_ok mission mission_record 0
                unique_experiment_id h)
      as (mi1 & mc & vs & rs & os & cs & Einit & Hid & _).
    rewrite (bind_eq _ _ _ _ _ Einit).
    set (h1 := mkAgentHost _ _ _ _ _ _ _ _ _ _ _ _ _ _ _ _) in *.
    assert (Hreq : reservation_request mi1 = reservation_request mi)
      by (unfold reservation_request; now rewrite Hid).
    pose proof (reserveClients_short client_pool (getNumberOfAgents mission)
                  h1 mi1 eq_refl) as Hres.
    cbv zeta in Hres. rewrite Hreq in Hres.
    change (network h1) with (network h) in Hres.
    specialize (Hres Hshort). fold reqs reserved cancels in Hres.
    destruct (Z.gtb_spec (getNumberOfAgents mission) 1); [|lia].
    cbn [andb Z.eqb].
    eexists. split.
    + apply bind_throws. erewrite bind_eq; [|exact Hres].
      cbn [clients List.length Z.of_nat].
      destruct (Z.eqb_spec 0 (getNumberOfAgents mission)); [lia|].
      reflexivity.
    + reflexivity.
Qed.

(** ** Properties of the mission-control handler *)

Lemma bind_assoc {A B C} (c : M A) (k1 : A -> M B) (k2 : B -> M C) h :
  bind (bind c k1) k2 h = bind c (fun x => bind (k1 x) k2) h.
Proof. unfold bind. destruct (c h) as [[e|x] h']; reflexivity. Qed.

Lemma close_torn_down h : is_torn_down (close h) = true.
Proof.
  destruct h as [w vp rp op r d cmi mr mc [vs|] [rs|] [os|] [cs|] [cc|] nw fl];
    reflexivity.
Qed.

Lemma close_world_state h :
  world_state (close h) = set_is_mission_running false (world_state h).
Proof.
  destruct h as [w vp rp op r d cmi mr mc [vs|] [rs|] [os|] [cs|] [cc|] nw fl];
    reflexivity.
Qed.

Lemma append_message_torn_down xml h :
  is_torn_down (append_message xml h) = is_torn_down h.
Proof. reflexivity. Qed.

Lemma processReceivedReward_keeps r h :
  mission_control_messages (world_state (processReceivedReward r h))
  = mission_control_messages (world_state h) /\
  errors (world_state (processReceivedReward r h)) = errors (world_state h).
Proof.
  unfold processReceivedReward.
  destruct (rewards_policy h); [now split | | now split].
  destruct (rewards (world_state h)); now split.
Qed.

Lemma onMissionEnded_parsed xml h me :
  MissionEnded_parse (text xml) = inr me ->
  rewards_server h <> None ->
  exists hm,
    onMissionEnded xml h = (inr true, close hm) /\
    mission_control_messages (world_state hm)
    = mission_control_messages (world_state h) /\
    errors (world_state hm)
    = (errors (world_state h) ++ abnormal_end_errors xml me)%list.
Proof.
  intros Hparse Hrs. unfold onMissionEnded, abnormal_end_errors. rewrite Hparse.
  destruct (rewards_server h) as [srv|] eqn:Hsrv; [clear Hrs | congruence].
  assert (Estatus : exists h1,
    (match Status me with
     | ENDED | PLAYER_DIED => ret tt
     | ABNORMAL _ =>
         record_error xml
           ("Mission ended abnormally: " ++ HumanReadableStatus me)
     end) h = (inr tt, h1) /\
    rewards_server h1 = Some srv /\
    mission_control_messages (world_state h1)
    = mission_control_messages (world_state h) /\
    errors (world_state h1)
    = (errors (world_state h)
       ++ match Status me with
          | ENDED | PLAYER_DIED => []
          | ABNORMAL _ =>
              [mkTimestampedString (timestamp xml)
                 ("Mission ended abnormally: " ++ HumanReadableStatus me)]
          end)%list).
  { destruct (Status me); eexists; (split; [reflexivity|]);
      rewrite ?app_nil_r; repeat split; exact Hsrv. }
  destruct Estatus as (h1 & Estatus & Hsrv1 & Hmcm1 & Herr1).
  rewrite (bind_eq _ _ _ _ _ Estatus), bind_gets.
  destruct (is_mission_running (world_state h1)).
  - destruct (Reward me) as [values|].
    + rewrite bind_assoc, bind_modify.
      set (h2 := processReceivedReward _ h1).
      rewrite bind_assoc, (bind_deref _ _ _ h2 srv) by exact Hsrv1.
      rewrite !bind_modify. unfold ret.
      eexists. split; [reflexivity|].
      destruct (processReceivedReward_keeps
                  (mkTimestampedReward (timestamp xml) values) h1) as [Hm He].
      split; [exact (eq_trans Hm Hmcm1) | exact (eq_trans He Herr1)].
    + rewrite bind_ret, bind_modify. unfold ret.
      eexists. split; [reflexivity|]. now split.
  - rewrite bind_ret, bind_modify. unfold ret.
    eexists. split; [reflexivity|]. now split.
Qed.

(** C7 (amended). The handler appends the message verbatim to the
    mission-control messages when it classifies it as a ping, as a
    MissionEnded that parses, or as a MissionInit that parses and names a
    command port.  When it classifies the message as an error (malformed
    XML, empty document, unknown or out-of-order root element, a MissionInit
    or MissionEnded that does not parse) it appends exactly one error entry,
    stamped like the message, and returns with the mission-control messages
    as they were. *)
Theorem onMissionControlMessage_appends (xml : TimestampedString)
    (h : AgentHost V) :
  let run := onMissionControlMessage xml h in
  let w := world_state h in
  let w' := world_state (snd run) in
  match classify xml h with
  | AsError =>
      fst run = inr tt /\
      mission_control_messages w' = mission_control_messages w /\
      exists e, errors w' = (errors w ++ [e])%list /\
                timestamp e = timestamp xml
  | AsPing =>
      fst run = inr tt /\
      mission_control_messages w' = (mission_control_messages w ++ [xml])%list
  | AsMissionEnded _ =>
      rewards_server h <> None ->
      fst run = inr tt /\
      mission_control_messages w' = (mission_control_messages w ++ [xml])%list
  | AsMissionInit mi =>
      getClientCommandsPort mi <> 0 ->
      fst run = inr tt /\
      mission_control_messages w' = (mission_control_messages w ++ [xml])%list
  end.
Proof.
  intros run w w'. subst run w w'.
  unfold onMissionControlMessage, classify.
  destruct (read_xml (text xml)) as [what|[|root_node_name rest]].
  - split; [reflexivity|]. split; [reflexivity|].
    eexists. split; reflexivity.
  - split; [reflexivity|]. split; [reflexivity|].
    eexists. split; reflexivity.
  - rewrite bind_gets. cbv beta.
    destruct (negb (is_mission_running (world_state h))
              && String.eqb root_node_name "MissionInit").
    + unfold onMissionInit.
      destruct (MissionInitSpec_parse (text xml)) as [e|mi].
      * split; [reflexivity|]. split; [reflexivity|].
        eexists. split; reflexivity.
      * intro Hport. rewrite bind_assoc, bind_modify.
        rewrite bind_assoc, bind_modify. rewrite bind_assoc, bind_modify.
        unfold openCommandsConnection.
        rewrite !bind_assoc.
        erewrite bind_deref by reflexivity.
        destruct (Z.eqb_spec (getClientCommandsPort mi) 0) as [Hz|_];
          [contradiction|].
        rewrite bind_assoc. erewrite bind_deref by reflexivity.
        rewrite bind_modify, bind_ret.
        split; reflexivity.
    + destruct (String.eqb root_node_name "MissionEnded").
      * destruct (MissionEnded_parse (text xml)) as [e|me] eqn:Hparse.
        -- unfold onMissionEnded. rewrite Hparse.
           split; [reflexivity|]. split; [reflexivity|].
           eexists. split; reflexivity.
        -- intro Hrs.
           destruct (onMissionEnded_parsed xml h me Hparse Hrs)
             as (hm & Erun & Hmcm & _).
           rewrite (bind_eq _ _ _ _ _ Erun). unfold modify. cbn [fst snd].
           split; [reflexivity|].
           cbn [world_state set_world_state mission_control_messages
                set_mission_control_messages].
           rewrite close_world_state. cbn [set_is_mission_running set_flags
             mission_control_messages]. now rewrite Hmcm.
      * destruct (String.eqb root_node_name "ping").
        -- split; reflexivity.
        -- split; [reflexivity|]. split; [reflexivity|].
           eexists. split; reflexivity.
Qed.

(** C8 (amended). For a document whose root element is MissionEnded:
    when it parses, the handler tears down (close) whatever the status, the
    mission is no longer running, and an abnormal status has added one error
    entry; when it does not parse, the handler appends one error entry and
    returns: nothing is torn down, and is_mission_running is as it was. *)
Theorem missionEnded_teardown (xml : TimestampedString) (h : AgentHost V)
    (rest : list string) :
  read_xml (text xml) = inr ("MissionEnded" :: rest) ->
  let run := onMissionControlMessage xml h in
  match MissionEnded_parse (text xml) with
  | inr me =>
      rewards_server h <> None ->
      fst run = inr tt /\
      is_torn_down (snd run) = true /\
      is_mission_running (world_state (snd run)) = false /\
      errors (world_state (snd run))
      = (errors (world_state h) ++ abnormal_end_errors xml me)%list
  | inl e =>
      run = (inr tt, push_error (missionEnded_parse_error xml e) h) /\
      is_mission_running (world_state (snd run))
      = is_mission_running (world_state h)
  end.
Proof.
  intros Hroot run. subst run. unfold onMissionControlMessage.
  rewrite Hroot, bind_gets. cbv beta.
  replace (String.eqb "MissionEnded" "MissionInit") with false by reflexivity.
  rewrite andb_false_r.
  replace (String.eqb "MissionEnded" "MissionEnded") with true by reflexivity.
  destruct (MissionEnded_parse (text xml)) as [e|me] eqn:Hparse.
  - unfold onMissionEnded. rewrite Hparse. split; reflexivity.
  - intro Hrs.
    destruct (onMissionEnded_parsed xml h me Hparse Hrs)
      as (hm & Erun & _ & Herr).
    rewrite (bind_eq _ _ _ _ _ Erun). unfold modify. cbn [fst snd].
    split; [reflexivity|].
    fold (append_message xml (close hm)).
    split; [now rewrite append_message_torn_down, close_torn_down|].
    unfold append_message.
    cbn [world_state set_world_state is_mission_running errors
         set_mission_control_messages].
    rewrite close_world_state. cbn [set_is_mission_running set_flags
      is_mission_running errors]. split; [reflexivity | exact Herr].
Qed.

(** ** Further properties of the world-state aggregator *)

Lemma deliver_cons {A} (handler : A -> AgentHost V -> AgentHost V) m ms h :
  deliver handler (m :: ms) h = deliver handler ms (handler m h).
Proof. reflexivity. Qed.

Lemma last_cons {A} (x : A) l d : last (x :: l) d = last l x.
Proof.
  revert x d. induction l as [|y l IH]; intros x d; [reflexivity|].
  change (last (x :: y :: l) d) with (last (y :: l) d).
  now rewrite !IH.
Qed.

(** X1. Under the KeepAll policies nothing is dropped: after any deliveries
    the video frames (observations) are the ones held before followed by the
    delivered ones in order, and the counter has grown by their number.  For
    reward messages the rewards held before are followed by the rewards of
    the messages that parse, in order; the counter grows by their number and
    each message that does not parse leaves one error entry. *)
Theorem keep_all_retains_all :
  (forall ms h,
     video_policy h = KEEP_ALL_FRAMES ->
     let h' := deliver onVideo ms h in
     video_frames (world_state h') = (video_frames (world_state h) ++ ms)%list /\
     number_of_video_frames_since_last_state (world_state h')
     = number_of_video_frames_since_last_state (world_state h)
       + Z.of_nat (List.length ms)) /\
  (forall ms h,
     observations_policy h = KEEP_ALL_OBSERVATIONS ->
     let h' := deliver onObservation ms h in
     observations (world_state h') = (observations (world_state h) ++ ms)%list /\
     number_of_observations_since_last_state (world_state h')
     = number_of_observations_since_last_state (world_state h)
       + Z.of_nat (List.length ms)) /\
  (forall ms h,
     rewards_policy h = KEEP_ALL_REWARDS ->
     let h' := deliver onReward ms h in
     rewards (world_state h')
     = (rewards (world_state h) ++ parsed_rewards ms)%list /\
     number_of_rewards_since_last_state (world_state h')
     = number_of_rewards_since_last_state (world_state h)
       + Z.of_nat (List.length (parsed_rewards ms)) /\
     (List.length (errors (world_state h')) + List.length (parsed_rewards ms)
      = List.length (errors (world_state h)) + List.length ms)%nat).
Proof.
  split; [|split].
  - induction ms as [|m ms IH]; intros h Hpol h'; subst h'.
    + cbn. rewrite app_nil_r. split; [reflexivity | lia].
    + rewrite deliver_cons.
      destruct (IH (onVideo m h) Hpol) as [-> ->].
      assert (Hstep : video_frames (world_state (onVideo m h))
                      = (video_frames (world_state h) ++ [m])%list)
        by (unfold onVideo; rewrite Hpol; reflexivity).
      rewrite onVideo_counter, Hstep, <- app_assoc. cbn [List.length app].
      split; [reflexivity | lia].
  - induction ms as [|m ms IH]; intros h Hpol h'; subst h'.
    + cbn. rewrite app_nil_r. split; [reflexivity | lia].
    + rewrite deliver_cons.
      destruct (IH (onObservation m h) Hpol) as [-> ->].
      assert (Hstep : observations (world_state (onObservation m h))
                      = (observations (world_state h) ++ [m])%list)
        by (unfold onObservation; rewrite Hpol; reflexivity).
      rewrite onObservation_counter, Hstep, <- app_assoc. cbn [List.length app].
      split; [reflexivity | lia].
  - induction ms as [|m ms IH]; intros h Hpol h'; subst h'.
    + cbn. rewrite app_nil_r. repeat split; lia.
    + rewrite deliver_cons.
      assert (Hpol' : rewards_policy (onReward m h) = KEEP_ALL_REWARDS)
        by now rewrite onReward_policy.
      destruct (IH (onReward m h) Hpol') as (-> & -> & Herr).
      cbn [parsed_rewards flat_map List.length] in *.
      fold (parsed_rewards ms) in *.
      unfold onReward in *.
      destruct (createFromSimpleString (text m)) as [what|values].
      * cbn [app]. cbn in Herr. rewrite length_app in Herr. cbn in Herr.
        cbn. repeat split; lia.
      * rewrite processReceivedReward_counter.
        destruct (proj2 (processReceivedReward_keeps
                           (mkTimestampedReward (timestamp m) values) h)).
        unfold processReceivedReward in *. rewrite Hpol in *.
        cbn [world_state set_world_state rewards set_counters set_rewards
             List.length app errors] in *.
        rewrite <- app_assoc. cbn [app]. repeat split; lia.
Qed.

Lemma sum_rewards_from_one rest : forall h acc,
  (forall a b, values_add a b = values_add b a) ->
  rewards_policy h = SUM_REWARDS ->
  rewards (world_state h) = [acc] ->
  let h' := deliver processReceivedReward rest h in
  rewards (world_state h')
  = [mkTimestampedReward (reward_timestamp (last rest acc))
       (sum_values (reward_values acc) rest)] /\
  number_of_rewards_since_last_state (world_state h')
  = number_of_rewards_since_last_state (world_state h)
    + Z.of_nat (List.length rest).
Proof.
  induction rest as [|r rest IH]; intros h acc Hcomm Hpol Hacc h'; subst h'.
  - cbn. rewrite Hacc. destruct acc. split; [reflexivity | lia].
  - rewrite deliver_cons, last_cons.
    assert (Hstep : rewards (world_state (processReceivedReward r h))
                    = [mkTimestampedReward (reward_timestamp r)
                         (values_add (reward_values acc) (reward_values r))]).
    { unfold processReceivedReward. rewrite Hpol, Hacc. cbn. unfold add. cbn.
      now rewrite Hcomm. }
    destruct (IH (processReceivedReward r h) _ Hcomm Hpol Hstep) as [-> ->].
    rewrite processReceivedReward_counter. cbn [reward_timestamp reward_values].
    split; [|cbn [List.length]; lia].
    do 2 f_equal. destruct rest as [|r' rest]; [reflexivity|].
    now rewrite !last_cons.
Qed.

(** X2. Under the Sum policy, starting with no reward retained, any number
    N >= 1 of rewards delivered in a row leaves exactly one reward: its value
    is the sum of all of them in arrival order, its timestamp that of the
    last one, and the counter has grown by N. *)
Theorem sum_rewards_many (h : AgentHost V) (first : TimestampedReward V)
    (rest : list (TimestampedReward V)) :
  (forall a b, values_add a b = values_add b a) ->
  rewards_policy h = SUM_REWARDS ->
  rewards (world_state h) = [] ->
  let h' := deliver processReceivedReward (first :: rest) h in
  rewards (world_state h')
  = [mkTimestampedReward (reward_timestamp (last rest first))
       (sum_values (reward_values first) rest)] /\
  number_of_rewards_since_last_state (world_state h')
  = number_of_rewards_since_last_state (world_state h)
    + Z.of_nat (List.length (first :: rest)).
Proof.
  intros Hcomm Hpol Hempty h'. subst h'. rewrite deliver_cons.
  assert (Hstep : rewards (world_state (processReceivedReward first h)) = [first]).
  { unfold processReceivedReward. rewrite Hpol, Hempty. reflexivity. }
  destruct (sum_rewards_from_one rest (processReceivedReward first h) first
              Hcomm Hpol Hstep) as [-> ->].
  rewrite processReceivedReward_counter.
  split; [reflexivity | cbn [List.length]; lia].
Qed.

(** ** Further properties of teardown and drain *)

(** X3. close is an idempotent teardown: closing twice is closing once, and
    close leaves a host object as it is exactly when that object is already
    torn down (not running, no listener recording, command stream closed,
    command connection dropped).  In the world state close changes
    is_mission_running only; it keeps the negotiation record, the recording
    spec, the mission-control listener and the logs. *)
Theorem close_idempotent (h : AgentHost V) :
  close (close h) = close h /\
  (close h = h <-> is_torn_down h = true) /\
  world_state (close h) = set_is_mission_running false (world_state h) /\
  current_mission_init (close h) = current_mission_init h /\
  current_mission_record (close h) = current_mission_record h /\
  mission_control_server (close h) = mission_control_server h /\
  network (close h) = network h /\
  files (close h) = files h.
Proof.
  destruct h as [[[|] beg nv nr no vf rw ob mcm er] vp rp op r d cmi mr mc
                 [[vp' vw vh vc mp4 [|]]|] [[rport [rwriter|] rlog]|]
                 [[oport [owriter|] olog]|] [cs|] [cc|] nw fl];
    (split; [reflexivity|]);
    (split; [split; [intro Heq; try reflexivity; try discriminate Heq;
                     try (exfalso; congruence)
                    | intro Htd; try reflexivity; try discriminate Htd]|]);
    repeat split.
Qed.

Lemma handle_policies d h :
  video_policy (handle d h) = video_policy h /\
  observations_policy (handle d h) = observations_policy h /\
  rewards_policy (handle d h) = rewards_policy h.
Proof.
  destruct d as [f|m|m]; cbn [handle]; try (repeat split; reflexivity).
  unfold onReward. destruct (createFromSimpleString (text m)); repeat split.
Qed.

Lemma handle_flags d h :
  is_mission_running (world_state (handle d h))
  = is_mission_running (world_state h) /\
  has_mission_begun (world_state (handle d h))
  = has_mission_begun (world_state h).
Proof.
  destruct d as [f|m|m]; cbn [handle].
  - unfold onVideo. destruct (video_policy h); split; reflexivity.
  - unfold onObservation. destruct (observations_policy h); split; reflexivity.
  - unfold onReward. destruct (createFromSimpleString (text m)).
    + split; reflexivity.
    + unfold processReceivedReward. destruct (rewards_policy h);
        try (split; reflexivity).
      destruct (rewards (world_state h)); split; reflexivity.
Qed.

Lemma keep_all_interleaved ds : forall h,
  video_policy h = KEEP_ALL_FRAMES ->
  observations_policy h = KEEP_ALL_OBSERVATIONS ->
  rewards_policy h = KEEP_ALL_REWARDS ->
  let w := world_state h in
  let w' := world_state (deliver handle ds h) in
  video_frames w' = (video_frames w ++ frames_of ds)%list /\
  observations w' = (observations w ++ observations_of ds)%list /\
  rewards w' = (rewards w ++ parsed_rewards (reward_messages_of ds))%list /\
  number_of_video_frames_since_last_state w'
  = number_of_video_frames_since_last_state w
    + Z.of_nat (List.length (frames_of ds)) /\
  number_of_observations_since_last_state w'
  = number_of_observations_since_last_state w
    + Z.of_nat (List.length (observations_of ds)) /\
  number_of_rewards_since_last_state w'
  = number_of_rewards_since_last_state w
    + Z.of_nat (List.length (parsed_rewards (reward_messages_of ds))) /\
  is_mission_running w' = is_mission_running w /\
  has_mission_begun w' = has_mission_begun w.
Proof.
  induction ds as [|d ds IH]; intros h Hv Ho Hr w w'; subst w w'.
  - cbn. rewrite !app_nil_r. repeat split; lia.
  - rewrite deliver_cons.
    destruct (handle_policies d h) as (Hv' & Ho' & Hr').
    destruct (handle_flags d h) as (Hrun & Hbeg).
    rewrite <- Hv' in Hv. rewrite <- Ho' in Ho. rewrite <- Hr' in Hr.
    destruct (IH (handle d h) Hv Ho Hr)
      as (-> & -> & -> & -> & -> & -> & -> & ->).
    rewrite Hv' in Hv. rewrite Ho' in Ho. rewrite Hr' in Hr.
    rewrite Hrun, Hbeg. clear IH Hv' Ho' Hr' Hrun Hbeg.
    destruct h as [w vp rp op r dbg mi mr mc vs rs os cs cc nw fl].
    destruct w as [run beg nv nr no vf rw ob mcm er].
    cbn in Hv, Ho, Hr. subst vp rp op.
    destruct d as [f|m|m]; cbn [handle frames_of observations_of
                                reward_messages_of flat_map].
    + fold (frames_of ds) (observations_of ds) (reward_messages_of ds).
      cbn. rewrite <- !app_assoc. cbn. repeat split; lia.
    + fold (frames_of ds) (observations_of ds) (reward_messages_of ds).
      cbn. rewrite <- !app_assoc. cbn. repeat split; lia.
    + fold (frames_of ds) (observations_of ds) (reward_messages_of ds).
      cbn [app parsed_rewards flat_map].
      fold (parsed_rewards (reward_messages_of ds)).
      unfold onReward.
      destruct (createFromSimpleString (text m)) as [what|values].
      * cbn. repeat split; lia.
      * cbn. rewrite <- !app_assoc. cbn. repeat split; lia.
Qed.

(** X4. Nothing is lost or duplicated between two drains: with the three
    KeepAll policies, whatever the interleaving of the video frames,
    observations and reward messages that arrive after a getWorldState, the
    next getWorldState returns exactly those frames, those observations and
    the rewards of those messages that parse, each in arrival order, with
    counters equal to their numbers and with the two flags as they were. *)
Theorem drain_collects_deliveries (h : AgentHost V) (ds : list Delivery) :
  video_policy h = KEEP_ALL_FRAMES ->
  observations_policy h = KEEP_ALL_OBSERVATIONS ->
  rewards_policy h = KEEP_ALL_REWARDS ->
  let drained := snd (getWorldState h) in
  let snapshot := fst (getWorldState (deliver handle ds drained)) in
  video_frames snapshot = frames_of ds /\
  observations snapshot = observations_of ds /\
  rewards snapshot = parsed_rewards (reward_messages_of ds) /\
  number_of_video_frames_since_last_state snapshot
  = Z.of_nat (List.length (frames_of ds)) /\
  number_of_observations_since_last_state snapshot
  = Z.of_nat (List.length (observations_of ds)) /\
  number_of_rewards_since_last_state snapshot
  = Z.of_nat (List.length (parsed_rewards (reward_messages_of ds))) /\
  is_mission_running snapshot = is_mission_running (world_state h) /\
  has_mission_begun snapshot = has_mission_begun (world_state h).
Proof.
  intros Hv Ho Hr drained snapshot. subst drained snapshot.
  cbn [getWorldState fst].
  set (h1 := snd (getWorldState h)).
  destruct (keep_all_interleaved ds h1 Hv Ho Hr)
    as (-> & -> & -> & -> & -> & -> & -> & ->).
  subst h1. destruct h as [w vp rp op r dbg mi mr mc vs rs os cs cc nw fl].
  cbn. repeat split.
Qed.

(** ** Further properties of mission start *)

Lemma hoare_ret {A} P (x : A) Q E :
  (forall h, P h -> Q x h) -> hoare P (ret x) Q E.
Proof. intros HQ h HP. now apply HQ. Qed.

Lemma hoare_throw {A} P e (Q : A -> AgentHost V -> Prop) (E : AgentHost V -> Prop) :
  (forall h, P h -> E h) -> hoare P (throw e) Q E.
Proof. intros HE h HP. now apply HE. Qed.

Lemma hoare_gets {A} P (f : AgentHost V -> A) Q E :
  (forall h, P h -> Q (f h) h) -> hoare P (gets f) Q E.
Proof. intros HQ h HP. now apply HQ. Qed.

Lemma hoare_modify P f Q E :
  (forall h, P h -> Q tt (f h)) -> hoare P (modify f) Q E.
Proof. intros HQ h HP. now apply HQ. Qed.

Lemma hoare_deref {A} P (f : AgentHost V -> option A) name Q E :
  (forall h x, P h -> f h = Some x -> Q x h) ->
  (forall h, P h -> f h = None -> E h) ->
  hoare P (deref f name) Q E.
Proof.
  intros HQ HE h HP. unfold deref.
  destruct (f h) as [x|] eqn:Hf; cbn; [now apply HQ | now apply HE].
Qed.

Lemma hoare_bind {A B} P (c : M A) (k : A -> M B) R Q E :
  hoare P c R E -> (forall x, hoare (R x) (k x) Q E) -> hoare P (bind c k) Q E.
Proof.
  intros Hc Hk h HP. specialize (Hc h HP). unfold bind.
  destruct (c h) as [[e|x] h1]; cbn [fst snd] in *; [exact Hc|].
  exact (Hk x h1 Hc).
Qed.

Lemma hoare_weaken {A} (P P' : AgentHost V -> Prop) (c : M A)
    (Q Q' : A -> AgentHost V -> Prop) (E E' : AgentHost V -> Prop) :
  hoare P' c Q' E' ->
  (forall h, P h -> P' h) ->
  (forall x h, Q' x h -> Q x h) ->
  (forall h, E' h -> E h) ->
  hoare P c Q E.
Proof.
  intros Hc HP HQ HE h Hh. specialize (Hc h (HP h Hh)).
  destruct (fst (c h)); [now apply HE | now apply HQ].
Qed.

Lemma hoare_if {A} P (b : bool) (c1 c2 : M A) Q E :
  hoare P c1 Q E -> hoare P c2 Q E -> hoare P (if b then c1 else c2) Q E.
Proof. now destruct b. Qed.

Section Negotiation.

Variable h0 : AgentHost V.
Hypothesis not_running : is_mission_running (world_state h0) = false.

Let N := negotiating h0.

Lemma negotiating_set_network l h : N h -> N (set_network l h).
Proof. intro HN. exact HN. Qed.

Lemma negotiating_set_mission_init m h :
  N h -> N (set_current_mission_init (Some m) h).
Proof.
  intros (Hview & _ & Hrec). split; [exact Hview|]. split; [discriminate | exact Hrec].
Qed.

Lemma set_is_mission_running_same (w : WorldState V) :
  set_is_mission_running (is_mission_running w) w = w.
Proof. now destruct w. Qed.

Lemma negotiating_close h : N h -> N (close h).
Proof.
  intros ((Hw & Hv & Hr & Ho) & Hmi & Hrec).
  assert (Hworld : world_state (close h) = world_state h0).
  { rewrite close_world_state, Hw, <- not_running.
    apply set_is_mission_running_same. }
  destruct h as [w vp rp op r d cmi mr mc [vs|] [rs|] [os|] [cs|] [cc|] nw fl];
    (split; [split; [exact Hworld | now repeat split] | now split]).
Qed.

Ltac keep_deref :=
  apply hoare_deref; [intros ? ? HN _; exact HN | intros ? HN _; exact HN].

Lemma keeps_send item request :
  hoare N (send item request) (fun _ => N) N.
Proof. intros h HN. cbn. now apply negotiating_set_network. Qed.

Lemma keeps_update_mission_init f :
  hoare N (update_mission_init f) (fun _ => N) N.
Proof.
  unfold update_mission_init.
  apply hoare_bind with (R := fun _ => N); [keep_deref|].
  intro mi. apply hoare_modify. intros h HN.
  now apply negotiating_set_mission_init.
Qed.

Lemma keeps_generateMissionInit :
  hoare N generateMissionInit (fun _ => N) N.
Proof.
  unfold generateMissionInit.
  apply hoare_bind with (R := fun _ => N); [keep_deref|].
  intro mi. destruct (MissionInitSpec_parse (getAsXML false mi)).
  - apply hoare_throw. auto.
  - apply hoare_ret. auto.
Qed.

Lemma keeps_cancel_loop items : hoare N (cancel_loop items) (fun _ => N) N.
Proof.
  induction items as [|item rest IH]; cbn [cancel_loop].
  - apply hoare_ret. auto.
  - apply hoare_bind with (R := fun _ => N); [apply keeps_send|].
    intros _. exact IH.
Qed.

Lemma keeps_reserve_loop items request : forall reservedClients clients_required,
  hoare N (reserve_loop items request reservedClients clients_required)
    (fun _ => N) N.
Proof.
  induction items as [|item rest IH]; intros reservedClients clients_required;
    cbn [reserve_loop].
  - apply hoare_ret. auto.
  - apply hoare_bind with (R := fun _ => N); [apply keeps_send|].
    intros [reply|]; [|apply IH].
    destruct (prefix malmo_reservation_prefix reply); [|apply IH].
    cbv zeta. destruct (clients_required - 1 =? 0); [|apply IH].
    apply hoare_ret. auto.
Qed.

Lemma keeps_reserveClients client_pool clients_required :
  hoare N (reserveClients client_pool clients_required) (fun _ => N) N.
Proof.
  unfold reserveClients.
  apply hoare_bind with (R := fun _ => N); [keep_deref|].
  intro mi. apply hoare_bind with (R := fun _ => N); [apply keeps_reserve_loop|].
  intros [reservedClients required].
  destruct (required >? 0); [|apply hoare_ret; auto].
  apply hoare_bind with (R := fun _ => N); [apply keeps_cancel_loop|].
  intros _. apply hoare_ret. auto.
Qed.

Lemma keeps_findServer_loop items request :
  hoare N (findServer_loop items request) (fun _ => N) N.
Proof.
  induction items as [|item rest IH]; cbn [findServer_loop].
  - apply hoare_ret. auto.
  - apply hoare_bind with (R := fun _ => N); [apply keeps_send|].
    intros [reply|]; [|exact IH].
    destruct (prefix malmo_server_prefix reply); [|exact IH].
    destruct (index 0 ":" reply) as [colon|]; [|apply hoare_throw; auto].
    cbv zeta.
    destruct (sscanf_d (substr_from (colon + 1) reply)) as [p|];
      [|apply hoare_throw; auto].
    apply hoare_bind with (R := fun _ => N); [apply keeps_update_mission_init|].
    intros _. apply hoare_ret. auto.
Qed.

Lemma keeps_findServer client_pool :
  hoare N (findServer client_pool) (fun _ => N) N.
Proof.
  unfold findServer.
  apply hoare_bind with (R := fun _ => N); [keep_deref|].
  intro mi. apply hoare_bind with (R := fun _ => N); [apply keeps_findServer_loop|].
  intros [b|]; [apply hoare_ret; auto|].
  apply hoare_bind with (R := fun _ => N).
  - apply hoare_modify. intros h HN. now apply negotiating_close.
  - intros _. apply hoare_throw. auto.
Qed.

Lemma keeps_findClient_loop client_pool num_clients idxs :
  hoare N (findClient_loop client_pool num_clients idxs) (fun _ => N) N.
Proof.
  induction idxs as [|i idxs IH]; cbn [findClient_loop].
  - apply hoare_ret. auto.
  - apply hoare_bind with (R := fun _ => N); [apply hoare_gets; auto|].
    intro role. apply hoare_bind with (R := fun _ => N).
    { unfold clients_at.
      destruct (if Z.rem (Z.of_nat i + role) num_clients <? 0 then None
                else nth_error (clients client_pool)
                       (Z.to_nat (Z.rem (Z.of_nat i + role) num_clients)));
        [apply hoare_ret | apply hoare_throw]; auto. }
    intro item.
    apply hoare_bind with (R := fun _ => N); [apply keeps_update_mission_init|].
    intros _.
    apply hoare_bind with (R := fun _ => N); [apply keeps_update_mission_init|].
    intros _.
    apply hoare_bind with (R := fun _ => N); [apply keeps_generateMissionInit|].
    intro xml. cbv zeta.
    apply hoare_bind with (R := fun _ => N); [apply keeps_send|].
    intros [reply|]; [|exact IH].
    destruct (String.eqb reply malmo_mission_accepted); [|exact IH].
    apply hoare_ret. auto.
Qed.

Lemma keeps_findClient client_pool :
  hoare N (findClient client_pool) (fun _ => N) N.
Proof.
  unfold findClient. cbv zeta.
  apply hoare_bind with (R := fun _ => N); [apply keeps_findClient_loop|].
  intros [|]; [apply hoare_ret; auto|].
  apply hoare_bind with (R := fun _ => N).
  - apply hoare_modify. intros h HN. now apply negotiating_close.
  - intros _. apply hoare_throw. auto.
Qed.

End Negotiation.

Lemma startMission_after_guard (mission : MissionSpec) (client_pool : ClientPool)
    (mission_record : MissionRecord) (role : Z) (unique_experiment_id : string)
    (h : AgentHost V) (rest : ClientPool -> M unit) :
  is_mission_running (world_state h) = false ->
  (forall pool, hoare (negotiating h) (rest pool) (fun _ => cleared_view h)
                  (same_view h)) ->
  hoare (fun h' => h' = h)
    (initializeOurServers mission mission_record role unique_experiment_id ;;
     pool <-
       (if (getNumberOfAgents mission >? 1) && (role =? 0) then
          reservedAgents <- reserveClients client_pool (getNumberOfAgents mission) ;;
          if negb (Z.of_nat (List.length (clients reservedAgents))
                   =? getNumberOfAgents mission)
          then
            throw (runtime_error
                     ("There are not enough clients availble in the ClientPool to start this "
                      ++ to_string (getNumberOfAgents mission) ++ " agent mission."))
          else ret reservedAgents
        else ret client_pool) ;;
     rest pool)
    (fun _ => cleared_view h) (same_view h).
Proof.
  intros Hidle Hrest.
  apply hoare_bind with (R := fun _ => negotiating h).
  { intros h' ->.
    destruct (initializeOurServers_ok mission mission_record role
                unique_experiment_id h)
      as (mi & mc & vs & rs & os & cs & Einit & _).
    rewrite Einit. cbn [fst snd].
    split; [repeat split|]. split; discriminate. }
  intros _.
  apply hoare_bind with (R := fun _ => negotiating h); [|exact Hrest].
  apply hoare_weaken with (P' := negotiating h) (Q' := fun _ => negotiating h)
                          (E' := negotiating h);
    [| auto | auto | intros h' HN; exact (proj1 HN)].
  apply hoare_if; [|apply hoare_ret; auto].
  apply hoare_bind with (R := fun _ => negotiating h);
    [now apply keeps_reserveClients|].
  intro reservedAgents. apply hoare_if; [apply hoare_throw | apply hoare_ret]; auto.
Qed.

(** X5. startMission and what the agent sees.  Whatever the arguments and
    the answers of the pool, startMission leaves the three policies as they
    were and never marks the mission as running.  When it fails (bad
    arguments, mission already running, or a failed negotiation, torn down or
    not) the world state is exactly as before the call, so no telemetry is
    lost; when it succeeds the world state is cleared: both flags false,
    every sequence empty, every counter zero. *)
Theorem startMission_view (mission : MissionSpec) (client_pool : ClientPool)
    (mission_record : MissionRecord) (role : Z) (unique_experiment_id : string)
    (h : AgentHost V) :
  let run := startMission mission client_pool mission_record role
               unique_experiment_id h in
  (video_policy (snd run) = video_policy h /\
   rewards_policy (snd run) = rewards_policy h /\
   observations_policy (snd run) = observations_policy h) /\
  is_mission_running (world_state (snd run))
  = (is_mission_running (world_state h)
     && match fst run with inl _ => true | inr _ => false end) /\
  match fst run with
  | inr tt => world_state (snd run) = mkWorldState false false 0 0 0 [] [] [] [] []
  | inl _ => world_state (snd run) = world_state h
  end.
Proof.
  intro run.
  assert (Hview : match fst run with
                  | inr _ => cleared_view h (snd run)
                  | inl _ => same_view h (snd run)
                  end).
  { subst run. unfold startMission.
    destruct ((role <? 0) || (role >=? getNumberOfAgents mission)).
    { destruct (getNumberOfAgents mission =? 1); repeat split. }
    destruct (isVideoRequested mission role
              && negb (Z.rem (getVideoWidth mission role) 4 =? 0));
      [repeat split|].
    destruct (isVideoRequested mission role
              && negb (Z.rem (getVideoHeight mission role) 2 =? 0));
      [repeat split|].
    rewrite bind_gets. cbv beta.
    destruct (is_mission_running (world_state h)) eqn:Hidle; [repeat split|].
    refine (startMission_after_guard mission client_pool mission_record role
              unique_experiment_id h _ Hidle _ h eq_refl).
    intro pool. cbv beta.
    apply hoare_bind with (R := fun _ => negotiating h).
    { apply hoare_weaken with (P' := negotiating h)
                              (Q' := fun _ => negotiating h)
                              (E' := negotiating h);
        [| auto | auto | intros h' HN; exact (proj1 HN)].
      apply hoare_if; [|apply hoare_ret; auto].
      apply hoare_bind with (R := fun _ => negotiating h).
      - apply hoare_deref; [intros ? ? HN _; exact HN | intros ? HN _; exact HN].
      - intro mi. apply hoare_if; [|apply hoare_ret; auto].
        apply hoare_bind with (R := fun _ => negotiating h);
          [now apply keeps_findServer|].
        intros _. apply hoare_ret. auto. }
    intros _.
    apply hoare_bind with (R := fun _ => negotiating h).
    { apply hoare_weaken with (P' := negotiating h)
                              (Q' := fun _ => negotiating h)
                              (E' := negotiating h);
        [now apply keeps_findClient | auto | auto
        | intros h' HN; exact (proj1 HN)]. }
    intros _.
    apply hoare_bind
      with (R := fun _ h' => cleared_view h h' /\
                             current_mission_init h' <> None /\
                             current_mission_record h' <> None).
    { apply hoare_modify. intros h' ((Hw & Hpol) & Hmi & Hrec).
      split; [|now split]. split; [reflexivity | exact Hpol]. }
    intros _.
    apply hoare_bind
      with (R := fun _ h' => cleared_view h h' /\
                             current_mission_init h' <> None /\
                             current_mission_record h' <> None).
    { apply hoare_deref; [intros ? ? HC _; exact HC|].
      intros h' (_ & _ & Hrec) Hnone. contradiction. }
    intro rec. apply hoare_if; [|apply hoare_ret; intros h' HC; exact (proj1 HC)].
    apply hoare_bind
      with (R := fun _ h' => cleared_view h h' /\
                             current_mission_init h' <> None /\
                             current_mission_record h' <> None).
    { apply hoare_deref; [intros ? ? HC _; exact HC|].
      intros h' (_ & Hmi & _) Hnone. contradiction. }
    intro mi. apply hoare_modify. intros h' HC. exact (proj1 HC). }
  destruct (fst run) as [e|[]].
  - destruct Hview as (Hw & Hv & Hr & Ho). rewrite Hw, andb_true_r.
    repeat split; assumption.
  - destruct Hview as (Hw & Hv & Hr & Ho). rewrite Hw, andb_false_r.
    repeat split; assumption.
Qed.

(** ** Further properties of the listeners *)

(** X6. listenForVideo, once a recording spec is set, always leaves a video
    listener that is recording and has exactly the requested width, height
    and channels.  An existing listener is kept (same port) exactly when its
    geometry matches and the requested port is 0 or its own; otherwise a new
    listener is bound for the requested port.  The MP4 writer is attached
    when the recording spec asks for it, and a kept listener without that
    request keeps the writer it had. *)
Theorem listenForVideo_geometry (port width height channels : Z)
    (h : AgentHost V) (rec : MissionRecord) :
  current_mission_record h = Some rec ->
  exists s,
    listenForVideo port width height channels h
    = (inr tt, set_video_server (Some s) h) /\
    (vs_getWidth s = width /\ vs_getHeight s = height /\
     vs_getChannels s = channels /\ vs_recording s = true) /\
    (let kept old :=
       ((port =? 0) || (vs_getPort old =? port))
       && (vs_getWidth old =? width) && (vs_getHeight old =? height)
       && (vs_getChannels old =? channels) in
     match video_server h with
     | Some old =>
         if kept old
         then vs_getPort s = vs_getPort old /\
              vs_mp4 s = (if isRecordingMP4 rec
                          then Some (getMP4Path rec, getMP4FramesPerSecond rec,
                                     getMP4BitRate rec)
                          else vs_mp4 old)
         else s = vs_startRecording
                    (if isRecordingMP4 rec
                     then vs_recordMP4 (getMP4Path rec)
                            (getMP4FramesPerSecond rec) (getMP4BitRate rec)
                            (new_VideoServer port width height channels)
                     else new_VideoServer port width height channels)
     | None =>
         s = vs_startRecording
               (if isRecordingMP4 rec
                then vs_recordMP4 (getMP4Path rec)
                       (getMP4FramesPerSecond rec) (getMP4BitRate rec)
                       (new_VideoServer port width height channels)
                else new_VideoServer port width height channels)
     end).
Proof.
  intro Hrec. unfold listenForVideo, recordMP4_if_requested.
  destruct h as [w vp rp op r d cmi mr mc vs rs os cs cc nw fl].
  cbn in Hrec. subst mr. rewrite bind_gets. cbn [video_server].
  destruct vs as [[oport owidth oheight ochannels omp4 orec]|].
  - cbn [vs_getPort vs_getWidth vs_getHeight vs_getChannels].
    destruct (Z.eqb_spec port 0) as [Hp0|Hp0];
      destruct (Z.eqb_spec oport port) as [Hport|Hport];
      destruct (Z.eqb_spec owidth width) as [Hw|Hw];
      destruct (Z.eqb_spec oheight height) as [Hh|Hh];
      destruct (Z.eqb_spec ochannels channels) as [Hc|Hc];
      cbn [negb andb orb];
      unfold bind, modify, deref, ret; cbn;
      destruct (isRecordingMP4 rec); cbn;
      eexists; (split; [reflexivity|]); subst; cbn; repeat split.
  - unfold bind, modify, deref, ret. cbn.
    destruct (isRecordingMP4 rec); cbn;
      eexists; (split; [reflexivity|]); cbn; repeat split.
Qed.



(** ** Further properties of client discovery *)

Lemma prefix_one (a c : ascii) (s : string) :
  prefix (String a EmptyString) (String c s) = Ascii.eqb a c.
Proof.
  with_strategy transparent [prefix] cbn [prefix].
  destruct (ascii_dec a c) as [->|Hne].
  - rewrite Ascii.eqb_refl. now destruct s.
  - symmetry. now apply Ascii.eqb_neq.
Qed.

Lemma index_app_separator (sep : ascii) (a rest : string) :
  index 0 (String sep EmptyString) a = None ->
  index 0 (String sep EmptyString) (a ++ String sep rest)
  = Some (String.length a).
Proof.
  induction a as [|c a IH]; intro Hnone.
  - cbn [append index String.length]. now rewrite prefix_one, Ascii.eqb_refl.
  - cbn [append index String.length] in *. rewrite prefix_one in *.
    destruct (Ascii.eqb sep c); [discriminate|].
    destruct (index 0 (String sep EmptyString) a) eqn:Hidx; [discriminate|].
    now rewrite IH.
Qed.

Lemma substring_app_left (a b : string) :
  substring 0 (String.length a) (a ++ b) = a.
Proof.
  induction a as [|c a IH]; cbn; [now destruct b | now rewrite IH].
Qed.

Lemma substring_skip (a b : string) (m : nat) :
  substring (String.length a) m (a ++ b) = substring 0 m b.
Proof. induction a as [|c a IH]; cbn; [reflexivity | exact IH]. Qed.

Lemma substring_all (s : string) : substring 0 (String.length s) s = s.
Proof. induction s as [|c s IH]; cbn; [reflexivity | now rewrite IH]. Qed.

Lemma length_append (a b : string) :
  String.length (a ++ b) = (String.length a + String.length b)%nat.
Proof. induction a as [|c a IH]; cbn; [reflexivity | now rewrite IH]. Qed.

Lemma string_app_assoc (a b c : string) : (a ++ b) ++ c = a ++ b ++ c.
Proof. induction a as [|x a IH]; cbn; [reflexivity | now rewrite IH]. Qed.

Lemma server_found_mk a p q r :
  server_found (mkExchange a p q r)
  = match r with
    | Some reply => prefix malmo_server_prefix reply
    | None => false
    end.
Proof. reflexivity. Qed.

Lemma findServer_loop_none items request : forall h,
  Forall (fun e => server_found e = false)
    (probe_all items request (network h)) ->
  findServer_loop items request h
  = (inr None, set_network (network h ++ probe_all items request (network h)) h).
Proof.
  induction items as [|item rest IH]; intros h Hnone.
  - cbn. unfold ret. now rewrite app_nil_r, set_network_same.
  - cbn [probe_all findServer_loop] in *. inversion Hnone as [|e es He Hes]; subst.
    rewrite server_found_mk in He.
    unfold bind at 1. unfold send.
    set (h2 := set_network _ h).
    assert (Hnext : findServer_loop rest request h2
                    = (inr None,
                       set_network (network h2 ++ probe_all rest request (network h2)) h2))
      by (apply IH; exact Hes).
    destruct (SendStringAndGetShortReply (network h) (ip_address item)
                (port item) request) as [reply|].
    + rewrite He, Hnext. subst h2. cbn [network set_network].
      now rewrite set_network_twice, <- app_assoc.
    + rewrite Hnext. subst h2. cbn [network set_network].
      now rewrite set_network_twice, <- app_assoc.
Qed.

Lemma findServer_loop_found items request : forall h before e after reply mi,
  probe_all items request (network h) = (before ++ e :: after)%list ->
  Forall (fun x => server_found x = false) before ->
  ex_reply e = Some reply ->
  prefix malmo_server_prefix reply = true ->
  current_mission_init h = Some mi ->
  findServer_loop items request h
  = match decode_server_reply reply with
    | Some (address, server_port) =>
        (inr (Some true),
         set_current_mission_init
           (Some (setMinecraftServerInformation address server_port mi))
           (set_network (network h ++ before ++ [e]) h))
    | None =>
        (inl (runtime_error ("Received malformed reply: " ++ reply)),
         set_network (network h ++ before ++ [e]) h)
    end.
Proof.
  induction items as [|item rest IH];
    intros h before e after reply mi Hall Hbefore Hreply Hprefix Hmi.
  - destruct before; discriminate.
  - cbn [probe_all findServer_loop] in *.
    unfold bind at 1. unfold send.
    destruct before as [|b before].
    + cbn [app] in Hall. injection Hall as He Hafter. subst e.
      cbn [ex_reply] in Hreply. rewrite Hreply, Hprefix.
      unfold decode_server_reply.
      destruct (index 0 ":" reply) as [colon|]; [|reflexivity].
      destruct (sscanf_d (substr_from (colon + 1) reply)) as [p|];
        [|reflexivity].
      erewrite bind_update_mission_init by exact Hmi.
      reflexivity.
    + set (h2 := set_network _ h).
      cbn [app] in Hall. injection Hall as Hb Hrest.
      inversion Hbefore as [|x xs Hx Hxs]; subst x xs.
      rewrite <- Hb, server_found_mk in Hx.
      assert (Hnext := IH h2 before e after reply mi Hrest Hxs Hreply Hprefix Hmi).
      assert (Hstate : set_network (network h2 ++ before ++ [e]) h2
                       = set_network (network h ++ (b :: before) ++ [e]) h).
      { subst h2. cbn [network set_network]. rewrite set_network_twice, Hb.
        now rewrite <- app_assoc. }
      rewrite Hstate in Hnext.
      destruct (SendStringAndGetShortReply (network h) (ip_address item)
                  (port item) request) as [r|]; [rewrite Hx|]; exact Hnext.
Qed.

Lemma findServer_exhausted client_pool h mi :
  current_mission_init h = Some mi ->
  Forall (fun e => server_found e = false)
    (probe_all (clients client_pool) (find_server_request mi) (network h)) ->
  findServer client_pool h
  = (inl server_not_found_error,
     close (set_network
              (network h ++ probe_all (clients client_pool)
                              (find_server_request mi) (network h)) h)).
Proof.
  intros Hmi Hnone. unfold findServer.
  rewrite (bind_deref _ _ _ h mi Hmi).
  fold (find_server_request mi).
  rewrite (bind_eq _ _ _ _ _ (findServer_loop_none _ _ h Hnone)).
  reflexivity.
Qed.

Lemma findServer_found client_pool h mi before e after reply :
  current_mission_init h = Some mi ->
  probe_all (clients client_pool) (find_server_request mi) (network h)
  = (before ++ e :: after)%list ->
  Forall (fun x => server_found x = false) before ->
  ex_reply e = Some reply ->
  prefix malmo_server_prefix reply = true ->
  findServer client_pool h
  = match decode_server_reply reply with
    | Some (address, server_port) =>
        (inr true,
         set_current_mission_init
           (Some (setMinecraftServerInformation address server_port mi))
           (set_network (network h ++ before ++ [e]) h))
    | None =>
        (inl (runtime_error ("Received malformed reply: " ++ reply)),
         set_network (network h ++ before ++ [e]) h)
    end.
Proof.
  intros Hmi Hall Hbefore Hreply Hprefix. unfold findServer.
  rewrite (bind_deref _ _ _ h mi Hmi).
  fold (find_server_request mi).
  pose proof (findServer_loop_found _ _ h before e after reply mi Hall Hbefore
                Hreply Hprefix Hmi) as Hloop.
  destruct (decode_server_reply reply) as [[address server_port]|].
  - rewrite (bind_eq _ _ _ _ _ Hloop). reflexivity.
  - rewrite (bind_throws _ _ _ _ _ Hloop). reflexivity.
Qed.

(** X8. findServer asks the hosts of the pool in pool order, each with the
    find-server request, and the first reply that begins with MALMOS
    decides: hosts after it are not contacted.  If that reply decodes, the
    address and port go into the negotiation record and findServer returns
    true with nothing torn down; if it does not, findServer throws the
    malformed-reply error.  When no reply begins with MALMOS every host
    has been asked once, the host object is torn down and findServer throws
    the server-not-found error. *)
Theorem findServer_first_match (client_pool : ClientPool) (h : AgentHost V)
    (mi : MissionInitSpec) :
  current_mission_init h = Some mi ->
  let all := probe_all (clients client_pool) (find_server_request mi)
               (network h) in
  (Forall (fun e => server_found e = false) all ->
   findServer client_pool h
   = (inl server_not_found_error, close (set_network (network h ++ all) h))) /\
  (forall before e after reply,
     all = (before ++ e :: after)%list ->
     Forall (fun x => server_found x = false) before ->
     ex_reply e = Some reply ->
     prefix malmo_server_prefix reply = true ->
     let h1 := set_network (network h ++ before ++ [e]) h in
     findServer client_pool h
     = match decode_server_reply reply with
       | Some (address, server_port) =>
           (inr true,
            set_current_mission_init
              (Some (setMinecraftServerInformation address server_port mi)) h1)
       | None =>
           (inl (runtime_error ("Received malformed reply: " ++ reply)), h1)
       end).
Proof.
  intros Hmi all. split.
  - now apply findServer_exhausted.
  - intros before e after reply Hall Hbefore Hreply Hprefix h1.
    now apply findServer_found with (after := after).
Qed.

(** X9. The server-found reply is read back as it is written: when the
    first reply that begins with MALMOS is MALMOS, an address without ':',
    a ':' and a text that sscanf reads as the number p, findServer returns
    true and the negotiation record then holds exactly that address and the
    port p. *)
Theorem findServer_decodes (client_pool : ClientPool) (h : AgentHost V)
    (mi : MissionInitSpec) (before after : list Exchange) (e : Exchange)
    (address port_text : string) (p : Z) :
  current_mission_init h = Some mi ->
  probe_all (clients client_pool) (find_server_request mi) (network h)
  = (before ++ e :: after)%list ->
  Forall (fun x => server_found x = false) before ->
  ex_reply e = Some ("MALMOS" ++ address ++ ":" ++ port_text) ->
  index 0 ":" address = None ->
  sscanf_d port_text = Some p ->
  fst (findServer client_pool h) = inr true /\
  option_map getMinecraftServerInformation
    (current_mission_init (snd (findServer client_pool h)))
  = Some (Some (address, p)) /\
  network (snd (findServer client_pool h)) = (network h ++ before ++ [e])%list.
Proof.
  intros Hmi Hall Hbefore Hreply Hcolon Hport.
  assert (Hprefix : prefix malmo_server_prefix
                      ("MALMOS" ++ address ++ ":" ++ port_text) = true).
  { apply prefix_correct. unfold malmo_server_prefix. cbn.
    now destruct (address ++ String ":" port_text). }
  assert (Hdecode : decode_server_reply ("MALMOS" ++ address ++ ":" ++ port_text)
                    = Some (address, p)).
  { unfold decode_server_reply.
    assert (Hidx : index 0 ":" ("MALMOS" ++ address ++ ":" ++ port_text)
                   = Some (6 + String.length address)%nat).
    { cbn [append index]. rewrite !prefix_one. cbn [Ascii.eqb Bool.eqb andb].
      change (":" ++ port_text) with (String ":" port_text).
      now rewrite (index_app_separator ":" address port_text Hcolon). }
    rewrite Hidx.
    assert (Htext : substr_from (6 + String.length address + 1)
                      ("MALMOS" ++ address ++ ":" ++ port_text) = port_text).
    { unfold substr_from.
      replace (6 + String.length address + 1)%nat
        with (String.length ("MALMOS" ++ address ++ ":"))
        by (rewrite !length_append; cbn; lia).
      replace ("MALMOS" ++ address ++ ":" ++ port_text)
        with (("MALMOS" ++ address ++ ":") ++ port_text)
        by now rewrite !string_app_assoc.
      rewrite substring_skip, length_append.
      replace (String.length ("MALMOS" ++ address ++ ":")
               + String.length port_text
               - String.length ("MALMOS" ++ address ++ ":"))%nat
        with (String.length port_text) by lia.
      apply substring_all. }
    rewrite Htext, Hport. do 2 f_equal.
    replace (6 + String.length address - String.length malmo_server_prefix)%nat
      with (String.length address) by (cbn; lia).
    cbn [malmo_server_prefix String.length append substring].
    apply substring_app_left. }
  rewrite (findServer_found client_pool h mi before e after _ Hmi Hall Hbefore
             Hreply Hprefix), Hdecode.
  cbn [fst snd]. repeat split.
Qed.

Lemma reserve_loop_enough items request :
  forall reservedClients clients_required h before e after,
  probe_all items request (network h) = (before ++ e :: after)%list ->
  reservation_accepted e = true ->
  Z.of_nat (List.length (filter reservation_accepted before))
  = clients_required - 1 ->
  reserve_loop items request reservedClients clients_required h
  = (inr (mkClientPool
            (clients reservedClients
             ++ map ex_host (filter reservation_accepted (before ++ [e]))),
          0),
     set_network (network h ++ before ++ [e]) h).
Proof.
  induction items as [|item rest IH];
    intros reservedClients clients_required h before e after Hall He Hcount.
  - destruct before; discriminate.
  - cbn [probe_all reserve_loop] in *. unfold bind at 1. unfold send.
    destruct before as [|b before].
    + cbn [app] in Hall. injection Hall as Heq _. subst e.
      rewrite reservation_accepted_mk in He.
      cbn [filter List.length Z.of_nat] in Hcount.
      destruct (SendStringAndGetShortReply (network h) (ip_address item)
                  (port item) request) as [reply|]; [|discriminate].
      rewrite He. cbv zeta.
      replace (clients_required - 1) with 0 by lia. cbn [Z.eqb].
      unfold ret. cbn [app filter]. rewrite reservation_accepted_mk, He.
      cbn [map]. now rewrite ex_host_eta.
    + cbn [app] in Hall. injection Hall as Hb Hrest.
      set (h2 := set_network _ h).
      assert (Hstate : forall l, set_network (network h2 ++ l) h2
                                 = set_network (network h ++ b :: l) h).
      { intro l. subst h2. cbn [network set_network].
        now rewrite set_network_twice, Hb, <- app_assoc. }
      cbn [app filter] in *.
      rewrite <- Hb in Hcount |- * at 1. rewrite reservation_accepted_mk in *.
      destruct (SendStringAndGetShortReply (network h) (ip_address item)
                  (port item) request) as [reply|].
      * destruct (prefix malmo_reservation_prefix reply).
        -- cbn [List.length] in Hcount. cbv zeta.
           destruct (Z.eqb_spec (clients_required - 1) 0) as [Hz|_]; [lia|].
           rewrite (IH _ _ h2 before e after Hrest He) by lia.
           rewrite Hstate. cbn [ClientPool_add clients map].
           rewrite <- Hb, ex_host_eta, <- app_assoc. reflexivity.
        -- rewrite (IH _ _ h2 before e after Hrest He Hcount).
           now rewrite Hstate.
      * rewrite (IH _ _ h2 before e after Hrest He Hcount).
        now rewrite Hstate.
Qed.

(** X10. When enough hosts accept, reserveClients stops at the host whose
    acceptance completes the count: it returns exactly the first count
    accepting hosts, in pool order; the hosts after that one are not
    contacted and no cancellation is sent, every exchange made being a
    reservation request. *)
Theorem reserveClients_enough (client_pool : ClientPool) (count : Z)
    (h : AgentHost V) (mi : MissionInitSpec)
    (before after : list Exchange) (e : Exchange) :
  current_mission_init h = Some mi ->
  probe_all (clients client_pool) (reservation_request mi) (network h)
  = (before ++ e :: after)%list ->
  reservation_accepted e = true ->
  Z.of_nat (List.length (filter reservation_accepted before)) = count - 1 ->
  let reserved := map ex_host (filter reservation_accepted (before ++ [e])) in
  reserveClients client_pool count h
  = (inr (mkClientPool reserved),
     set_network (network h ++ before ++ [e]) h) /\
  Z.of_nat (List.length reserved) = count /\
  Forall (fun x => ex_request x = reservation_request mi) (before ++ [e]).
Proof.
  intros Hmi Hall He Hcount reserved. split; [|split].
  - unfold reserveClients. rewrite (bind_deref _ _ _ h mi Hmi).
    fold (reservation_request mi).
    rewrite (bind_eq _ _ _ _ _
               (reserve_loop_enough _ _ (mkClientPool []) count h before e
                  after Hall He Hcount)).
    reflexivity.
  - subst reserved. rewrite length_map, filter_app, length_app.
    cbn [filter]. rewrite He. cbn [List.length]. lia.
  - pose proof (probe_all_requests (clients client_pool)
                  (reservation_request mi) (network h)) as Hreq.
    rewrite Hall in Hreq. apply Forall_app in Hreq. destruct Hreq as [Hb He'].
    apply Forall_app. split; [exact Hb|].
    inversion He'; subst. now constructor.
Qed.

Lemma findClient_loop_addressed client_pool nz idxs : forall h mi,
  current_mission_init h = Some mi ->
  let run := findClient_loop client_pool nz idxs h in
  exists evs,
    network (snd run) = (network h ++ evs)%list /\
    Forall (addressed mi) evs /\
    (fst run = inr true ->
     exists evs0 e,
       evs = (evs0 ++ [e])%list /\
       current_mission_init (snd run)
       = Some (made_out_to (ex_address e) (ex_port e) mi)).
Proof.
  induction idxs as [|i idxs IH]; intros h mi Hmi run; subst run.
  - exists []. cbn. rewrite app_nil_r. repeat split; [constructor | discriminate].
  - destruct (if Z.rem (Z.of_nat i + current_role h) nz <? 0 then None
              else nth_error (clients client_pool)
                     (Z.to_nat (Z.rem (Z.of_nat i + current_role h) nz)))
      as [item|] eqn:Hitem.
    + rewrite (findClient_loop_step client_pool nz i idxs h mi item Hmi Hitem).
      cbv zeta.
      set (mi' := setClientMissionControlPort (port item)
                    (setClientAddress (ip_address item) mi)).
      set (xml := getAsXML false mi').
      destruct (MissionInitSpec_parse xml) as [err|okmi].
      { exists []. cbn [fst snd]. rewrite app_nil_r.
        split; [now destruct h|]. split; [constructor | discriminate]. }
      set (reply := SendStringAndGetShortReply (network h) (ip_address item)
                      (port item) (xml ++ nl)).
      set (ex := mkExchange (ip_address item) (port item) (xml ++ nl) reply).
      set (h2 := set_network (network h ++ [ex])
                   (set_current_mission_init (Some mi') h)).
      assert (Hmi2 : current_mission_init h2 = Some mi') by reflexivity.
      assert (Hnet2 : network h2 = (network h ++ [ex])%list) by reflexivity.
      assert (Hex : addressed mi ex) by reflexivity.
      assert (Hcontinue :
        exists evs,
          network (snd (findClient_loop client_pool nz idxs h2))
          = (network h ++ evs)%list /\
          Forall (addressed mi) evs /\
          (fst (findClient_loop client_pool nz idxs h2) = inr true ->
           exists evs0 e,
             evs = (evs0 ++ [e])%list /\
             current_mission_init (snd (findClient_loop client_pool nz idxs h2))
             = Some (made_out_to (ex_address e) (ex_port e) mi))).
      { destruct (IH h2 mi' Hmi2) as (evs & Hnet & Haddr & Hok).
        exists (ex :: evs). rewrite Hnet, Hnet2, <- app_assoc.
        split; [reflexivity|]. split.
        - constructor; [exact Hex|].
          eapply Forall_impl; [|exact Haddr]. intros e He. exact He.
        - intro Htrue. destruct (Hok Htrue) as (evs0 & e & -> & Hrec).
          exists (ex :: evs0), e. split; [reflexivity | exact Hrec]. }
      destruct reply as [r|]; [|exact Hcontinue].
      destruct (String.eqb r malmo_mission_accepted); [|exact Hcontinue].
      exists [ex]. cbn [fst snd]. split; [exact Hnet2|].
      split; [now constructor|]. intros _. exists [], ex. now split.
    + exists []. cbn [findClient_loop]. rewrite bind_gets.
      unfold clients_at. rewrite Hitem. unfold bind, throw. cbn [fst snd].
      rewrite app_nil_r. repeat split; [constructor | discriminate].
Qed.

(** X11. Every request findClient sends is the mission-init document made
    out to the host it goes to: generated from the negotiation record with
    that host's address and port as the client's.  When findClient succeeds,
    the negotiation record it leaves is the one made out to the host that
    accepted, the host of the last exchange. *)
Theorem findClient_addresses_each_host (client_pool : ClientPool)
    (h : AgentHost V) (mi : MissionInitSpec) :
  current_mission_init h = Some mi ->
  let run := findClient client_pool h in
  exists evs,
    network (snd run) = (network h ++ evs)%list /\
    Forall (addressed mi) evs /\
    (fst run = inr tt ->
     exists evs0 e,
       evs = (evs0 ++ [e])%list /\
       current_mission_init (snd run)
       = Some (made_out_to (ex_address e) (ex_port e) mi)).
Proof.
  intros Hmi run. subst run. unfold findClient. cbv zeta.
  destruct (findClient_loop_addressed client_pool
              (Z.of_nat (List.length (clients client_pool)))
              (seq 0 (List.length (clients client_pool))) h mi Hmi)
    as (evs & Hnet & Haddr & Hok).
  exists evs. unfold bind.
  destruct (findClient_loop client_pool
              (Z.of_nat (List.length (clients client_pool)))
              (seq 0 (List.length (clients client_pool))) h)
    as [[err|[|]] h'] eqn:Hloop; cbn [fst snd] in *.
  - split; [exact Hnet|]. split; [exact Haddr | discriminate].
  - split; [exact Hnet|]. split; [exact Haddr|]. intros _. now apply Hok.
  - unfold modify, throw. cbn [fst snd]. rewrite close_network.
    split; [exact Hnet|]. split; [exact Haddr | discriminate].
Qed.

(** ** Further properties of the mission-control handler *)

(** The steps of the handler up to the command connection, for a MissionInit
    that parses while no mission is running. *)
Ltac enter_mission_init Hroot Hidle Hparse :=
  unfold onMissionControlMessage;
  rewrite Hroot, bind_gets; cbv beta; rewrite Hidle;
  replace (String.eqb "MissionInit" "MissionInit") with true by reflexivity;
  cbn [negb andb]; unfold onMissionInit; rewrite Hparse;
  rewrite bind_assoc, bind_modify, bind_assoc, bind_modify, bind_assoc,
    bind_modify;
  unfold openCommandsConnection; rewrite !bind_assoc;
  erewrite bind_deref by reflexivity.

Lemma missionInit_taken_in (xml : TimestampedString) (h : AgentHost V)
    (rest : list string) (mi : MissionInitSpec) :
  read_xml (text xml) = inr ("MissionInit" :: rest) ->
  is_mission_running (world_state h) = false ->
  MissionInitSpec_parse (text xml) = inr mi ->
  getClientCommandsPort mi <> 0 ->
  onMissionControlMessage xml h
  = (inr tt, append_message xml (mission_started mi h)).
Proof.
  intros Hroot Hidle Hparse Hport. enter_mission_init Hroot Hidle Hparse.
  destruct (Z.eqb_spec (getClientCommandsPort mi) 0); [contradiction|].
  rewrite bind_assoc. erewrite bind_deref by reflexivity.
  rewrite bind_modify, bind_ret. reflexivity.
Qed.

(** X12. A MissionInit that arrives while no mission is running and
    parses: the negotiation record is replaced by the parsed one and
    is_mission_running and has_mission_begun are set; then, if the record
    names the client's command port, the command connection is opened to the
    client's address and that port, the message is appended, and nothing else
    changes.  If the command port is 0 the handler throws out of the
    callback after the flags and the record were set: the message is not
    appended and no error entry is recorded. *)
Theorem missionInit_starts_mission (xml : TimestampedString) (h : AgentHost V)
    (rest : list string) (mi : MissionInitSpec) :
  read_xml (text xml) = inr ("MissionInit" :: rest) ->
  is_mission_running (world_state h) = false ->
  MissionInitSpec_parse (text xml) = inr mi ->
  onMissionControlMessage xml h
  = if getClientCommandsPort mi =? 0
    then (inl commands_port_unknown_error, mission_started_no_connection mi h)
    else (inr tt, append_message xml (mission_started mi h)).
Proof.
  intros Hroot Hidle Hparse. enter_mission_init Hroot Hidle Hparse.
  destruct (getClientCommandsPort mi =? 0); [reflexivity|].
  rewrite bind_assoc. erewrite bind_deref by reflexivity.
  rewrite bind_modify, bind_ret. reflexivity.
Qed.

(** X13. While a mission is running a MissionInit is not taken in: the
    handler records one error entry that names the root element, and leaves
    the negotiation record, the flags, the command connection and the
    mission-control messages as they were. *)
Theorem missionInit_while_running_rejected (xml : TimestampedString)
    (h : AgentHost V) (rest : list string) :
  read_xml (text xml) = inr ("MissionInit" :: rest) ->
  is_mission_running (world_state h) = true ->
  onMissionControlMessage xml h
  = (inr tt, push_error (unexpected_root_error xml "MissionInit") h).
Proof.
  intros Hroot Hrun. unfold onMissionControlMessage.
  rewrite Hroot, bind_gets. cbv beta. rewrite Hrun. cbn [negb andb].
  replace (String.eqb "MissionInit" "MissionEnded") with false by reflexivity.
  replace (String.eqb "MissionInit" "ping") with false by reflexivity.
  reflexivity.
Qed.

Lemma close_rewards_server h :
  rewards_server (close h) = option_map ss_stopRecording (rewards_server h).
Proof.
  destruct h as [w vp rp op r d cmi mr mc [vs|] [rs|] [os|] [cs|] [cc|] nw fl];
    reflexivity.
Qed.

Lemma close_commands_connection h : commands_connection (close h) = None.
Proof.
  destruct h as [w vp rp op r d cmi mr mc [vs|] [rs|] [os|] [cs|] [cc|] nw fl];
    reflexivity.
Qed.

Lemma close_current_mission_init h :
  current_mission_init (close h) = current_mission_init h.
Proof.
  destruct h as [w vp rp op r d cmi mr mc [vs|] [rs|] [os|] [cs|] [cc|] nw fl];
    reflexivity.
Qed.

(** The state in which the MissionEnded branch calls [close], when the
    document parsed: the error of an abnormal status recorded, then, if the
    mission was running and the document carries a reward, that reward merged
    and recorded on the rewards listener [srv]. *)
Lemma onMissionEnded_before_close xml h me srv :
  MissionEnded_parse (text xml) = inr me ->
  rewards_server h = Some srv ->
  let h1 := match Status me with
            | ENDED | PLAYER_DIED => h
            | ABNORMAL _ =>
                push_error
                  (mkTimestampedString (timestamp xml)
                     ("Mission ended abnormally: " ++ HumanReadableStatus me)) h
            end in
  let h2 := match Reward me with
            | Some values =>
                if is_mission_running (world_state h)
                then set_rewards_server
                       (Some (ss_recordMessage (final_reward_record xml values) srv))
                       (processReceivedReward
                          (mkTimestampedReward (timestamp xml) values) h1)
                else h1
            | None => h1
            end in
  onMissionEnded xml h = (inr true, close h2).
Proof.
  intros Hparse Hsrv h1 h2. unfold onMissionEnded. rewrite Hparse.
  assert (Estatus :
    (match Status me with
     | ENDED | PLAYER_DIED => ret tt
     | ABNORMAL _ =>
         record_error xml
           ("Mission ended abnormally: " ++ HumanReadableStatus me)
     end) h = (inr tt, h1)).
  { subst h1. destruct (Status me); reflexivity. }
  rewrite (bind_eq _ _ _ _ _ Estatus), bind_gets. cbv beta.
  assert (Hrun1 : is_mission_running (world_state h1)
                  = is_mission_running (world_state h))
    by (subst h1; destruct (Status me); reflexivity).
  assert (Hsrv1 : rewards_server h1 = Some srv)
    by (subst h1; destruct (Status me); exact Hsrv).
  rewrite Hrun1. subst h2.
  destruct (is_mission_running (world_state h)).
  - destruct (Reward me) as [values|].
    + rewrite bind_assoc, bind_modify.
      rewrite bind_assoc.
      rewrite (bind_deref _ _ _ _ srv) by exact Hsrv1.
      rewrite !bind_modify. reflexivity.
    + rewrite bind_ret, bind_modify. reflexivity.
  - destruct (Reward me); rewrite bind_ret, bind_modify; reflexivity.
Qed.

(** X14. The final reward of a MissionEnded document that parses is merged
    only if the mission was running.  If it was, the reward goes through the
    rewards policy like any other reward (stamped with the arrival time of
    the document), the rewards counter grows by one, and the reward is
    recorded on the rewards listener before the teardown stops its recording.
    If the mission was not running, the rewards, the counter and the log of
    the rewards listener are as they were. *)
Theorem missionEnded_final_reward (xml : TimestampedString) (h : AgentHost V)
    (rest : list string) (me : MissionEnded V) (values : V)
    (srv : StringServer) :
  read_xml (text xml) = inr ("MissionEnded" :: rest) ->
  MissionEnded_parse (text xml) = inr me ->
  Reward me = Some values ->
  rewards_server h = Some srv ->
  let run := onMissionControlMessage xml h in
  let w' := world_state (snd run) in
  let final_reward := mkTimestampedReward (timestamp xml) values in
  fst run = inr tt /\
  if is_mission_running (world_state h) then
    rewards w' = rewards (world_state (processReceivedReward final_reward h)) /\
    number_of_rewards_since_last_state w'
    = number_of_rewards_since_last_state (world_state h) + 1 /\
    rewards_server (snd run)
    = Some (ss_stopRecording
              (ss_recordMessage (final_reward_record xml values) srv))
  else
    rewards w' = rewards (world_state h) /\
    number_of_rewards_since_last_state w'
    = number_of_rewards_since_last_state (world_state h) /\
    rewards_server (snd run) = Some (ss_stopRecording srv).
Proof.
  intros Hroot Hparse Hreward Hsrv run w' final_reward. subst run w'.
  unfold onMissionControlMessage. rewrite Hroot, bind_gets. cbv beta.
  replace (String.eqb "MissionEnded" "MissionInit") with false by reflexivity.
  rewrite andb_false_r.
  replace (String.eqb "MissionEnded" "MissionEnded") with true by reflexivity.
  rewrite (bind_eq _ _ _ _ _
             (onMissionEnded_before_close xml h me srv Hparse Hsrv)).
  rewrite Hreward. unfold modify. cbn [fst snd].
  split; [reflexivity|].
  cbn [world_state set_world_state rewards number_of_rewards_since_last_state
       set_mission_control_messages rewards_server].
  rewrite close_world_state, close_rewards_server.
  cbn [set_is_mission_running set_flags rewards
       number_of_rewards_since_last_state].
  destruct (is_mission_running (world_state h)).
  - cbn [rewards_server set_rewards_server set_servers option_map].
    cbn [world_state set_rewards_server set_servers].
    rewrite processReceivedReward_counter.
    destruct (Status me); cbn [world_state]; (split; [|split; reflexivity]).
    + reflexivity.
    + reflexivity.
    + unfold processReceivedReward.
      destruct h as [w vp rp op r d cmi mr mc vs rs os cs cc nw fl].
      destruct w as [run beg nv nr no vf rw ob mcm er].
      cbn. destruct rp; [reflexivity | destruct rw; reflexivity | reflexivity].
  - destruct (Status me); cbn; rewrite Hsrv; repeat split.
Qed.

Lemma processReceivedReward_flags r h :
  is_mission_running (world_state (processReceivedReward r h))
  = is_mission_running (world_state h) /\
  has_mission_begun (world_state (processReceivedReward r h))
  = has_mission_begun (world_state h).
Proof.
  unfold processReceivedReward. destruct (rewards_policy h);
    try (split; reflexivity).
  destruct (rewards (world_state h)); split; reflexivity.
Qed.

Lemma onMissionControlMessage_ended xml h rest me srv :
  read_xml (text xml) = inr ("MissionEnded" :: rest) ->
  MissionEnded_parse (text xml) = inr me ->
  rewards_server h = Some srv ->
  exists hm,
    onMissionControlMessage xml h = (inr tt, append_message xml (close hm)) /\
    has_mission_begun (world_state hm) = has_mission_begun (world_state h) /\
    mission_control_messages (world_state hm)
    = mission_control_messages (world_state h).
Proof.
  intros Hroot Hparse Hsrv. unfold onMissionControlMessage.
  rewrite Hroot, bind_gets. cbv beta.
  replace (String.eqb "MissionEnded" "MissionInit") with false by reflexivity.
  rewrite andb_false_r.
  replace (String.eqb "MissionEnded" "MissionEnded") with true by reflexivity.
  rewrite (bind_eq _ _ _ _ _
             (onMissionEnded_before_close xml h me srv Hparse Hsrv)).
  eexists. split; [reflexivity|].
  destruct (Reward me) as [values|];
    [destruct (is_mission_running (world_state h))|].
  - cbn [world_state set_rewards_server set_servers].
    destruct (processReceivedReward_keeps
                (mkTimestampedReward (timestamp xml) values)
                (match Status me with
                 | ENDED | PLAYER_DIED => h
                 | ABNORMAL _ =>
                     push_error
                       (mkTimestampedString (timestamp xml)
                          ("Mission ended abnormally: " ++ HumanReadableStatus me))
                       h
                 end)) as [-> _].
    rewrite (proj2 (processReceivedReward_flags _ _)).
    destruct (Status me); split; reflexivity.
  - destruct (Status me); split; reflexivity.
  - destruct (Status me); split; reflexivity.
Qed.

(** X15. A mission from start to end.  On a host that is not running, a
    MissionInit that parses and names the command port marks the mission as
    running and begun and opens the command connection to the client, so a
    command whose send succeeds leaves no error entry.  A MissionEnded that
    parses then tears the host down: the mission is no longer running but
    has_mission_begun stays true, both messages are in the mission-control
    messages in arrival order, and from then on every sendCommand records the
    connection-not-open error and changes nothing else. *)
Theorem mission_lifecycle (init ended : TimestampedString) (h : AgentHost V)
    (rest1 rest2 : list string) (mi : MissionInitSpec) (me : MissionEnded V) :
  read_xml (text init) = inr ("MissionInit" :: rest1) ->
  MissionInitSpec_parse (text init) = inr mi ->
  getClientCommandsPort mi <> 0 ->
  read_xml (text ended) = inr ("MissionEnded" :: rest2) ->
  MissionEnded_parse (text ended) = inr me ->
  is_mission_running (world_state h) = false ->
  rewards_server h <> None ->
  let h1 := snd (onMissionControlMessage init h) in
  let h2 := snd (onMissionControlMessage ended h1) in
  let connection :=
    mkClientConnection (getClientAddress mi) (getClientCommandsPort mi) in
  (fst (onMissionControlMessage init h) = inr tt /\
   is_mission_running (world_state h1) = true /\
   has_mission_begun (world_state h1) = true /\
   commands_connection h1 = Some connection /\
   forall now command,
     connection_send connection command = None ->
     errors (world_state (sendCommand now command h1)) = errors (world_state h1)) /\
  (fst (onMissionControlMessage ended h1) = inr tt /\
   is_mission_running (world_state h2) = false /\
   has_mission_begun (world_state h2) = true /\
   is_torn_down h2 = true /\
   mission_control_messages (world_state h2)
   = (mission_control_messages (world_state h) ++ [init; ended])%list /\
   forall now command,
     sendCommand now command h2 = push_error (connection_not_open_error now) h2).
Proof.
  intros Hroot1 Hparse1 Hport Hroot2 Hparse2 Hidle Hsrv h1 h2 connection.
  assert (E1 : onMissionControlMessage init h
               = (inr tt, append_message init (mission_started mi h))).
  { exact (missionInit_taken_in init h rest1 mi Hroot1 Hidle Hparse1 Hport). }
  assert (Hh1 : h1 = append_message init (mission_started mi h))
    by (subst h1; now rewrite E1).
  destruct (rewards_server h) as [srv|] eqn:Hsrv'; [|contradiction].
  assert (Hsrv1 : rewards_server h1 = Some srv) by (rewrite Hh1; exact Hsrv').
  destruct (onMissionControlMessage_ended ended h1 rest2 me srv Hroot2 Hparse2
              Hsrv1) as (hm & E2 & Hbegun & Hmcm).
  assert (Hh2 : h2 = append_message ended (close hm))
    by (subst h2; now rewrite E2).
  split.
  - rewrite E1. split; [reflexivity|]. rewrite Hh1.
    split; [reflexivity|]. split; [reflexivity|]. split; [reflexivity|].
    intros now command Hsend. unfold sendCommand.
    cbn [commands_connection append_message mission_started set_world_state
         set_commands_connection].
    fold connection. rewrite Hsend.
    destruct (commands_stream _); reflexivity.
  - rewrite E2. split; [reflexivity|]. rewrite Hh2.
    split; [unfold append_message; cbn [world_state set_world_state
              is_mission_running set_mission_control_messages];
            apply close_not_running|].
    split.
    { unfold append_message. cbn [world_state set_world_state has_mission_begun
        set_mission_control_messages].
      rewrite close_world_state. cbn [set_is_mission_running set_flags
        has_mission_begun]. rewrite Hbegun, Hh1. reflexivity. }
    split; [rewrite append_message_torn_down; apply close_torn_down|].
    split.
    { unfold append_message at 1. cbn [world_state set_world_state
        mission_control_messages set_mission_control_messages].
      rewrite close_world_state. cbn [set_is_mission_running set_flags
        mission_control_messages]. rewrite Hmcm, Hh1.
      unfold append_message. cbn [world_state set_world_state
        mission_control_messages set_mission_control_messages mission_started
        set_commands_connection set_current_mission_init].
      cbn. now rewrite <- app_assoc. }
    intros now command. unfold sendCommand.
    assert (Hcc : commands_connection (append_message ended (close hm)) = None)
      by (unfold append_message; cbn [commands_connection set_world_state];
          apply close_commands_connection).
    now rewrite Hcc.
Qed.

(** X16. The two-argument startMission cannot start a mission of several
    agents.  With valid arguments and no mission running it asks the local
    client 127.0.0.1 once for a reservation (with an empty experiment id),
    sends that client a cancel request if it accepted, and fails with the
    not-enough-clients error; the world state is as before the call. *)
Theorem startMission_local_multi_agent (mission : MissionSpec)
    (mission_record : MissionRecord) (h : AgentHost V) :
  is_mission_running (world_state h) = false ->
  arguments_valid mission 0 = true ->
  1 < getNumberOfAgents mission ->
  let mi := MissionInitSpec_new mission EmptyString 0 in
  let asked :=
    mkExchange "127.0.0.1" default_client_port (reservation_request mi)
      (SendStringAndGetShortReply (network h) "127.0.0.1" default_client_port
         (reservation_request mi)) in
  let cancelled :=
    mkExchange "127.0.0.1" default_client_port cancel_request
      (SendStringAndGetShortReply (network h ++ [asked]) "127.0.0.1"
         default_client_port cancel_request) in
  let run := startMission_local mission mission_record h in
  fst run = inl (not_enough_clients_error (getNumberOfAgents mission)) /\
  world_state (snd run) = world_state h /\
  network (snd run)
  = (network h
     ++ asked :: (if reservation_accepted asked then [cancelled] else []))%list.
Proof.
  intros Hrun Hvalid Hmulti mi asked cancelled run. subst run.
  destruct (arguments_valid_checks mission 0 Hvalid) as (Hrole & Hw & Hh).
  unfold startMission_local, startMission.
  rewrite Hrole, Hw, Hh, bind_gets, Hrun.
  destruct (initializeOurServers_ok mission mission_record 0 EmptyString h)
    as (mi1 & mc & vs & rs & os & cs & Einit & Hid & _).
  rewrite (bind_eq _ _ _ _ _ Einit).
  set (h1 := mkAgentHost _ _ _ _ _ _ _ _ _ _ _ _ _ _ _ _) in *.
  assert (Hreq : reservation_request mi1 = reservation_request mi)
    by (unfold reservation_request; now rewrite Hid).
  pose proof (reserveClients_short
                (ClientPool_add (mkClientPool []) local_client)
                (getNumberOfAgents mission) h1 mi1 eq_refl) as Hres.
  cbv zeta in Hres. rewrite Hreq in Hres.
  change (network h1) with (network h) in Hres.
  cbn [ClientPool_add clients app probe_all local_client ip_address port]
    in Hres.
  fold asked in Hres. cbn [filter] in Hres.
  destruct (Z.gtb_spec (getNumberOfAgents mission) 1); [|lia].
  cbn [andb Z.eqb].
  fold local_client.
  destruct (reservation_accepted asked) eqn:Hacc.
  - cbn [map List.length probe_all ex_host ex_address ex_port ip_address port]
      in Hres.
    specialize (Hres ltac:(cbn; lia)). fold cancelled in Hres.
    erewrite bind_throws.
    2:{ erewrite bind_eq; [|exact Hres].
        cbn [clients List.length Z.of_nat].
        destruct (Z.eqb_spec 0 (getNumberOfAgents mission)); [lia|].
        reflexivity. }
    repeat split.
  - cbn [map List.length probe_all] in Hres.
    specialize (Hres ltac:(cbn; lia)).
    erewrite bind_throws.
    2:{ erewrite bind_eq; [|exact Hres].
        cbn [clients List.length Z.of_nat].
        destruct (Z.eqb_spec 0 (getNumberOfAgents mission)); [lia|].
        reflexivity. }
    repeat split.
Qed.

(** X17. The two-argument startMission on a single-agent mission, with valid
    arguments and no mission running.  Let the document be the mission-init
    document generated from the negotiation record that initializeOurServers
    leaves (created with an empty experiment id), made out to the local client
    127.0.0.1 at the default port.  If that document does not validate, the
    call throws the validation error of that document with nothing sent and
    the world state as before.  If it validates, the call makes exactly one
    exchange: the document is sent to the local client, with the reply the
    network gives.  If the reply is exactly MALMOOK the call returns, with the
    world state cleared and the negotiation record made out to the local
    client; with any other reply, or none, it throws the no-client error, the
    host is torn down and the world state is as before the call. *)
Theorem startMission_local_single_agent (mission : MissionSpec)
    (mission_record : MissionRecord) (h : AgentHost V) :
  is_mission_running (world_state h) = false ->
  arguments_valid mission 0 = true ->
  getNumberOfAgents mission = 1 ->
  let run := startMission_local mission mission_record h in
  exists mi,
    current_mission_init
      (snd (initializeOurServers mission mission_record 0 EmptyString h))
    = Some mi /\
    getExperimentID mi
    = getExperimentID (MissionInitSpec_new mission EmptyString 0) /\
    let document := document_for mi local_client in
    match MissionInitSpec_parse document with
    | inl e =>
        fst run = inl (validation_error e document) /\
        network (snd run) = network h /\
        world_state (snd run) = world_state h
    | inr _ =>
        let sent :=
          mkExchange "127.0.0.1" default_client_port (document ++ nl)
            (SendStringAndGetShortReply (network h) "127.0.0.1"
               default_client_port (document ++ nl)) in
        network (snd run) = (network h ++ [sent])%list /\
        if mission_accepted sent
        then fst run = inr tt /\
             world_state (snd run) = WorldState_clear (world_state h) /\
             current_mission_init (snd run)
             = Some (made_out_to "127.0.0.1" default_client_port mi)
        else fst run = inl no_client_error /\
             is_torn_down (snd run) = true /\
             world_state (snd run) = world_state h
    end.
Proof.
  intros Hrun Hvalid Hsingle run. subst run.
  destruct (arguments_valid_checks mission 0 Hvalid) as (Hrole & Hw & Hh).
  unfold startMission_local, startMission.
  rewrite Hrole, Hw, Hh, bind_gets, Hrun.
  destruct (initializeOurServers_ok mission mission_record 0 EmptyString h)
    as (mi1 & mc & vs & rs & os & cs & Einit & Hid & _).
  rewrite (bind_eq _ _ _ _ _ Einit).
  exists mi1. rewrite Einit. split; [reflexivity|]. split; [exact Hid|].
  set (h1 := mkAgentHost _ _ _ _ _ _ _ _ _ _ _ _ _ _ _ _) in *.
  rewrite Hsingle. cbn [Z.gtb Z.compare Pos.compare Pos.compare_cont andb].
  rewrite !bind_ret. unfold findClient.
  cbn [ClientPool_add clients app List.length seq].
  pose proof (findClient_loop_step
                (mkClientPool [local_client]) (Z.of_nat 1) 0 [] h1 mi1
                local_client eq_refl eq_refl) as Hstep.
  cbv zeta in Hstep. fold local_client.
  cbn [ip_address port local_client] in Hstep.
  fold (made_out_to "127.0.0.1" default_client_port mi1) in Hstep.
  unfold document_for. cbn [ip_address port local_client]. cbv zeta.
  set (mi2 := made_out_to "127.0.0.1" default_client_port mi1) in *.
  set (xml := getAsXML false mi2) in *.
  destruct (MissionInitSpec_parse xml) as [err|okmi].
  { erewrite bind_throws; [|apply bind_throws; exact Hstep].
    repeat split. }
  set (reply := SendStringAndGetShortReply (network h1) "127.0.0.1"
                  default_client_port (xml ++ nl)) in *.
  change (network h) with (network h1).
  fold reply.
  set (e := mkExchange "127.0.0.1" default_client_port (xml ++ nl) reply) in *.
  set (h2 := set_network (network h1 ++ [e])
               (set_current_mission_init (Some mi2) h1)) in *.
  assert (Hclosed : is_torn_down (close h2) = true /\
                    world_state (close h2) = world_state h).
  { split; [apply close_torn_down|]. rewrite close_world_state.
    change (world_state h2) with (world_state h).
    rewrite <- Hrun. apply set_is_mission_running_same. }
  unfold mission_accepted. change (ex_reply e) with reply.
  clearbody reply.
  destruct reply as [r|].
  - destruct (String.eqb r malmo_mission_accepted) eqn:Hacc.
    + erewrite bind_eq; [|erewrite bind_eq; [|exact Hstep]; reflexivity].
      rewrite bind_modify.
      rewrite (bind_deref _ _ _ _ mission_record) by reflexivity.
      repeat split; destruct (isRecording mission_record); reflexivity.
    + match goal with
      | |- context [fst (?c h1)] =>
          assert (E : c h1 = (inl no_client_error, close h2))
            by (apply bind_throws; erewrite bind_eq; [|exact Hstep];
                reflexivity);
          rewrite E
      end. cbn [fst snd].
      rewrite close_network. repeat split; apply Hclosed.
  - match goal with
    | |- context [fst (?c h1)] =>
        assert (E : c h1 = (inl no_client_error, close h2))
          by (apply bind_throws; erewrite bind_eq; [|exact Hstep];
              reflexivity);
        rewrite E
    end. cbn [fst snd].
    rewrite close_network. repeat split; apply Hclosed.
Qed.

(** ** Properties of the schema self-check *)

Lemma is_dot_eq c : is_dot c = true -> c = "."%char.
Proof. unfold is_dot. intro H. now apply Ascii.eqb_eq in H. Qed.

Lemma boost_split_nonempty s : boost_split is_dot s <> [].
Proof.
  destruct s as [|c rest]; cbn; [discriminate|].
  destruct (is_dot c); [discriminate|].
  destruct (boost_split is_dot rest); discriminate.
Qed.

Lemma boost_split_join s : join_dots (boost_split is_dot s) = s.
Proof.
  induction s as [|c rest IH]; [reflexivity|].
  cbn [boost_split]. destruct (is_dot c) eqn:Hc.
  - apply is_dot_eq in Hc. subst c.
    destruct (boost_split is_dot rest) as [|first others] eqn:E;
      [now apply boost_split_nonempty in E|].
    cbn [join_dots]. cbn [join_dots] in IH. now rewrite IH.
  - destruct (boost_split is_dot rest) as [|first others] eqn:E;
      [now apply boost_split_nonempty in E|].
    cbn [join_dots] in *. destruct others; cbn; now rewrite <- IH.
Qed.

Lemma boost_split_no_dot s :
  Forall (fun part => has_dot part = false) (boost_split is_dot s).
Proof.
  induction s as [|c rest IH]; [now repeat constructor|].
  cbn [boost_split]. destruct (is_dot c) eqn:Hc.
  - now constructor.
  - destruct (boost_split is_dot rest) as [|first others].
    + repeat constructor. cbn. now rewrite Hc.
    + inversion IH; subst. constructor; [|assumption].
      cbn. now rewrite Hc.
Qed.

Lemma boost_split_plain s : has_dot s = false -> boost_split is_dot s = [s].
Proof.
  induction s as [|c rest IH]; [reflexivity|]. cbn. intro H.
  apply orb_false_iff in H. destruct H as [Hc Hrest].
  now rewrite Hc, IH.
Qed.

Lemma boost_split_app part s :
  has_dot part = false ->
  boost_split is_dot (part ++ "." ++ s) = part :: boost_split is_dot s.
Proof.
  induction part as [|c rest IH]; [reflexivity|]. cbn [has_dot]. intro H.
  apply orb_false_iff in H. destruct H as [Hc Hrest].
  change (String c rest ++ "." ++ s) with (String c (rest ++ "." ++ s)).
  cbn [boost_split]. now rewrite Hc, IH.
Qed.

Lemma boost_split_of_join parts :
  parts <> [] ->
  Forall (fun part => has_dot part = false) parts ->
  boost_split is_dot (join_dots parts) = parts.
Proof.
  induction parts as [|part rest IH]; [congruence|]. intros _ H.
  inversion H as [|? ? Hpart Hrest]; subst.
  destruct rest as [|next rest'].
  - now apply boost_split_plain.
  - cbn [join_dots]. rewrite boost_split_app by exact Hpart.
    f_equal. apply IH; [discriminate | exact Hrest].
Qed.

Lemma check_schemas_none names targetVersion :
  check_schemas names targetVersion = None <->
  Forall (fun name => extractVersionNumber name = targetVersion) names.
Proof.
  induction names as [|name rest IH]; cbn [check_schemas].
  - split; [constructor | reflexivity].
  - destruct (String.eqb_spec (extractVersionNumber name) targetVersion)
      as [Heq|Hne]; cbn [negb].
    + rewrite IH. split; [now constructor | now inversion 1].
    + split; [discriminate | now inversion 1].
Qed.

Lemma testSchemasCompatible_none :
  testSchemasCompatible = None ->
  exists major minor patch,
    has_dot major = false /\ has_dot minor = false /\ has_dot patch = false /\
    MALMO_VERSION = major ++ "." ++ minor ++ "." ++ patch /\
    Forall (fun name => extractVersionNumber name = major ++ "." ++ minor)
      schemas.
Proof.
  unfold testSchemasCompatible. fold is_dot.
  pose proof (boost_split_join MALMO_VERSION) as Hjoin.
  pose proof (boost_split_no_dot MALMO_VERSION) as Hparts.
  destruct (boost_split is_dot MALMO_VERSION)
    as [|major [|minor [|patch [|extra others]]]]; try discriminate.
  intro Hcheck. exists major, minor, patch.
  pose proof (Forall_inv Hparts) as H1.
  pose proof (Forall_inv (Forall_inv_tail Hparts)) as H2.
  pose proof (Forall_inv (Forall_inv_tail (Forall_inv_tail Hparts))) as H3.
  cbv beta in H1, H2, H3.
  repeat split; try assumption.
  - symmetry. exact Hjoin.
  - now apply check_schemas_none.
Qed.

(** X18. testSchemasCompatible returns without throwing exactly when
    MALMO_VERSION is three parts separated by two dots, none of the parts
    holding a dot, and every one of the five schemas carries the version
    MAJOR.MINOR; the patch part is not compared. *)
Theorem testSchemasCompatible_passes_iff :
  testSchemasCompatible = None <->
  exists major minor patch,
    has_dot major = false /\ has_dot minor = false /\ has_dot patch = false /\
    MALMO_VERSION = major ++ "." ++ minor ++ "." ++ patch /\
    Forall (fun name => extractVersionNumber name = major ++ "." ++ minor)
      schemas.
Proof.
  split; [exact testSchemasCompatible_none|].
  intros (major & minor & patch & H1 & H2 & H3 & Hversion & Hall).
  unfold testSchemasCompatible. fold is_dot.
  assert (Hsplit : boost_split is_dot MALMO_VERSION = [major; minor; patch]).
  { rewrite Hversion.
    apply (boost_split_of_join [major; minor; patch]); [discriminate|].
    now repeat constructor. }
  rewrite Hsplit. now apply check_schemas_none.
Qed.

Lemma extractVersionNumber_loop_done lines xml version :
  is_empty version = false ->
  extractVersionNumber_loop lines xml version = version.
Proof. intro H. destruct lines; cbn; now rewrite H. Qed.

Lemma is_empty_true s : is_empty s = true -> s = EmptyString.
Proof. now destruct s. Qed.

Lemma extractVersionNumber_loop_first lines : forall xml,
  extractVersionNumber_loop lines xml EmptyString
  = first_nonempty
      (map (fun j => version_found
                       (fold_left (fun xml line => xml ++ trim line)
                          (firstn j lines) xml))
         (seq 1 (List.length lines))).
Proof.
  induction lines as [|line rest IH]; intro xml; [reflexivity|].
  cbn [extractVersionNumber_loop is_empty List.length seq map firstn fold_left
       first_nonempty].
  fold (version_found (xml ++ trim line)).
  rewrite <- seq_shift, map_map. cbn [firstn fold_left].
  destruct (is_empty (version_found (xml ++ trim line))) eqn:Hempty.
  - rewrite (is_empty_true _ Hempty). apply IH.
  - now apply extractVersionNumber_loop_done.
Qed.

Lemma first_nonempty_at (f : nat -> string) (v : string) : forall n k start,
  (start <= k < start + n)%nat ->
  (forall j, (start <= j < k)%nat -> f j = EmptyString) ->
  f k = v -> v <> EmptyString ->
  first_nonempty (map f (seq start n)) = v.
Proof.
  induction n as [|n IH]; intros k start Hk Hbefore Hat Hv; [lia|].
  cbn [seq map first_nonempty].
  destruct (Nat.eq_dec start k) as [->|Hne].
  - rewrite Hat. destruct v; [congruence | reflexivity].
  - rewrite (Hbefore start) by lia. cbn [is_empty].
    apply (IH k); [lia | | exact Hat | exact Hv].
    intros j Hj. apply Hbefore. lia.
Qed.

Lemma first_nonempty_none (f : nat -> string) : forall n start,
  (forall j, (start <= j < start + n)%nat -> f j = EmptyString) ->
  first_nonempty (map f (seq start n)) = EmptyString.
Proof.
  induction n as [|n IH]; intros start Hall; [reflexivity|].
  cbn [seq map first_nonempty]. rewrite (Hall start) by lia. cbn [is_empty].
  apply IH. intros j Hj. apply Hall. lia.
Qed.

(** X19. extractVersionNumber takes the version from the first line at which
    the text read so far (the trimmed lines, concatenated) gives a match with
    a group that is not empty: if that happens after [k] lines and at no
    earlier line, the result is that group, whatever the later lines hold. *)
Theorem extractVersionNumber_first_match (name : string) (k : nat) (v : string) :
  (1 <= k <= List.length (schema_file_lines name))%nat ->
  (forall j, (1 <= j < k)%nat ->
     version_found (text_read (firstn j (schema_file_lines name)))
     = EmptyString) ->
  version_found (text_read (firstn k (schema_file_lines name))) = v ->
  v <> EmptyString ->
  extractVersionNumber name = v.
Proof.
  intros Hk Hbefore Hat Hv. unfold extractVersionNumber.
  rewrite extractVersionNumber_loop_first.
  apply (first_nonempty_at
           (fun j => version_found
                       (text_read (firstn j (schema_file_lines name))))
           v _ k 1%nat); [lia | exact Hbefore | exact Hat | exact Hv].
Qed.

(** X20. A schema in which no version is found makes the self-check fail,
    whatever MALMO_VERSION is: if one of the five schemas gives no match with
    a non-empty group at any of its lines (an unreadable or empty file among
    them), testSchemasCompatible throws. *)
Theorem testSchemasCompatible_version_not_found (name : string) :
  In name schemas ->
  (forall j, (1 <= j <= List.length (schema_file_lines name))%nat ->
     version_found (text_read (firstn j (schema_file_lines name)))
     = EmptyString) ->
  testSchemasCompatible <> None.
Proof.
  intros Hin Hnone Hok.
  apply testSchemasCompatible_none in Hok.
  destruct Hok as (major & minor & patch & _ & _ & _ & _ & Hall).
  rewrite Forall_forall in Hall. specialize (Hall name Hin).
  unfold extractVersionNumber in Hall.
  rewrite extractVersionNumber_loop_first in Hall.
  rewrite (first_nonempty_none
             (fun j => version_found
                         (text_read (firstn j (schema_file_lines name)))))
    in Hall.
  - destruct major; discriminate.
  - intros j Hj. apply Hnone. lia.
Qed.

(** ** Properties of the command channel *)

Lemma sendCommand_step now command h :
  sendCommand now command h
  = set_files (files h ++ to_list (command_line h (now, command)))
      (set_world_state
         (set_errors (errors (world_state h)
                      ++ to_list (command_error h (now, command)))
            (world_state h)) h).
Proof.
  unfold sendCommand, command_line, command_error, push_error,
    connection_not_open_error.
  cbn [fst snd].
  destruct h as [[f vf rw ob mcm er c] vp rp op r d cmi mr mc vs rs os cs cc nw fl].
  cbn. destruct cc as [connection|]; cbn; [|now rewrite !app_nil_r].
  destruct (connection_send connection command); cbn;
    [now rewrite !app_nil_r|].
  destruct cs; cbn; now rewrite !app_nil_r.
Qed.

(** X21. Over any series of sendCommand calls, every command leaves at most
    one trace, in call order: an error entry stamped with the time of its
    call when the connection is not open or the send fails, otherwise a line
    "<iso time> <command>" in the command recording when that is open.  No
    command leaves both, with the recording open every command leaves one,
    and the calls change nothing else of the host object. *)
Theorem sendCommand_each_command_once (commands : list (ptime * string))
    (h : AgentHost V) :
  let new_errors := flat_map (fun c => to_list (command_error h c)) commands in
  let new_lines := flat_map (fun c => to_list (command_line h c)) commands in
  send_commands commands h
  = set_files (files h ++ new_lines)
      (set_world_state
         (set_errors (errors (world_state h) ++ new_errors) (world_state h)) h)
  /\
  (List.length new_errors + List.length new_lines <= List.length commands)%nat /\
  (commands_stream h <> None ->
   (List.length new_errors + List.length new_lines)%nat = List.length commands).
Proof.
  cbv zeta. split; [|split].
  - unfold send_commands. revert h.
    induction commands as [|[now command] rest IH]; intro h.
    + destruct h as [[f vf rw ob mcm er c] vp rp op r d cmi mr mc vs rs os cs
                       cc nw fl].
      cbn. now rewrite !app_nil_r.
    + cbn [fold_left flat_map fst snd]. rewrite IH, sendCommand_step.
      set (e := to_list (command_error h (now, command))).
      set (l := to_list (command_line h (now, command))).
      assert (Herr : forall c,
                command_error
                  (set_files (files h ++ l)
                     (set_world_state
                        (set_errors (errors (world_state h) ++ e)
                           (world_state h)) h)) c
                = command_error h c) by (intro; now destruct h).
      assert (Hline : forall c,
                command_line
                  (set_files (files h ++ l)
                     (set_world_state
                        (set_errors (errors (world_state h) ++ e)
                           (world_state h)) h)) c
                = command_line h c)
        by (intro; unfold command_line; rewrite Herr; now destruct h).
      rewrite (flat_map_ext _ _ (fun c => f_equal to_list (Herr c))),
        (flat_map_ext _ _ (fun c => f_equal to_list (Hline c))).
      destruct h as [[f vf rw ob mcm er c] vp rp op r d cmi mr mc vs rs os cs
                       cc nw fl].
      cbn. now rewrite <- !app_assoc.
  - induction commands as [|c rest IH]; [reflexivity|].
    cbn [flat_map List.length]. rewrite !length_app.
    unfold command_line at 1.
    destruct (command_error h c); cbn [to_list List.length];
      [|destruct (commands_stream h)]; cbn [to_list List.length]; lia.
  - intro Hopen.
    induction commands as [|c rest IH]; [reflexivity|].
    cbn [flat_map List.length]. rewrite !length_app.
    unfold command_line at 1.
    destruct (command_error h c); cbn [to_list List.length];
      [|destruct (commands_stream h); [|contradiction]];
      cbn [to_list List.length]; lia.
Qed.

End Methods.

(** ** The theorems at the concrete scenario *)

Local Abbreviation startMission_in_scenario :=
  (startMission Z Scenario.SendStringAndGetShortReply Scenario.MALMO_VERSION
     Scenario.MissionInitSpec_new Scenario.MissionInitSpec_parse
     Scenario.getAsXML Scenario.sscanf_d Scenario.bound_port).

Local Abbreviation reserveClients_in_scenario :=
  (reserveClients Z Scenario.SendStringAndGetShortReply Scenario.MALMO_VERSION).

Local Abbreviation findClient_in_scenario :=
  (findClient Z Scenario.SendStringAndGetShortReply
     Scenario.MissionInitSpec_parse Scenario.getAsXML).

Local Abbreviation onMissionControlMessage_in_scenario :=
  (onMissionControlMessage Z Scenario.values_add Scenario.getAsSimpleString
     Scenario.MissionInitSpec_parse Scenario.MissionEnded_parse
     Scenario.read_xml).

Local Abbreviation onReward_in_scenario :=
  (onReward Z Scenario.values_add Scenario.createFromSimpleString).

Local Abbreviation processReceivedReward_in_scenario :=
  (processReceivedReward Z Scenario.values_add).

Lemma sum_rewards_three_witness :
  rewards (world_state
             (deliver Z processReceivedReward_in_scenario
                [mkTimestampedReward 1 10; mkTimestampedReward 2 20;
                 mkTimestampedReward 3 30] AgentHost_new))
  = [mkTimestampedReward 3 60] /\
  rewards (world_state
             (deliver Z onReward_in_scenario
                [mkTimestampedString 1 "10"; mkTimestampedString 2 "20";
                 mkTimestampedString 3 "30"] AgentHost_new))
  = [mkTimestampedReward 3 60].
Proof.
  destruct (sum_rewards_three Z Scenario.values_add
              Scenario.createFromSimpleString AgentHost_new
              (mkTimestampedReward 1 10) (mkTimestampedReward 2 20)
              (mkTimestampedReward 3 30)
              ltac:(unfold Scenario.values_add; intros; lia)
              eq_refl) as [_ Hdrained].
  destruct (Hdrained eq_refl) as [Hdirect Hparsed].
  split; [exact Hdirect|].
  exact (Hparsed (mkTimestampedString 1 "10") (mkTimestampedString 2 "20")
           (mkTimestampedString 3 "30") eq_refl eq_refl eq_refl eq_refl).
Defined.

Lemma latest_only_keeps_last_witness :
  let frames := [Scenario.frame 1; Scenario.frame 2] in
  let texts := [mkTimestampedString 1 "10"; mkTimestampedString 2 "20"] in
  let h := Scenario.latest_only in
  (video_frames (world_state (deliver Z (onVideo Z) (frames ++ [Scenario.frame 3]) h))
   = [Scenario.frame 3] /\
   number_of_video_frames_since_last_state
     (world_state (deliver Z (onVideo Z) (frames ++ [Scenario.frame 3]) h)) = 3) /\
  (observations
     (world_state (deliver Z (onObservation Z)
                     (texts ++ [mkTimestampedString 3 "30"]) h))
   = [mkTimestampedString 3 "30"] /\
   number_of_observations_since_last_state
     (world_state (deliver Z (onObservation Z)
                     (texts ++ [mkTimestampedString 3 "30"]) h)) = 3) /\
  (rewards
     (world_state (deliver Z onReward_in_scenario
                     (texts ++ [mkTimestampedString 3 "30"]) h))
   = [mkTimestampedReward 3 30] /\
   number_of_rewards_since_last_state
     (world_state (deliver Z onReward_in_scenario
                     (texts ++ [mkTimestampedString 3 "30"]) h)) = 3).
Proof.
  intros frames texts h.
  destruct (latest_only_keeps_last Z Scenario.values_add
              Scenario.createFromSimpleString) as (Hvideo & Hobs & Hrewards).
  destruct (Hvideo h frames (Scenario.frame 3) eq_refl) as (Hv1 & _ & Hv2).
  destruct (Hobs h texts (mkTimestampedString 3 "30") eq_refl)
    as (Ho1 & _ & Ho2).
  assert (Hparse : Forall (parses Z Scenario.createFromSimpleString) texts)
    by (repeat constructor; eexists; reflexivity).
  destruct (Hrewards h texts (mkTimestampedString 3 "30") 30 eq_refl Hparse
              eq_refl) as (Hr1 & _ & Hr2).
  split; [split; [exact Hv1 | exact (Hv2 eq_refl)]|].
  split; [split; [exact Ho1 | exact (Ho2 eq_refl)]|].
  split; [exact Hr1 | exact (Hr2 eq_refl)].
Defined.

Lemma startMission_while_running_witness :
  is_mission_running (world_state Scenario.running) = true /\
  startMission_in_scenario Scenario.single_agent
    (mkClientPool [Scenario.host "ok"]) Scenario.no_recording 0 "exp"
    Scenario.running
  = (inl (runtime_error "A mission is already running."), Scenario.running).
Proof.
  split; [reflexivity|].
  destruct (startMission_while_running Z Scenario.SendStringAndGetShortReply
              Scenario.MALMO_VERSION Scenario.MissionInitSpec_new
              Scenario.MissionInitSpec_parse Scenario.getAsXML Scenario.sscanf_d
              Scenario.bound_port Scenario.single_agent
              (mkClientPool [Scenario.host "ok"]) Scenario.no_recording 0 "exp"
              Scenario.running eq_refl) as (what & Hrun & Hwhat & _).
  rewrite Hrun, (Hwhat eq_refl). reflexivity.
Defined.

(** C4 as worded fails: with a mission running, a call whose role is out of
    range fails with the role error, not with "A mission is already
    running.". *)
Lemma startMission_while_running_role_error :
  is_mission_running (world_state Scenario.running) = true /\
  startMission_in_scenario Scenario.single_agent
    (mkClientPool [Scenario.host "ok"]) Scenario.no_recording 1 "exp"
    Scenario.running
  = (inl (runtime_error
            "Role 1 is invalid for this single-agent mission - must be 0."),
     Scenario.running) /\
  fst (startMission_in_scenario Scenario.single_agent
         (mkClientPool [Scenario.host "ok"]) Scenario.no_recording 1 "exp"
         Scenario.running)
  <> inl (runtime_error "A mission is already running.").
Proof.
  split; [reflexivity|]. split; [reflexivity|]. vm_compute. discriminate.
Qed.

Lemma onReward_parse_failure_witness :
  let m := mkTimestampedString 5 "ten" in
  let w := world_state Scenario.running in
  let w' := world_state (onReward_in_scenario m Scenario.running) in
  errors w'
  = [mkTimestampedString 5 "Error parsing Reward message: not a number : ten"] /\
  rewards w' = rewards w /\
  number_of_rewards_since_last_state w' = number_of_rewards_since_last_state w /\
  set_errors (errors w) w' = w /\
  set_world_state w (onReward_in_scenario m Scenario.running) = Scenario.running.
Proof.
  exact (onReward_parse_failure Z Scenario.values_add
           Scenario.createFromSimpleString (mkTimestampedString 5 "ten")
           Scenario.running "not a number" eq_refl).
Defined.

Lemma findClient_probe_order_witness :
  let client_pool :=
    mkClientPool [Scenario.host "a"; Scenario.host "b"; Scenario.host "c";
                  Scenario.host "okay"; Scenario.host "down"] in
  let h := Scenario.searching in
  let run := findClient_in_scenario client_pool h in
  (current_mission_init h = Some Scenario.negotiated /\ 0 <= current_role h) /\
  (fst run = inl no_client_error /\
   map ex_address (network (snd run)) = ["okay"; "down"; "a"; "b"; "c"] /\
   map ex_reply (network (snd run))
   = [Some "MALMOOKAY"; None; Some "MALMOBUSY"; Some "MALMOBUSY";
      Some "MALMOBUSY"]) /\
  probe_indices 3 5 = [3; 4; 0; 1; 2]%nat /\
  exists evs,
    network (snd run) = (network h ++ evs)%list /\
    map Some (map ex_host evs)
    = map (nth_error (clients client_pool))
        (firstn (List.length evs) (probe_indices (current_role h) 5)) /\
    Forall (validated Scenario.MissionInitSpec_parse Scenario.getAsXML
              Scenario.negotiated) evs /\
    answered Scenario.SendStringAndGetShortReply (network h) evs /\
    match fst run with
    | inr tt =>
        exists evs0 e, evs = (evs0 ++ [e])%list /\
          ex_reply e = Some "MALMOOK" /\ Forall not_accepted evs0
    | inl err =>
        Forall not_accepted evs /\
        ((err = no_client_error /\ List.length evs = 5%nat /\
          is_mission_running (world_state (snd run)) = false)
         \/ (internal_error err /\ (List.length evs < 5)%nat /\
             exists k item e,
               nth_error (probe_indices (current_role h) 5) (List.length evs)
               = Some k /\
               nth_error (clients client_pool) k = Some item /\
               Scenario.MissionInitSpec_parse
                 (document_for Scenario.getAsXML Scenario.negotiated item)
               = inl e /\
               err = validation_error e
                       (document_for Scenario.getAsXML Scenario.negotiated
                          item)))
    end.
Proof.
  intros client_pool h run.
  split; [split; [reflexivity | vm_compute; discriminate]|].
  split; [repeat split; vm_compute; reflexivity|].
  exact (findClient_probe_order Z Scenario.SendStringAndGetShortReply
           Scenario.MissionInitSpec_parse Scenario.getAsXML client_pool h
           Scenario.negotiated eq_refl ltac:(vm_compute; discriminate)).
Defined.

Lemma reserveClients_not_enough_witness :
  let client_pool :=
    mkClientPool [Scenario.host "ok"; Scenario.host "busy"; Scenario.host "okay"] in
  let asked (id : string) :=
    let request := "MALMO_REQUEST_CLIENT:0.21.0:20000:" ++ id ++ nl in
    [mkExchange "ok" 10000 request (Some "MALMOOK");
     mkExchange "busy" 10000 request (Some "MALMOBUSY");
     mkExchange "okay" 10000 request (Some "MALMOOKAY")] in
  let cancelled :=
    [mkExchange "ok" 10000 cancel_request (Some "MALMOOK");
     mkExchange "okay" 10000 cancel_request (Some "MALMOOKAY")] in
  reserveClients_in_scenario client_pool 5 Scenario.searching
  = (inr (mkClientPool []),
     set_network (asked "exp" ++ cancelled) Scenario.searching) /\
  exists h',
    startMission_in_scenario Scenario.five_agents client_pool
      Scenario.no_recording 0 "run" AgentHost_new
    = (inl (not_enough_clients_error 5), h') /\
    network h' = (asked "run" ++ cancelled)%list.
Proof.
  intros client_pool asked cancelled.
  destruct (reserveClients_not_enough Z Scenario.SendStringAndGetShortReply
              Scenario.MALMO_VERSION Scenario.MissionInitSpec_new
              Scenario.MissionInitSpec_parse Scenario.getAsXML Scenario.sscanf_d
              Scenario.bound_port) as [Hreserve Hstart].
  split.
  - exact (proj1 (Hreserve client_pool 5 Scenario.searching Scenario.negotiated
                    eq_refl ltac:(vm_compute; reflexivity))).
  - exact (Hstart Scenario.five_agents client_pool Scenario.no_recording "run"
             AgentHost_new eq_refl eq_refl ltac:(vm_compute; reflexivity)
             ltac:(vm_compute; reflexivity)).
Defined.

Lemma onMissionControlMessage_appends_witness :
  let ended := mkTimestampedString 9
                 "<MissionEnded><Status>ENDED</Status></MissionEnded>" in
  let init := mkTimestampedString 4 "<MissionInit></MissionInit>" in
  (rewards_server Scenario.running <> None /\
   fst (onMissionControlMessage_in_scenario ended Scenario.running) = inr tt /\
   mission_control_messages
     (world_state (snd (onMissionControlMessage_in_scenario ended Scenario.running)))
   = [ended]) /\
  (getClientCommandsPort Scenario.negotiated <> 0 /\
   fst (onMissionControlMessage_in_scenario init AgentHost_new) = inr tt /\
   mission_control_messages
     (world_state (snd (onMissionControlMessage_in_scenario init AgentHost_new)))
   = [init]).
Proof.
  intros ended init. split.
  - split; [discriminate|].
    exact (onMissionControlMessage_appends Z Scenario.values_add
             Scenario.getAsSimpleString Scenario.MissionInitSpec_parse
             Scenario.MissionEnded_parse Scenario.read_xml ended Scenario.running
             ltac:(discriminate)).
  - split; [discriminate|].
    exact (onMissionControlMessage_appends Z Scenario.values_add
             Scenario.getAsSimpleString Scenario.MissionInitSpec_parse
             Scenario.MissionEnded_parse Scenario.read_xml init AgentHost_new
             ltac:(discriminate)).
Defined.

(** C7 as worded fails: a message that is not XML is classified as an error,
    one error entry is recorded, and the message is not appended to the
    mission-control messages. *)
Lemma onMissionControlMessage_error_not_appended :
  let xml := mkTimestampedString 7 "garbage" in
  let run := onMissionControlMessage_in_scenario xml AgentHost_new in
  fst run = inr tt /\
  errors (world_state (snd run))
  = [mkTimestampedString 7
       ("Error parsing mission control message as XML: expected <:" ++ nl
        ++ "garbage..." ++ nl)] /\
  mission_control_messages (world_state (snd run)) = [] /\
  ~ In xml (mission_control_messages (world_state (snd run))).
Proof.
  cbv zeta. split; [reflexivity|]. split; [reflexivity|].
  split; [reflexivity|]. vm_compute. intros [].
Qed.

Lemma missionEnded_teardown_witness :
  let xml := mkTimestampedString 9
               "<MissionEnded><Status>MOD_CRASHED</Status></MissionEnded>" in
  let run := onMissionControlMessage_in_scenario xml Scenario.running in
  (Scenario.read_xml (text xml) = inr ["MissionEnded"] /\
   rewards_server Scenario.running <> None) /\
  fst run = inr tt /\
  is_torn_down Z (snd run) = true /\
  is_mission_running (world_state (snd run)) = false /\
  errors (world_state (snd run))
  = [mkTimestampedString 9 "Mission ended abnormally: Mod crashed"].
Proof.
  intros xml run. split; [split; [reflexivity | discriminate]|].
  exact (missionEnded_teardown Z Scenario.values_add Scenario.getAsSimpleString
           Scenario.MissionInitSpec_parse Scenario.MissionEnded_parse
           Scenario.read_xml xml Scenario.running [] eq_refl
           ltac:(discriminate)).
Defined.

(** C8 as worded fails: a MissionEnded document that does not parse leaves
    one error entry and no teardown: the mission is still marked running and
    the command connection is still there. *)
Lemma missionEnded_parse_failure_no_teardown :
  let xml := mkTimestampedString 9 "<MissionEnded/>" in
  let run := onMissionControlMessage_in_scenario xml Scenario.running in
  Scenario.read_xml (text xml) = inr ["MissionEnded"] /\
  fst run = inr tt /\
  List.length (errors (world_state (snd run))) = 1%nat /\
  is_mission_running (world_state (snd run)) = true /\
  commands_connection (snd run) = commands_connection Scenario.running /\
  is_torn_down Z (snd run) = false.
Proof.
  cbv zeta. repeat split; reflexivity.
Qed.

(** C9. A multi-agent mission started as role 1 with recording requested,
    against a pool whose host answers the find-server request with a
    server-found reply that has no separator, or one with an unreadable port:
    startMission fails with the malformed-reply error while the listeners it
    has just set up are still recording and the command stream is still open.
    When no host of the pool knows the server, the same function tears down
    before it fails. *)
Theorem findServer_malformed_reply_no_teardown :
  let start (name : string) :=
    startMission_in_scenario Scenario.two_agents
      (mkClientPool [Scenario.host name]) Scenario.recording 1 "exp"
      AgentHost_new in
  (fst (start "nocolon")
   = inl (runtime_error "Received malformed reply: MALMOSlocalhost") /\
   is_torn_down Z (snd (start "nocolon")) = false /\
   commands_stream (snd (start "nocolon")) = Some "commands.txt" /\
   option_map ss_writer (rewards_server (snd (start "nocolon")))
   = Some (Some "rewards.txt")) /\
  (fst (start "badport")
   = inl (runtime_error "Received malformed reply: MALMOSlocalhost:port") /\
   is_torn_down Z (snd (start "badport")) = false) /\
  (fst (start "busy")
   = inl (runtime_error
            "Failed to find the server for this mission - you must start the agent that has role 0 first.") /\
   is_torn_down Z (snd (start "busy")) = true).
Proof.
  cbv zeta. repeat split; vm_compute; reflexivity.
Qed.

(** Role 3 against five hosts: the search starts at the fourth host and
    wraps around; a reply that only begins with the token does not stop it,
    the token itself does. *)
Example findClient_five_hosts_role_three :
  let rejecting :=
    mkClientPool [Scenario.host "a"; Scenario.host "b"; Scenario.host "c";
                  Scenario.host "okay"; Scenario.host "down"] in
  let accepting :=
    mkClientPool [Scenario.host "ok"; Scenario.host "b"; Scenario.host "c";
                  Scenario.host "okay"; Scenario.host "down"] in
  (fst (findClient_in_scenario rejecting Scenario.searching) = inl no_client_error /\
   map ex_address (network (snd (findClient_in_scenario rejecting Scenario.searching)))
   = ["okay"; "down"; "a"; "b"; "c"]) /\
  (fst (findClient_in_scenario accepting Scenario.searching) = inr tt /\
   map ex_address (network (snd (findClient_in_scenario accepting Scenario.searching)))
   = ["okay"; "down"; "ok"]).
Proof.
  cbv zeta. repeat split; vm_compute; reflexivity.
Qed.

(** A document that does not validate stops the search where it stands: the
    host before it has been asked, the host after it is never contacted, and
    the error is the validation error of that document. *)
Example findClient_document_rejected :
  let client_pool :=
    mkClientPool [Scenario.host "busy"; Scenario.host "broken";
                  Scenario.host "ok"] in
  let run :=
    findClient Z Scenario.SendStringAndGetShortReply
      Scenario.MissionInitSpec_parse Scenario.getAsXML_broken client_pool
      (set_current_role 0 Scenario.searching) in
  fst run
  = inl (validation_error Scenario.schema_error "<ClientAddress>broken") /\
  map ex_address (network (snd run)) = ["busy"].
Proof.
  cbv zeta. split; vm_compute; reflexivity.
Qed.

(** ** The further properties at the concrete scenario *)

Local Abbreviation findServer_in_scenario :=
  (findServer Z Scenario.server_known Scenario.sscanf_d).

Local Abbreviation startMission_local_in_scenario :=
  (startMission_local Z Scenario.SendStringAndGetShortReply
     Scenario.MALMO_VERSION Scenario.MissionInitSpec_new
     Scenario.MissionInitSpec_parse Scenario.getAsXML Scenario.sscanf_d
     Scenario.bound_port Scenario.default_client_port).

Local Abbreviation sendCommand_in_scenario :=
  (sendCommand Z Scenario.connection_send Scenario.to_iso_string).

Lemma keep_all_retains_all_witness :
  let h := Scenario.keep_all in
  (video_policy h = KEEP_ALL_FRAMES /\ rewards_policy h = KEEP_ALL_REWARDS) /\
  video_frames
    (world_state (deliver Z (onVideo Z) [Scenario.frame 1; Scenario.frame 2] h))
  = [Scenario.frame 1; Scenario.frame 2] /\
  rewards
    (world_state
       (deliver Z onReward_in_scenario
          [mkTimestampedString 1 "10"; mkTimestampedString 2 "ten";
           mkTimestampedString 3 "30"] h))
  = [mkTimestampedReward 1 10; mkTimestampedReward 3 30].
Proof.
  intro h.
  destruct (keep_all_retains_all Z Scenario.values_add
              Scenario.createFromSimpleString) as (Hvideo & _ & Hrewards).
  split; [split; reflexivity|]. split.
  - exact (proj1 (Hvideo [Scenario.frame 1; Scenario.frame 2] h eq_refl)).
  - exact (proj1 (Hrewards [mkTimestampedString 1 "10";
                            mkTimestampedString 2 "ten";
                            mkTimestampedString 3 "30"] h eq_refl)).
Defined.

Lemma sum_rewards_many_witness :
  let h := deliver Z processReceivedReward_in_scenario
             [mkTimestampedReward 1 10; mkTimestampedReward 2 20;
              mkTimestampedReward 3 30; mkTimestampedReward 4 40]
             AgentHost_new in
  rewards (world_state h) = [mkTimestampedReward 4 100] /\
  number_of_rewards_since_last_state (world_state h) = 4.
Proof.
  exact (sum_rewards_many Z Scenario.values_add AgentHost_new
           (mkTimestampedReward 1 10)
           [mkTimestampedReward 2 20; mkTimestampedReward 3 30;
            mkTimestampedReward 4 40]
           ltac:(unfold Scenario.values_add; intros; lia) eq_refl eq_refl).
Defined.

Lemma drain_collects_deliveries_witness :
  let ds := [VideoFrame (Scenario.frame 1);
             RewardMessage (mkTimestampedString 2 "5");
             Observation (mkTimestampedString 3 "at the door");
             RewardMessage (mkTimestampedString 4 "five");
             VideoFrame (Scenario.frame 5)] in
  let drained := snd (getWorldState Z Scenario.keep_all) in
  let snapshot :=
    fst (getWorldState Z
           (deliver Z (handle Z Scenario.values_add
                         Scenario.createFromSimpleString) ds drained)) in
  video_frames snapshot = [Scenario.frame 1; Scenario.frame 5] /\
  observations snapshot = [mkTimestampedString 3 "at the door"] /\
  rewards snapshot = [mkTimestampedReward 2 5] /\
  number_of_video_frames_since_last_state snapshot = 2 /\
  number_of_rewards_since_last_state snapshot = 1.
Proof.
  intros ds drained snapshot.
  destruct (drain_collects_deliveries Z Scenario.values_add
              Scenario.createFromSimpleString Scenario.keep_all ds
              eq_refl eq_refl eq_refl)
    as (Hv & Ho & Hr & Hnv & _ & Hnr & _).
  split; [exact Hv|]. split; [exact Ho|]. split; [exact Hr|].
  split; [exact Hnv | exact Hnr].
Defined.

Lemma listenForVideo_geometry_witness :
  current_mission_record Scenario.running = Some Scenario.no_recording /\
  exists s,
    listenForVideo Z Scenario.bound_port 0 320 240 3 Scenario.running
    = (inr tt, set_video_server (Some s) Scenario.running) /\
    vs_getWidth s = 320 /\ vs_getHeight s = 240 /\ vs_getChannels s = 3 /\
    vs_recording s = true.
Proof.
  split; [reflexivity|].
  destruct (listenForVideo_geometry Z Scenario.bound_port 0 320 240 3
              Scenario.running Scenario.no_recording eq_refl)
    as (s & Hrun & (Hw & Hh & Hc & Hrec) & _).
  exists s. split; [exact Hrun|]. split; [exact Hw|]. split; [exact Hh|].
  split; [exact Hc | exact Hrec].
Defined.

Lemma findServer_first_match_witness :
  let client_pool :=
    mkClientPool [Scenario.host "down"; Scenario.host "busy";
                  Scenario.host "server"; Scenario.host "other"] in
  let run := findServer_in_scenario client_pool Scenario.searching in
  current_mission_init Scenario.searching = Some Scenario.negotiated /\
  fst run = inr true /\
  map ex_address (network (snd run)) = ["down"; "busy"; "server"] /\
  option_map getMinecraftServerInformation (current_mission_init (snd run))
  = Some (Some ("localhost", 25565)).
Proof.
  intros client_pool run. split; [reflexivity|].
  destruct (findServer_first_match Z Scenario.server_known Scenario.sscanf_d
              client_pool Scenario.searching Scenario.negotiated eq_refl)
    as [_ Hfound].
  pose proof (Hfound
                [mkExchange "down" 10000 ("MALMO_FIND_SERVERexp" ++ nl) None;
                 mkExchange "busy" 10000 ("MALMO_FIND_SERVERexp" ++ nl)
                   (Some "MALMOBUSY")]
                (mkExchange "server" 10000 ("MALMO_FIND_SERVERexp" ++ nl)
                   (Some "MALMOSlocalhost:25565"))
                [mkExchange "other" 10000 ("MALMO_FIND_SERVERexp" ++ nl)
                   (Some "MALMOBUSY")]
                "MALMOSlocalhost:25565" eq_refl
                ltac:(repeat constructor) eq_refl eq_refl) as Hrun.
  subst run. rewrite Hrun. repeat split.
Defined.

Lemma findServer_decodes_witness :
  let client_pool :=
    mkClientPool [Scenario.host "busy"; Scenario.host "server"] in
  let run := findServer_in_scenario client_pool Scenario.searching in
  (index 0 ":" "localhost" = None /\ Scenario.sscanf_d "25565" = Some 25565) /\
  fst run = inr true /\
  option_map getMinecraftServerInformation (current_mission_init (snd run))
  = Some (Some ("localhost", 25565)) /\
  map ex_address (network (snd run)) = ["busy"; "server"].
Proof.
  intros client_pool run. split; [split; reflexivity|].
  destruct (findServer_decodes Z Scenario.server_known Scenario.sscanf_d
              client_pool Scenario.searching Scenario.negotiated
              [mkExchange "busy" 10000 ("MALMO_FIND_SERVERexp" ++ nl)
                 (Some "MALMOBUSY")]
              []
              (mkExchange "server" 10000 ("MALMO_FIND_SERVERexp" ++ nl)
                 (Some "MALMOSlocalhost:25565"))
              "localhost" "25565" 25565 eq_refl eq_refl
              ltac:(repeat constructor) eq_refl eq_refl eq_refl)
    as (Hok & Hinfo & Hnet).
  split; [exact Hok|]. split; [exact Hinfo|].
  subst run. rewrite Hnet. reflexivity.
Defined.

Lemma reserveClients_enough_witness :
  let client_pool :=
    mkClientPool [Scenario.host "ok"; Scenario.host "busy";
                  Scenario.host "okay"; Scenario.host "ok"] in
  let run := reserveClients_in_scenario client_pool 2 Scenario.searching in
  fst run = inr (mkClientPool [Scenario.host "ok"; Scenario.host "okay"]) /\
  map ex_address (network (snd run)) = ["ok"; "busy"; "okay"].
Proof.
  intros client_pool run.
  pose (request := "MALMO_REQUEST_CLIENT:0.21.0:20000:exp" ++ nl).
  destruct (reserveClients_enough Z Scenario.SendStringAndGetShortReply
              Scenario.MALMO_VERSION client_pool 2 Scenario.searching
              Scenario.negotiated
              [mkExchange "ok" 10000 request (Some "MALMOOK");
               mkExchange "busy" 10000 request (Some "MALMOBUSY")]
              [mkExchange "ok" 10000 request (Some "MALMOOK")]
              (mkExchange "okay" 10000 request (Some "MALMOOKAY"))
              eq_refl eq_refl eq_refl eq_refl) as (Hrun & _ & _).
  subst run. rewrite Hrun. split; reflexivity.
Defined.

Lemma findClient_addresses_each_host_witness :
  let client_pool :=
    mkClientPool [Scenario.host "busy"; Scenario.host "ok"] in
  let run := findClient_in_scenario client_pool
               (set_current_role 0 Scenario.searching) in
  current_mission_init (set_current_role 0 Scenario.searching)
  = Some Scenario.negotiated /\
  exists evs,
    network (snd run) = evs /\
    Forall (addressed Scenario.getAsXML Scenario.negotiated) evs /\
    (fst run = inr tt ->
     exists evs0 e,
       evs = (evs0 ++ [e])%list /\
       current_mission_init (snd run)
       = Some (made_out_to (ex_address e) (ex_port e) Scenario.negotiated)).
Proof.
  intros client_pool run. split; [reflexivity|].
  exact (findClient_addresses_each_host Z Scenario.SendStringAndGetShortReply
           Scenario.MissionInitSpec_parse Scenario.getAsXML client_pool
           (set_current_role 0 Scenario.searching) Scenario.negotiated eq_refl).
Defined.

Lemma missionInit_starts_mission_witness :
  let xml := mkTimestampedString 4 "<MissionInit></MissionInit>" in
  let run := onMissionControlMessage_in_scenario xml Scenario.waiting in
  (Scenario.read_xml (text xml) = inr ["MissionInit"] /\
   is_mission_running (world_state Scenario.waiting) = false) /\
  fst run = inr tt /\
  is_mission_running (world_state (snd run)) = true /\
  has_mission_begun (world_state (snd run)) = true /\
  commands_connection (snd run) = Some (mkClientConnection "127.0.0.1" 10011) /\
  mission_control_messages (world_state (snd run)) = [xml].
Proof.
  intros xml run. split; [split; reflexivity|].
  pose proof (missionInit_starts_mission Z Scenario.values_add
                Scenario.getAsSimpleString Scenario.MissionInitSpec_parse
                Scenario.MissionEnded_parse Scenario.read_xml xml
                Scenario.waiting [] Scenario.negotiated eq_refl eq_refl eq_refl)
    as Hrun.
  subst run. rewrite Hrun. repeat split.
Defined.

Lemma missionInit_while_running_rejected_witness :
  let xml := mkTimestampedString 4 "<MissionInit></MissionInit>" in
  let run := onMissionControlMessage_in_scenario xml Scenario.running in
  (Scenario.read_xml (text xml) = inr ["MissionInit"] /\
   is_mission_running (world_state Scenario.running) = true) /\
  fst run = inr tt /\
  List.length (errors (world_state (snd run))) = 1%nat /\
  mission_control_messages (world_state (snd run)) = [] /\
  current_mission_init (snd run) = current_mission_init Scenario.running.
Proof.
  intros xml run. split; [split; reflexivity|].
  pose proof (missionInit_while_running_rejected Z Scenario.values_add
                Scenario.getAsSimpleString Scenario.MissionInitSpec_parse
                Scenario.MissionEnded_parse Scenario.read_xml xml
                Scenario.running [] eq_refl eq_refl) as Hrun.
  subst run. rewrite Hrun. repeat split.
Defined.

Lemma missionEnded_final_reward_witness :
  let xml := mkTimestampedString 9 "<MissionEnded></MissionEnded>" in
  let handler :=
    onMissionControlMessage Z Scenario.values_add Scenario.getAsSimpleString
      Scenario.MissionInitSpec_parse Scenario.MissionEnded_parse_with_reward
      Scenario.read_xml in
  let earlier := processReceivedReward_in_scenario (mkTimestampedReward 3 10)
                   Scenario.running in
  Scenario.read_xml (text xml) = inr ["MissionEnded"] /\
  fst (handler xml earlier) = inr tt /\
  rewards (world_state (snd (handler xml earlier))) = [mkTimestampedReward 9 15] /\
  number_of_rewards_since_last_state (world_state (snd (handler xml earlier))) = 2 /\
  rewards (world_state (snd (handler xml Scenario.waiting))) = [].
Proof.
  intros xml handler earlier. split; [reflexivity|].
  destruct (missionEnded_final_reward Z Scenario.values_add
              Scenario.getAsSimpleString Scenario.MissionInitSpec_parse
              Scenario.MissionEnded_parse_with_reward Scenario.read_xml xml
              earlier [] (mkMissionEnded ENDED "Mission ended normally" (Some 5))
              5 (mkStringServer 10002 None []) eq_refl eq_refl eq_refl eq_refl)
    as (Hok & Hrewards & Hcount & _).
  destruct (missionEnded_final_reward Z Scenario.values_add
              Scenario.getAsSimpleString Scenario.MissionInitSpec_parse
              Scenario.MissionEnded_parse_with_reward Scenario.read_xml xml
              Scenario.waiting []
              (mkMissionEnded ENDED "Mission ended normally" (Some 5))
              5 (mkStringServer 10002 (Some "rewards.txt") []) eq_refl eq_refl
              eq_refl eq_refl)
    as (_ & Hidle & _).
  split; [exact Hok|]. split; [exact Hrewards|].
  split; [exact Hcount | exact Hidle].
Defined.

Lemma mission_lifecycle_witness :
  let init := mkTimestampedString 4 "<MissionInit></MissionInit>" in
  let ended := mkTimestampedString 9
                 "<MissionEnded><Status>ENDED</Status></MissionEnded>" in
  let h1 := snd (onMissionControlMessage_in_scenario init Scenario.waiting) in
  let h2 := snd (onMissionControlMessage_in_scenario ended h1) in
  (getClientCommandsPort Scenario.negotiated <> 0 /\
   rewards_server Scenario.waiting <> None) /\
  (is_mission_running (world_state h1) = true /\
   errors (world_state (sendCommand_in_scenario 5 "move 1" h1)) = []) /\
  (is_mission_running (world_state h2) = false /\
   has_mission_begun (world_state h2) = true /\
   mission_control_messages (world_state h2) = [init; ended] /\
   errors (world_state (sendCommand_in_scenario 10 "move 1" h2))
   = [connection_not_open_error 10]).
Proof.
  intros init ended h1 h2. split; [split; discriminate|].
  destruct (mission_lifecycle Z Scenario.values_add Scenario.getAsSimpleString
              Scenario.MissionInitSpec_parse Scenario.MissionEnded_parse
              Scenario.read_xml Scenario.connection_send Scenario.to_iso_string
              init ended Scenario.waiting [] [] Scenario.negotiated
              (mkMissionEnded ENDED "Mission ended normally" None)
              eq_refl eq_refl ltac:(discriminate) eq_refl eq_refl eq_refl
              ltac:(discriminate))
    as ((_ & Hrunning & _ & _ & Hsent) & (_ & Hstopped & Hbegun & _ & Hmcm & Hclosed)).
  split; [split; [exact Hrunning | exact (Hsent 5 "move 1" eq_refl)]|].
  split; [exact Hstopped|]. split; [exact Hbegun|]. split; [exact Hmcm|].
  fold h1 h2 in Hclosed. rewrite (Hclosed 10 "move 1"). reflexivity.
Defined.

Lemma startMission_local_multi_agent_witness :
  let run := startMission_local_in_scenario Scenario.two_agents
               Scenario.no_recording AgentHost_new in
  (arguments_valid Scenario.two_agents 0 = true /\
   1 < getNumberOfAgents Scenario.two_agents) /\
  fst run = inl (not_enough_clients_error 2) /\
  world_state (snd run) = world_state (AgentHost_new (V := Z)) /\
  network (snd run)
  = [mkExchange "127.0.0.1" 10000
       ("MALMO_REQUEST_CLIENT:0.21.0:20000:" ++ nl) (Some "MALMOBUSY")].
Proof.
  intro run. split; [split; reflexivity|].
  exact (startMission_local_multi_agent Z Scenario.SendStringAndGetShortReply
           Scenario.MALMO_VERSION Scenario.MissionInitSpec_new
           Scenario.MissionInitSpec_parse Scenario.getAsXML Scenario.sscanf_d
           Scenario.bound_port Scenario.default_client_port Scenario.two_agents
           Scenario.no_recording AgentHost_new eq_refl eq_refl eq_refl).
Defined.

Lemma startMission_local_single_agent_witness :
  let start reply :=
    startMission_local Z reply Scenario.MALMO_VERSION
      Scenario.MissionInitSpec_new Scenario.MissionInitSpec_parse
      Scenario.getAsXML Scenario.sscanf_d Scenario.bound_port
      Scenario.default_client_port Scenario.single_agent Scenario.no_recording
      AgentHost_new in
  let document := "<MissionInit><ClientAddress>127.0.0.1</ClientAddress></MissionInit>" in
  (arguments_valid Scenario.single_agent 0 = true /\
   getNumberOfAgents Scenario.single_agent = 1) /\
  (fst (start Scenario.all_accept) = inr tt /\
   network (snd (start Scenario.all_accept))
   = [mkExchange "127.0.0.1" 10000 (document ++ nl) (Some "MALMOOK")]) /\
  (fst (start Scenario.SendStringAndGetShortReply) = inl no_client_error /\
   network (snd (start Scenario.SendStringAndGetShortReply))
   = [mkExchange "127.0.0.1" 10000 (document ++ nl) (Some "MALMOBUSY")] /\
   is_torn_down Z (snd (start Scenario.SendStringAndGetShortReply)) = true).
Proof.
  intros start document. split; [split; reflexivity|].
  pose proof (fun reply =>
                startMission_local_single_agent Z reply Scenario.MALMO_VERSION
                  Scenario.MissionInitSpec_new Scenario.MissionInitSpec_parse
                  Scenario.getAsXML Scenario.sscanf_d Scenario.bound_port
                  Scenario.default_client_port Scenario.single_agent
                  Scenario.no_recording AgentHost_new eq_refl eq_refl eq_refl)
    as Hstart.
  split.
  - destruct (Hstart Scenario.all_accept) as (mi & Hmi & _ & Hrun).
    vm_compute in Hmi. injection Hmi as <-.
    destruct Hrun as (Hnet & Hok & _).
    split; [exact Hok | exact Hnet].
  - destruct (Hstart Scenario.SendStringAndGetShortReply)
      as (mi & Hmi & _ & Hrun).
    vm_compute in Hmi. injection Hmi as <-.
    destruct Hrun as (Hnet & Hfail & Hdown & _).
    split; [exact Hfail|]. split; [exact Hnet | exact Hdown].
Defined.

Lemma extractVersionNumber_first_match_witness :
  map Scenario.trim (Scenario.schema_file_lines "Mission.xsd")
  = ["<?xml version=" ++ Scenario.quote ++ "1.0" ++ Scenario.quote ++ "?>";
     "<xs:schema xmlns:xs=" ++ Scenario.quote
     ++ "http://www.w3.org/2001/XMLSchema" ++ Scenario.quote
     ++ " jaxb:version=" ++ Scenario.quote ++ "2.1" ++ Scenario.quote;
     "version=" ++ Scenario.quote ++ "0.21" ++ Scenario.quote ++ ">";
     "</xs:schema>"] /\
  extractVersionNumber Scenario.schema_file_lines Scenario.trim
    Scenario.version_regex_search "Mission.xsd" = "0.21".
Proof.
  split; [vm_compute; reflexivity|].
  apply (extractVersionNumber_first_match Scenario.schema_file_lines
           Scenario.trim Scenario.version_regex_search "Mission.xsd" 3 "0.21").
  - cbn. lia.
  - intros j Hj. assert (j = 1 \/ j = 2)%nat as [-> | ->] by lia;
      vm_compute; reflexivity.
  - vm_compute. reflexivity.
  - discriminate.
Defined.

Lemma testSchemasCompatible_version_not_found_witness :
  In "Types.xsd" schemas /\
  testSchemasCompatible Scenario.MALMO_VERSION Scenario.schema_file_lines
    Scenario.trim Scenario.version_regex_search <> None.
Proof.
  split; [cbn; tauto|].
  apply (testSchemasCompatible_version_not_found Scenario.MALMO_VERSION
           Scenario.schema_file_lines Scenario.trim
           Scenario.version_regex_search "Types.xsd").
  - cbn. tauto.
  - intros j Hj. cbn in Hj.
    assert (j = 1 \/ j = 2)%nat as [-> | ->] by lia; vm_compute; reflexivity.
Defined.

Lemma sendCommand_each_command_once_witness :
  let h := set_commands_stream (Some "commands.txt") Scenario.running in
  let h' := send_commands Z Scenario.connection_send Scenario.to_iso_string
              [(1, "move 1"); (2, "quit"); (3, "turn 1")] h in
  commands_stream h <> None /\
  errors (world_state h')
  = [mkTimestampedString 2
       "AgentHost::sendCommand : failed to send command: connection reset by peer"] /\
  files h'
  = [("commands.txt", "1 move 1" ++ nl); ("commands.txt", "3 turn 1" ++ nl)].
Proof.
  intros h h'. split; [discriminate|].
  destruct (sendCommand_each_command_once Z Scenario.connection_send
              Scenario.to_iso_string
              [(1, "move 1"); (2, "quit"); (3, "turn 1")] h) as (Hrun & _ & _).
  subst h'. rewrite Hrun. split; reflexivity.
Defined.
